(** * igvm: the DRBD transport, the VM commands and the balance models

A shallow embedding of [igvm/drbd.py], [igvm/commands.py] and
[igvm/balance/models.py].  Remote effects (shell commands run on a
hypervisor, libvirt queries, inventory reads) are calls to an
environment which may answer or raise; every call is recorded in a
trace, so that ordering and roll-back properties are statements about
traces that hold for every environment. *)

From Stdlib Require Import ZArith Lia Bool List Ascii String Floats.
From stdpp Require Import base tactics option list strings gmap.

Local Open Scope string_scope.
Local Open Scope Z_scope.
Local Open Scope list_scope.

(** ** Python strings and integers *)

Module Py.

(** The double quote and the line feed, as one-character strings. *)
Definition dq : string := String "034"%char EmptyString.
Definition nl : string := String "010"%char EmptyString.

(** [s.split(sep)] for a one-character separator: every occurrence
    cuts, empty pieces are kept. *)
Fixpoint split (sep : ascii) (s : string) : list string :=
  match s with
  | EmptyString => [EmptyString]
  | String c s' =>
      if Ascii.eqb c sep then EmptyString :: split sep s'
      else match split sep s' with
           | [] => [String c EmptyString]
           | w :: ws => String c w :: ws
           end
  end.

(** [s.startswith(p)] *)
Fixpoint startswith (p s : string) : bool :=
  match p, s with
  | EmptyString, _ => true
  | String a p', String b s' => Ascii.eqb a b && startswith p' s'
  | String _ _, EmptyString => false
  end.

(** [needle in hay] *)
Fixpoint contains (needle hay : string) : bool :=
  startswith needle hay
  || match hay with
     | EmptyString => false
     | String _ hay' => contains needle hay'
     end.

(** [s[1:]] *)
Definition tail (s : string) : string :=
  match s with
  | EmptyString => EmptyString
  | String _ s' => s'
  end.

Definition digit_char (d : Z) : ascii :=
  Ascii.ascii_of_N (Z.to_N (48 + d)).

Fixpoint digits (fuel : nat) (n : Z) (acc : string) : string :=
  match fuel with
  | O => acc
  | S fuel' =>
      let acc' := String (digit_char (n mod 10)) acc in
      if n / 10 =? 0 then acc' else digits fuel' (n / 10) acc'
  end.

(** [str(n)] and ['{}'.format(n)] for an integer: decimal, a minus
    sign for negatives. *)
Definition str (n : Z) : string :=
  if n <? 0
  then String "-"%char (digits (S (Z.to_nat (Z.log2 (- n)))) (- n) EmptyString)
  else digits (S (Z.to_nat (Z.log2 n))) n EmptyString.

Definition is_space (c : ascii) : bool :=
  let n := Ascii.N_of_ascii c in
  ((9 <=? n) && (n <=? 13))%N || (n =? 32)%N.

Fixpoint lstrip (s : string) : string :=
  match s with
  | String c s' => if is_space c then lstrip s' else s
  | EmptyString => EmptyString
  end.

Fixpoint rstrip (s : string) : string :=
  match s with
  | EmptyString => EmptyString
  | String c s' =>
      match rstrip s' with
      | EmptyString => if is_space c then EmptyString else String c EmptyString
      | r => String c r
      end
  end.

(** [s.strip()] *)
Definition strip (s : string) : string := rstrip (lstrip s).

(** The value of one digit in the given base, letters in either case. *)
Definition digit_value (base : Z) (c : ascii) : option Z :=
  let n := Z.of_N (Ascii.N_of_ascii c) in
  let v :=
    if (48 <=? n) && (n <=? 57) then Some (n - 48)
    else if (97 <=? n) && (n <=? 122) then Some (n - 87)
    else if (65 <=? n) && (n <=? 90) then Some (n - 55)
    else None in
  match v with
  | Some d => if d <? base then Some d else None
  | None => None
  end.

Fixpoint parse_digits (base : Z) (acc : Z) (s : string) : option Z :=
  match s with
  | EmptyString => Some acc
  | String c s' =>
      match digit_value base c with
      | Some d => parse_digits base (acc * base + d) s'
      | None => None
      end
  end.

Definition parse_unsigned (base : Z) (s : string) : option Z :=
  match s with
  | EmptyString => None
  | _ => parse_digits base 0 s
  end.

(** An optional [0x] or [0X] in front of a base-16 literal. *)
Definition drop_radix (base : Z) (s : string) : string :=
  if (base =? 16) && (startswith "0x" s || startswith "0X" s)
  then tail (tail s) else s.

(** [int(s, base)]: surrounding white space, an optional sign, for
    base 16 an optional radix prefix, then at least one digit.
    [None] stands for [ValueError].  (Underscores between digits,
    which Python 3.6 and later accept, are not modelled.) *)
Definition int (base : Z) (s : string) : option Z :=
  let t := strip s in
  match t with
  | String "-"%char t' => Z.opp <$> parse_unsigned base (drop_radix base t')
  | String "+"%char t' => parse_unsigned base (drop_radix base t')
  | _ => parse_unsigned base (drop_radix base t)
  end.

(** [b.splitlines()] on bytes: lines end at LF, CR or CR LF, the
    terminators are dropped and a final terminator opens no empty
    line. *)
Fixpoint splitlines_go (cur : string) (s : string) : list string :=
  match s with
  | EmptyString =>
      match cur with EmptyString => [] | _ => [String.rev cur] end
  | String c s' =>
      if Ascii.eqb c "010"%char then String.rev cur :: splitlines_go EmptyString s'
      else if Ascii.eqb c "013"%char then
        match s' with
        | String c' s'' =>
            if Ascii.eqb c' "010"%char
            then String.rev cur :: splitlines_go EmptyString s''
            else String.rev cur :: splitlines_go EmptyString s'
        | EmptyString => [String.rev cur]
        end
      else splitlines_go (String c cur) s'
  end.

Definition splitlines (s : string) : list string :=
  splitlines_go EmptyString s.

(** [c in s] for one character. *)
Fixpoint has_char (c : ascii) (s : string) : bool :=
  match s with
  | EmptyString => false
  | String c' s' => Ascii.eqb c' c || has_char c s'
  end.

End Py.

(** ** Exceptions, results and the effect monad *)

(** A Python exception: its class and its message. *)
Record exn := Exn { exn_class : string; exn_msg : string }.

Inductive res (A : Type) : Type :=
| Ok (a : A)
| Raise (e : exn).
Arguments Ok {A} a.
Arguments Raise {A} e.

(** What a call to the environment came back with. *)
Inductive reply :=
| RUnit
| RBool (b : bool)
| RInt (z : Z)
| RStr (s : string)
| RRaise (e : exn).

Module Eff.
Section Effects.
(** [action] is what the program can ask of the world, [H] the part of
    the Python heap the program mutates. *)
Context {action H : Type}.

Inductive event :=
| Call (a : action) (r : reply)   (* a call to the world and its answer *)
| Noted (a : action)              (* a call that cannot fail: logging, sleep *)
| Raised (e : exn).               (* a [raise] statement of the program *)

(** The world: given everything that happened so far, it answers a
    call or raises.  One answer function per result type. *)
Record Env := {
  ask_unit : list event -> action -> res unit;
  ask_bool : list event -> action -> res bool;
  ask_int : list event -> action -> res Z;
  ask_str : list event -> action -> res string
}.

Record state := State { trace : list event; heap : H }.

Definition M (A : Type) : Type := state -> state * res A.

Definition log (ev : event) (s : state) : state :=
  State (trace s ++ [ev]) (heap s).

Definition ret {A} (a : A) : M A := fun s => (s, Ok a).

Definition bind {A B} (m : M A) (k : A -> M B) : M B := fun s =>
  match m s with
  | (s', Ok a) => k a s'
  | (s', Raise e) => (s', Raise e)
  end.

(** [raise e] *)
Definition raise {A} (e : exn) : M A := fun s => (log (Raised e) s, Raise e).

(** [try: body / except BaseException: handler; raise]: the handler
    runs on any exception of the body and the exception is raised
    again; an exception of the handler itself takes its place. *)
Definition try_except {A} (body : M A) (handler : M unit) : M A := fun s =>
  match body s with
  | (s', Ok a) => (s', Ok a)
  | (s', Raise e) =>
      match handler s' with
      | (s'', Ok _) => (s'', Raise e)
      | (s'', Raise e') => (s'', Raise e')
      end
  end.

(** [try: body / finally: final] *)
Definition try_finally {A} (body : M A) (final : M unit) : M A := fun s =>
  match body s with
  | (s', r) =>
      match final s' with
      | (s'', Ok _) => (s'', r)
      | (s'', Raise e') => (s'', Raise e')
      end
  end.

Definition get_heap : M H := fun s => (s, Ok (heap s)).
Definition set_heap (h : H) : M unit := fun s => (State (trace s) h, Ok tt).

Definition note (a : action) : M unit := fun s => (log (Noted a) s, Ok tt).

Variable env : Env.

Definition call_unit (a : action) : M unit := fun s =>
  match ask_unit env (trace s) a with
  | Ok v => (log (Call a RUnit) s, Ok v)
  | Raise e => (log (Call a (RRaise e)) s, Raise e)
  end.

Definition call_bool (a : action) : M bool := fun s =>
  match ask_bool env (trace s) a with
  | Ok v => (log (Call a (RBool v)) s, Ok v)
  | Raise e => (log (Call a (RRaise e)) s, Raise e)
  end.

Definition call_int (a : action) : M Z := fun s =>
  match ask_int env (trace s) a with
  | Ok v => (log (Call a (RInt v)) s, Ok v)
  | Raise e => (log (Call a (RRaise e)) s, Raise e)
  end.

Definition call_str (a : action) : M string := fun s =>
  match ask_str env (trace s) a with
  | Ok v => (log (Call a (RStr v)) s, Ok v)
  | Raise e => (log (Call a (RRaise e)) s, Raise e)
  end.

End Effects.

Arguments event : clear implicits.
Arguments Env : clear implicits.
Arguments state : clear implicits.
Arguments M : clear implicits.

(** An event that ended in an exception. *)
Definition failed {action} (ev : event action) : bool :=
match ev with
| Call _ (RRaise _) | Raised _ => true
| _ => false
end.

(** The call an event records, if it records one. *)
Definition action_of {action} (ev : event action) : option action :=
match ev with
| Call a _ | Noted a => Some a
| Raised _ => None
end.

End Eff.

Notation "x <- m ;; k" := (Eff.bind m (fun x => k))
(at level 100, m at next level, right associativity).
Notation "m ;; k" := (Eff.bind m (fun _ => k))
(at level 100, right associativity).

(** ** igvm/drbd.py *)

Module Drbd.

Import Eff.

(** [hv.dataset_obj]: the two attributes the transport reads. *)
Record Hypervisor := { hostname : string; intern_ip : string }.

Record VM := { fqdn : string; uid_name : string; hypervisor : Hypervisor }.

(** The shell commands the transport sends through [hv.run]; [render]
    gives the text the source formats. *)
Inductive shell :=
| StatMinor (vg lv : string)
| LvsSize (vg lv : string)
| LvCreate (name vg : string)
| DdZero (vg name : string)
| DmTable (vg lv file : string)
| DmCreateOrig (lv file : string)
| DmRemoveOrig (lv : string)
| RmRes (vm : string)
| DmSuspend (vg lv : string)
| DrbdCreateMd (vm : string)
| DrbdUp (vm : string)
| DrbdOverwritePrimary (vm : string)
| DrbdWaitConnect (vm : string)
| DrbdPrimary (vm : string)
| DmLoadLinear (vg lv : string) (sectors minor : Z)
| DmResume (vg lv : string)
| DmLoadFile (vg lv file : string)
| DrbdDown (vm : string)
| DrbdWaitSync (minor : Z)
| LvRemove (vg name : string).

Definition render (c : shell) : string :=
  match c with
  | StatMinor vg lv =>
      "stat -L -c " +:+ Py.dq +:+ "%T" +:+ Py.dq +:+ " /dev/" +:+ vg +:+ "/" +:+ lv
  | LvsSize vg lv =>
      "lvs --noheadings -o lv_size --units b --nosuffix " +:+ vg +:+ "/" +:+ lv
  | LvCreate name vg => "lvcreate -y -n " +:+ name +:+ " -L256M " +:+ vg
  | DdZero vg name =>
      "dd if=/dev/zero of=/dev/" +:+ vg +:+ "/" +:+ name +:+ " bs=1048576 count=256"
  | DmTable vg lv file => "dmsetup table /dev/" +:+ vg +:+ "/" +:+ lv +:+ " > " +:+ file
  | DmCreateOrig lv file => "dmsetup create " +:+ lv +:+ "_orig < " +:+ file
  | DmRemoveOrig lv => "dmsetup remove " +:+ lv +:+ "_orig"
  | RmRes vm => "rm /etc/drbd.d/" +:+ vm +:+ ".res"
  | DmSuspend vg lv => "dmsetup suspend /dev/" +:+ vg +:+ "/" +:+ lv
  | DrbdCreateMd vm => "drbdadm create-md " +:+ vm
  | DrbdUp vm => "drbdadm up " +:+ vm
  | DrbdOverwritePrimary vm => "drbdadm -- --overwrite-data-of-peer primary " +:+ vm
  | DrbdWaitConnect vm => "drbdadm wait-connect " +:+ vm
  | DrbdPrimary vm => "drbdadm -- primary " +:+ vm
  | DmLoadLinear vg lv sectors minor =>
      "dmsetup load /dev/" +:+ vg +:+ "/" +:+ lv +:+ " --table " +:+ Py.dq +:+ "0 "
      +:+ Py.str sectors +:+ " linear /dev/drbd" +:+ Py.str minor +:+ " 0" +:+ Py.dq
  | DmResume vg lv => "dmsetup resume /dev/" +:+ vg +:+ "/" +:+ lv
  | DmLoadFile vg lv file => "dmsetup load /dev/" +:+ vg +:+ "/" +:+ lv +:+ " < " +:+ file
  | DrbdDown vm => "drbdadm down " +:+ vm
  | DrbdWaitSync minor => "drbdsetup wait-sync " +:+ Py.str minor
  | LvRemove vg name => "lvremove -fy " +:+ vg +:+ "/" +:+ name
  end.

(** What the transport asks of the hypervisors and the guest.  [host]
    is the hostname of the hypervisor object the method is called on,
    [vm] the fqdn of the VM passed along. *)
Inductive action :=
| Run (host : string) (cmd : shell) (silent warn_only : bool)   (* hv.run *)
| Put (host path content mode : string)                         (* hv.put *)
| ReadFile (host path : string)                                 (* hv.read_file *)
| VmDefined (host vm : string)                                  (* hv.vm_defined *)
| VmRunning (host vm : string)                                  (* hv.vm_running *)
| SuspendVm (host vm : string)                                  (* hv.suspend_vm *)
| ResumeVm (host vm : string)                                   (* hv.resume_vm *)
| VolumePath (host vm : string)           (* hv.get_volume_by_vm(vm).path() *)
| BlockSize (host path : string)                                (* hv.get_block_size *)
| GuestBlockSize (vm dev : string)                              (* vm.get_block_size *)
| SetGuestBlockSize (vm dev : string) (size : Z)                (* vm.set_block_size *)
| Sleep (seconds : Z)
| LogDebug (msg : string)
| LogInfo (msg : string)
| LogWarning (msg : string).

(** A [DRBD] object.  [oid] is the identity of the Python object: the
    cached [dev_minor], the one attribute written after construction,
    lives in the heap under it, so that a peer handed to [start] and
    used again later shares its cache.  ([mapper_name] is set to [None]
    and never read.) *)
Record DRBD := {
  oid : nat;
  hv : Hypervisor;
  master_role : bool;
  vm : VM;
  vg_name : string;
  lv_name : string;
  vm_name : string;
  meta_disk : string;
  table_file : string
}.

(** The heap: [dev_minor] of each [DRBD] object, absent for [None]. *)
Abbreviation heap_t := (gmap nat Z).
Abbreviation M := (Eff.M action heap_t).
Abbreviation event := (Eff.event action).
Abbreviation state := (Eff.state action heap_t).
Abbreviation Env := (Eff.Env action).

Definition ValueError (msg : string) : exn := Exn "ValueError" msg.
Definition IndexError : exn := Exn "IndexError" "list index out of range".

(** [l[i]] *)
Definition index (l : list string) (i : nat) : M string :=
  match l !! i with
  | Some x => ret x
  | None => raise IndexError
  end.

Section Transport.
  Variable env : Env.

Definition hv_run (h : Hypervisor) (cmd : shell) : M string :=
  call_str env (Run (hostname h) cmd false false).

(** [sync_block_size(vm, target_hypervisor)] *)
Definition sync_block_size (vm : VM) (target_hypervisor : Hypervisor) : M unit :=
  running <- call_bool env (VmRunning (hostname (hypervisor vm)) (fqdn vm)) ;;
  if running : bool then
    vm_block_size <- call_int env (GuestBlockSize (fqdn vm) "/dev/vda") ;;
    src_path <- call_str env (VolumePath (hostname (hypervisor vm)) (fqdn vm)) ;;
    src_block_size <- call_int env (BlockSize (hostname (hypervisor vm)) src_path) ;;
    dst_path <- call_str env (VolumePath (hostname target_hypervisor) (fqdn vm)) ;;
    dst_block_size <- call_int env (BlockSize (hostname target_hypervisor) dst_path) ;;
    note (LogDebug ("Block sizes: VM " +:+ Py.str vm_block_size
                    +:+ ", Source HV " +:+ Py.str src_block_size
                    +:+ ", Destination HV " +:+ Py.str dst_block_size)) ;;
    call_unit env (SetGuestBlockSize (fqdn vm) "vda"
                     (Z.min vm_block_size (Z.min src_block_size dst_block_size)))
  else ret tt.

(** [DRBD.__init__(self, hv, vm, master_role)]; [o] is the identity
    of the object under construction. *)
Definition init (o : nat) (hv : Hypervisor) (vm : VM) (master_role : bool) : M DRBD :=
  lv <- call_str env (VolumePath (hostname (hypervisor vm)) (fqdn vm)) ;;
  let lv_name := Py.split "/" lv in
  vg <- index lv_name 2 ;;
  name <- (if master_role then index lv_name 3 else ret (uid_name vm)) ;;
  h <- get_heap ;;
  set_heap (delete o h) ;;
  ret {| oid := o; hv := hv; master_role := master_role; vm := vm;
         vg_name := vg; lv_name := name; vm_name := fqdn vm;
         meta_disk := fqdn vm +:+ "_meta";
         table_file := "/tmp/" +:+ vg +:+ "_" +:+ name +:+ "_table" |}.

Definition get_device_minor (self : DRBD) : M Z :=
  h <- get_heap ;;
  match h !! oid self with
  | Some m => ret m
  | None =>
      dev_minor <- call_str env (Run (hostname (hv self))
                                   (StatMinor (vg_name self) (lv_name self)) true false) ;;
      match Py.int 16 dev_minor with
      | Some m => set_heap (<[oid self := m]> h) ;; ret m
      | None => raise (ValueError dev_minor)
      end
  end.

Definition get_device_port (self : DRBD) : M Z :=
  dev_minor <- get_device_minor self ;;
  ret (8000 + dev_minor).

Definition get_device_size (self : DRBD) : M Z :=
  out <- hv_run (hv self) (LvsSize (vg_name self) (lv_name self)) ;;
  match Py.int 10 (Py.strip out) with
  | Some n => ret n
  | None => raise (ValueError (Py.strip out))
  end.

(** [get_host_config(self)] *)
Definition get_host_config (self : DRBD) : M string :=
  port <- get_device_port self ;;
  dm_minor <- get_device_minor self ;;
  let disk := "mapper/" +:+ lv_name self +:+ "_orig" in
  ret ("    on " +:+ hostname (hv self) +:+ " {" +:+ Py.nl
       +:+ "        address   " +:+ intern_ip (hv self) +:+ ":" +:+ Py.str port +:+ ";" +:+ Py.nl
       +:+ "        device    /dev/drbd" +:+ Py.str dm_minor +:+ ";" +:+ Py.nl
       +:+ "        disk      /dev/" +:+ disk +:+ ";" +:+ Py.nl
       +:+ "        meta-disk /dev/" +:+ vg_name self +:+ "/" +:+ meta_disk self +:+ ";" +:+ Py.nl
       +:+ "    }").

(** The text [build_config] formats: the adjacent literals of the
    source, the Python comments between them left out. *)
Definition resource_text (dev src_host dst_host : string) : string :=
  "resource " +:+ dev +:+ " {" +:+ Py.nl
  +:+ "    net {" +:+ Py.nl
  +:+ "        protocol C;" +:+ Py.nl
  +:+ "        max-buffers 24k;" +:+ Py.nl
  +:+ "#        sndbuf-size 2048k;" +:+ Py.nl
  +:+ "#        rcvbuf-size 2048k;" +:+ Py.nl
  +:+ "        allow-two-primaries;" +:+ Py.nl
  +:+ "    }" +:+ Py.nl
  +:+ "    disk {" +:+ Py.nl
  +:+ "         c-max-rate 750M;" +:+ Py.nl
  +:+ "         resync-rate 750M;" +:+ Py.nl
  +:+ "    }" +:+ Py.nl
  +:+ src_host +:+ Py.nl
  +:+ dst_host +:+ Py.nl
  +:+ "}" +:+ Py.nl.

Definition res_path (self : DRBD) : string :=
  "/etc/drbd.d/" +:+ vm_name self +:+ ".res".

(** The context managers are functions of the block they guard: the
    code before [yield] runs, then the block in place of [yield] under
    the same [try], then the code after it. *)

(** [prepare_lv_override(self)] *)
Definition prepare_lv_override {A} (self : DRBD) (block : M A) : M A :=
  hv_run (hv self) (DmTable (vg_name self) (lv_name self) (table_file self)) ;;
  hv_run (hv self) (DmCreateOrig (lv_name self) (table_file self)) ;;
  try_except block
    (hv_run (hv self) (DmRemoveOrig (lv_name self)) ;; ret tt).

(** [prepare_metadata_device(self)] *)
Definition prepare_metadata_device {A} (self : DRBD) (block : M A) : M A :=
  hv_run (hv self) (LvCreate (meta_disk self) (vg_name self)) ;;
  try_except
    (hv_run (hv self) (DdZero (vg_name self) (meta_disk self)) ;;
     prepare_lv_override self block)
    (hv_run (hv self) (LvRemove (vg_name self) (meta_disk self)) ;; ret tt).

(** [build_config(self, peer)] *)
Definition build_config {A} (self peer : DRBD) (block : M A) : M A :=
  src_host <- get_host_config self ;;
  dst_host <- get_host_config peer ;;
  call_unit env (Put (hostname (hv self)) (res_path self)
                   (resource_text (vm_name self) src_host dst_host) "0640") ;;
  try_except block
    (hv_run (hv self) (RmRes (vm_name self)) ;; ret tt).

(** [take_over_device(self)] *)
Definition take_over_device (self : DRBD) : M unit :=
  dev_size <- get_device_size self ;;
  hv_run (hv self) (DmSuspend (vg_name self) (lv_name self)) ;;
  try_except
    (hv_run (hv self) (DrbdCreateMd (vm_name self)) ;;
     hv_run (hv self) (DrbdUp (vm_name self)) ;;
     (if master_role self
      then hv_run (hv self) (DrbdOverwritePrimary (vm_name self)) ;; ret tt
      else hv_run (hv self) (DrbdWaitConnect (vm_name self)) ;;
           hv_run (hv self) (DrbdPrimary (vm_name self)) ;; ret tt) ;;
     dm_minor <- get_device_minor self ;;
     hv_run (hv self) (DmLoadLinear (vg_name self) (lv_name self)
                         (dev_size / 512) dm_minor) ;;
     try_except
       (hv_run (hv self) (DmResume (vg_name self) (lv_name self)) ;; ret tt)
       (hv_run (hv self) (DmLoadFile (vg_name self) (lv_name self) (table_file self)) ;;
        hv_run (hv self) (DmResume (vg_name self) (lv_name self)) ;; ret tt))
    (call_str env (Run (hostname (hv self)) (DrbdDown (vm_name self)) false true) ;;
     hv_run (hv self) (DmResume (vg_name self) (lv_name self)) ;; ret tt).

(** [not self.master_role and self.hv.vm_defined(self.vm) and
    self.hv.vm_running(self.vm)], evaluated left to right and cut short
    at the first false operand. *)
Definition secondary_vm_running (self : DRBD) : M bool :=
  if negb (master_role self) then
    defined <- call_bool env (VmDefined (hostname (hv self)) (fqdn (vm self))) ;;
    if defined : bool
    then call_bool env (VmRunning (hostname (hv self)) (fqdn (vm self)))
    else ret false
  else ret false.

(** [stop(self)] *)
Definition stop (self : DRBD) : M unit :=
  suspend <- secondary_vm_running self ;;
  (if suspend : bool
   then call_unit env (SuspendVm (hostname (hv self)) (fqdn (vm self)))
   else ret tt) ;;
  hv_run (hv self) (DmLoadFile (vg_name self) (lv_name self) (table_file self)) ;;
  hv_run (hv self) (DmResume (vg_name self) (lv_name self)) ;;
  hv_run (hv self) (DrbdDown (vm_name self)) ;;
  resume <- secondary_vm_running self ;;
  (if resume : bool
   then call_unit env (ResumeVm (hostname (hv self)) (fqdn (vm self)))
   else ret tt) ;;
  hv_run (hv self) (DmRemoveOrig (lv_name self)) ;;
  hv_run (hv self) (LvRemove (vg_name self) (meta_disk self)) ;;
  hv_run (hv self) (RmRes (vm_name self)) ;;
  ret tt.

(** The part of [start] that runs before its [yield]:
    [with self.prepare_metadata_device(), self.build_config(peer):
    self.take_over_device()]. *)
Definition start_enter (self peer : DRBD) : M unit :=
  prepare_metadata_device self (build_config self peer (take_over_device self)).

(** [start(self, peer)], around the block of the caller's [with]. *)
Definition start {A} (self peer : DRBD) (block : M A) : M A :=
  start_enter self peer ;;
  try_finally block (stop self).

(** The [for line in lines] of [wait_for_sync]: the first line that
    contains the status marker of this device, with the lines after it
    (what is left of the iterator); [None] when the loop runs to its
    [else].  The marker is formatted anew for every line. *)
Fixpoint find_status (self : DRBD) (lines : list string)
  : M (option (string * list string)) :=
  match lines with
  | [] => ret None
  | line :: rest =>
      dev_minor <- get_device_minor self ;;
      if Py.contains (Py.str dev_minor +:+ ": cs:") line
      then ret (Some (line, rest))
      else find_status self rest
  end.

Definition waiting_msg : string := "Waiting for DRBD progress bar to show up".
Definition no_bar_msg : string := "Could not find progress bar, migrating without it!".

(** One turn of the [while show_progress] loop, entered with
    [show_progress] true: the new [progressbar_found] and
    [show_progress]. *)
Definition poll (self : DRBD) (progressbar_found : Z) : M (Z * bool) :=
  content <- call_str env (ReadFile (hostname (hv self)) "/proc/drbd") ;;
  found <- find_status self (Py.splitlines content) ;;
  r <- match found with
       | Some (line, rest) =>
           let show_progress := negb (Py.contains "ds:UpToDate/UpToDate" line) in
           match rest with
           | _ :: bar :: _ =>
               note (LogInfo bar) ;; ret (progressbar_found, show_progress)
           | _ =>
               let progressbar_found := progressbar_found + 1 in
               if progressbar_found <? 5
               then note (LogInfo waiting_msg) ;;
                    ret (progressbar_found, show_progress)
               else note (LogWarning no_bar_msg) ;;
                    ret (progressbar_found, false)
           end
       | None => ret (progressbar_found, false)
       end ;;
  note (Sleep 1) ;;
  ret r.

(** The loop, for at most [fuel] turns: [true] when it was left,
    [false] when the turns ran out with [show_progress] still true. *)
Fixpoint progress_loop (fuel : nat) (self : DRBD) (progressbar_found : Z) : M bool :=
  match fuel with
  | O => ret false
  | S fuel' =>
      r <- poll self progressbar_found ;;
      if snd r : bool then progress_loop fuel' self (fst r) else ret true
  end.

(** [wait_for_sync(self)], the loop bounded by [fuel] turns; the result
    tells whether the method returned within them. *)
Definition wait_for_sync (fuel : nat) (self : DRBD) : M bool :=
  left <- progress_loop fuel self 0 ;;
  if left : bool then
    dev_minor <- get_device_minor self ;;
    hv_run (hv self) (DrbdWaitSync dev_minor) ;;
    ret true
  else ret false.

End Transport.

(** *** What the commands leave on a hypervisor

    The logical volumes, device-mapper devices and files of one
    hypervisor, and the effect a completed call has on them: [lvcreate]
    and [lvremove], [dmsetup create] and [dmsetup remove], the file a
    redirection or an upload writes, and [rm]. *)
Record resources := {
  volumes : gset (string * string);     (* (vg, lv) *)
  dm_devices : gset string;
  files : gset string
}.

Definition no_resources : resources :=
  {| volumes := ∅; dm_devices := ∅; files := ∅ |}.

Definition shell_effect (c : shell) (w : resources) : resources :=
  match c with
  | LvCreate name vg =>
      {| volumes := {[ (vg, name) ]} ∪ volumes w;
         dm_devices := dm_devices w; files := files w |}
  | LvRemove vg name =>
      {| volumes := volumes w ∖ {[ (vg, name) ]};
         dm_devices := dm_devices w; files := files w |}
  | DmTable _ _ file =>
      {| volumes := volumes w; dm_devices := dm_devices w;
         files := {[ file ]} ∪ files w |}
  | DmCreateOrig lv _ =>
      {| volumes := volumes w; dm_devices := {[ lv +:+ "_orig" ]} ∪ dm_devices w;
         files := files w |}
  | DmRemoveOrig lv =>
      {| volumes := volumes w; dm_devices := dm_devices w ∖ {[ lv +:+ "_orig" ]};
         files := files w |}
  | RmRes vm =>
      {| volumes := volumes w; dm_devices := dm_devices w;
         files := files w ∖ {[ "/etc/drbd.d/" +:+ vm +:+ ".res" ]} |}
  | _ => w
  end.

(** The effect of a completed call on the resources of [host]. *)
Definition call_effect (host : string) (a : action) (w : resources) : resources :=
  match a with
  | Run h c _ _ => if decide (h = host) then shell_effect c w else w
  | Put h path _ _ =>
      if decide (h = host)
      then {| volumes := volumes w; dm_devices := dm_devices w;
              files := {[ path ]} ∪ files w |}
      else w
  | _ => w
  end.

(** A call that raised leaves the resources as they were. *)
Definition effect (host : string) (ev : event) (w : resources) : resources :=
  match ev with
  | Call a r => if failed ev then w else call_effect host a w
  | Noted a => call_effect host a w
  | Raised _ => w
  end.

(** The resources of [host] after the events of a trace. *)
Definition resources_after (host : string) (tr : list event) (w : resources) : resources :=
  fold_left (fun w ev => effect host ev w) tr w.

(** The four things a session puts on its hypervisor. *)
Definition meta_lv_present (d : DRBD) (w : resources) : Prop :=
  (vg_name d, meta_disk d) ∈ volumes w.
Definition shim_present (d : DRBD) (w : resources) : Prop :=
  (lv_name d +:+ "_orig") ∈ dm_devices w.
Definition res_file_present (d : DRBD) (w : resources) : Prop :=
  res_path d ∈ files w.
Definition table_file_present (d : DRBD) (w : resources) : Prop :=
  table_file d ∈ files w.

Definition quad_absent (d : DRBD) (w : resources) : Prop :=
  ¬ meta_lv_present d w ∧ ¬ shim_present d w ∧
  ¬ res_file_present d w ∧ ¬ table_file_present d w.

(** *** Unwinding

    The inverse that becomes due once a forward call has completed, as
    the [except] clauses of the source pair them: the inverse of
    [lvcreate], of [dmsetup create], of the upload, of the suspend (the
    [drbdadm down] that is allowed to fail, then the resume) and of the
    load of the DRBD table. *)
Definition inverse (d : DRBD) (a : action) : list action :=
  match a with
  | Run h (LvCreate name vg) _ _ => [Run h (LvRemove vg name) false false]
  | Run h (DmCreateOrig lv _) _ _ => [Run h (DmRemoveOrig lv) false false]
  | Put h _ _ _ => [Run h (RmRes (vm_name d)) false false]
  | Run h (DmSuspend vg lv) _ _ =>
      [Run h (DrbdDown (vm_name d)) false true; Run h (DmResume vg lv) false false]
  | Run h (DmLoadLinear vg lv _ _) _ _ =>
      [Run h (DmLoadFile vg lv (table_file d)) false false;
       Run h (DmResume vg lv) false false]
  | _ => []
  end.

(** Last in, first out: the inverses of the completed calls, the latest
    call first. *)
Definition unwind (d : DRBD) (completed : list action) : list action :=
  flat_map (inverse d) (rev completed).

Definition actions (tr : list event) : list action := omap action_of tr.

(** A trace cut at its first failed event: the events before it, the
    failed event, the events after it. *)
Fixpoint cut_at_failure (tr : list event) : option (list event * event * list event) :=
  match tr with
  | [] => None
  | ev :: tr' =>
      if failed ev then Some ([], ev, tr')
      else match cut_at_failure tr' with
           | Some (before, bad, after) => Some (ev :: before, bad, after)
           | None => None
           end
  end.

(** The exception a failed event raised. *)
Definition exn_of (ev : event) : option exn :=
  match ev with
  | Call _ (RRaise e) | Raised e => Some e
  | _ => None
  end.

Definition clean (tr : list event) : bool := forallb (fun ev => negb (failed ev)) tr.

(** *** The forward calls of [start]

    The calls that change the hypervisor, in the order of the source:
    the steps up to the promotion, the promotion (the one place where
    the roles differ) and the splice. *)
Definition steps_before_promotion (self : DRBD) (content : string) : list action :=
  let h := hostname (hv self) in
  [ Run h (LvCreate (meta_disk self) (vg_name self)) false false;
    Run h (DdZero (vg_name self) (meta_disk self)) false false;
    Run h (DmTable (vg_name self) (lv_name self) (table_file self)) false false;
    Run h (DmCreateOrig (lv_name self) (table_file self)) false false;
    Put h (res_path self) content "0640";
    Run h (DmSuspend (vg_name self) (lv_name self)) false false;
    Run h (DrbdCreateMd (vm_name self)) false false;
    Run h (DrbdUp (vm_name self)) false false ].

Definition promotion (self : DRBD) : list action :=
  let h := hostname (hv self) in
  if master_role self
  then [ Run h (DrbdOverwritePrimary (vm_name self)) false false ]
  else [ Run h (DrbdWaitConnect (vm_name self)) false false;
         Run h (DrbdPrimary (vm_name self)) false false ].

Definition steps_after_promotion (self : DRBD) (sectors minor : Z) : list action :=
  let h := hostname (hv self) in
  [ Run h (DmLoadLinear (vg_name self) (lv_name self) sectors minor) false false;
    Run h (DmResume (vg_name self) (lv_name self)) false false ].

Definition forward_steps (self : DRBD) (content : string) (sectors minor : Z) : list action :=
  steps_before_promotion self content ++ promotion self
  ++ steps_after_promotion self sectors minor.

(** The read-only queries [start] makes in between: the minor of either
    end, when it is not cached yet, and the size of the volume. *)
Definition forward_queries (self peer : DRBD) : list action :=
  [ Run (hostname (hv self)) (StatMinor (vg_name self) (lv_name self)) true false;
    Run (hostname (hv peer)) (StatMinor (vg_name peer) (lv_name peer)) true false;
    Run (hostname (hv self)) (LvsSize (vg_name self) (lv_name self)) false false ].

Definition is_query (a : action) : bool :=
  match a with
  | Run _ (StatMinor _ _) _ _ | Run _ (LvsSize _ _) _ _ => true
  | _ => false
  end.

(** The calls that are no queries. *)
Definition steps_of (l : list action) : list action :=
  List.filter (fun a => negb (is_query a)) l.

(** The text of the shell commands among some calls. *)
Definition command_lines (l : list action) : list string :=
  omap (fun a => match a with Run _ c _ _ => Some (render c) | _ => None end) l.

Definition forward_call (self peer : DRBD) (a : action) : Prop :=
  a ∈ forward_queries self peer \/
  exists content sectors minor, a ∈ forward_steps self content sectors minor.

(** What the new events of a failed [start] must look like: cut at the
    first failure, the calls before it are forward calls of [start],
    and when no call after it failed, the failure is the exception that
    propagates and the calls after it are the inverses of the completed
    calls, last in first out. *)
Definition unwound (self peer : DRBD) (e : exn) (new : list event) : Prop :=
  match cut_at_failure new with
  | Some (before, bad, after) =>
      Forall (forward_call self peer) (actions before) /\
      (clean after = true ->
       exn_of bad = Some e /\ actions after = unwind self (actions before))
  | None => False
  end.

(** *** A small logic of traces

    [quiet]: events that all completed, are forward calls and leave no
    inverse due.  [passive m]: [m] has no handler of its own; it ends
    quietly or stops at its first failure.  [unwinds m]: when [m]
    raises, its new events are [unwound].  [single_call c a]: [c] is
    the one call [a].  [performs h hs]: the handler [h] makes the calls
    [hs], as long as none fails. *)
Definition quiet (self peer : DRBD) (l : list event) : Prop :=
  clean l = true /\ Forall (forward_call self peer) (actions l) /\
  Forall (fun a => inverse self a = []) (actions l).

Definition passive (self peer : DRBD) {A} (m : M A) : Prop :=
  forall s s' r, m s = (s', r) ->
  exists new, trace s' = trace s ++ new /\
    match r with
    | Ok _ => quiet self peer new
    | Raise e => exists before bad, new = before ++ [bad] /\ quiet self peer before /\
                   failed bad = true /\ exn_of bad = Some e
    end.

Definition unwinds (self peer : DRBD) {A} (m : M A) : Prop :=
  forall s s' e, m s = (s', Raise e) ->
  exists new, trace s' = trace s ++ new /\ unwound self peer e new.

Definition single_call {A} (c : M A) (a : action) : Prop :=
  forall s s' r, c s = (s', r) ->
  exists rep, s' = log (Call a rep) s /\
    match r with
    | Ok _ => failed (Call a rep) = false
    | Raise e => rep = RRaise e
    end.

Definition performs (h : M unit) (hs : list action) : Prop :=
  forall s s' r, h s = (s', r) ->
  exists new, trace s' = trace s ++ new /\
    (clean new = true -> actions new = hs /\ r = Ok tt).

(** *** Resources, by calls *)
Definition calls_effect (host : string) (l : list action) (w : resources) : resources :=
  fold_left (fun w a => call_effect host a w) l w.

(** Of the metadata volume, the shim and the resource file, [w'] holds
    no more than [w]. *)
Definition no_more (d : DRBD) (w' w : resources) : Prop :=
  (meta_lv_present d w' -> meta_lv_present d w) /\
  (shim_present d w' -> shim_present d w) /\
  (res_file_present d w' -> res_file_present d w).

(** *** The status file

    What [find_status] comes to once the minor is known: the first
    line that contains the marker, and the lines after it. *)
Definition status_marker (minor : Z) : string := Py.str minor +:+ ": cs:".

Fixpoint status_line (minor : Z) (lines : list string) : option (string * list string) :=
  match lines with
  | [] => None
  | line :: rest =>
      if Py.contains (status_marker minor) line then Some (line, rest)
      else status_line minor rest
  end.

(** The same search as the specification words it: the first line that
    begins with the marker. *)
Fixpoint line_beginning_with (minor : Z) (lines : list string)
  : option (string * list string) :=
  match lines with
  | [] => None
  | line :: rest =>
      if Py.startswith (status_marker minor) line then Some (line, rest)
      else line_beginning_with minor rest
  end.

(** The line two lines below the status line. *)
Definition progress_bar (rest : list string) : option string :=
  match rest with
  | _ :: bar :: _ => Some bar
  | _ => None
  end.

Definition up_to_date (line : string) : bool :=
  Py.contains "ds:UpToDate/UpToDate" line.

(** What one turn of the loop logs and leaves in [progressbar_found]
    and [show_progress], by the lines it read. *)
Definition poll_outcome (minor : Z) (progressbar_found : Z) (lines : list string)
  : list action * (Z * bool) :=
  match status_line minor lines with
  | None => ([], (progressbar_found, false))
  | Some (line, rest) =>
      match progress_bar rest with
      | Some bar => ([LogInfo bar], (progressbar_found, negb (up_to_date line)))
      | None =>
          if progressbar_found + 1 <? 5
          then ([LogInfo waiting_msg], (progressbar_found + 1, negb (up_to_date line)))
          else ([LogWarning no_bar_msg], (progressbar_found + 1, false))
      end
  end.

(** The reads of the status file among some calls. *)
Definition polls (l : list action) : nat :=
  length (List.filter (fun a => match a with ReadFile _ _ => true | _ => false end) l).

(** [l] leaves on [host] no more of the volume, the shim and the
    resource file of [d] than it found. *)
Definition shrinks (host : string) (d : DRBD) (l : list action) : Prop :=
  forall w, no_more d (calls_effect host l w) w.

(** [l] does not remove the table file of [d]. *)
Definition keeps_table (host : string) (d : DRBD) (l : list action) : Prop :=
  forall w, table_file_present d w -> table_file_present d (calls_effect host l w).

(** *** The calls of [stop] *)
Definition restore_table (self : DRBD) : list action :=
  let h := hostname (hv self) in
  [ Run h (DmLoadFile (vg_name self) (lv_name self) (table_file self)) false false;
    Run h (DmResume (vg_name self) (lv_name self)) false false;
    Run h (DrbdDown (vm_name self)) false false ].

Definition final_cleanup (self : DRBD) : list action :=
  let h := hostname (hv self) in
  [ Run h (DmRemoveOrig (lv_name self)) false false;
    Run h (LvRemove (vg_name self) (meta_disk self)) false false;
    Run h (RmRes (vm_name self)) false false ].

Definition is_shell (a : action) : bool :=
  match a with Run _ _ _ _ => true | _ => false end.

(** What [stop] does about the VM around the restore: nothing on the
    primary; on the secondary it asks whether the VM is defined, if so
    whether it is running, and if so acts. *)
Definition quiesce (self : DRBD) (act : action) (l : list action) : Prop :=
  let h := hostname (hv self) in
  let v := fqdn (vm self) in
  if master_role self then l = []
  else l = [VmDefined h v] \/ l = [VmDefined h v; VmRunning h v]
       \/ l = [VmDefined h v; VmRunning h v; act].

(** *** The resource file *)

(** Lines, each ended by a line feed. *)
Definition unlines (l : list string) : string :=
  fold_right (fun line rest => line +:+ Py.nl +:+ rest) EmptyString l.

(** The block of one end in the resource file, for a known minor. *)
Definition on_lines (d : DRBD) (minor : Z) : list string :=
  [ "    on " +:+ hostname (hv d) +:+ " {";
    "        address   " +:+ intern_ip (hv d) +:+ ":" +:+ Py.str (8000 + minor) +:+ ";";
    "        device    /dev/drbd" +:+ Py.str minor +:+ ";";
    "        disk      /dev/mapper/" +:+ lv_name d +:+ "_orig;";
    "        meta-disk /dev/" +:+ vg_name d +:+ "/" +:+ meta_disk d +:+ ";";
    "    }" ].

(** The stanza as the specification prints it, line by line. *)
Definition spec_stanza_lines (fqdn : string) (on1 on2 : list string) : list string :=
  [ "resource " +:+ fqdn +:+ " {";
    "    net {";
    "        protocol C;";
    "        max-buffers 24k;";
    "        allow-two-primaries;";
    "    }";
    "    disk {";
    "         c-max-rate 750M;";
    "         resync-rate 750M;";
    "    }" ]
  ++ on1 ++ on2 ++ [ "}" ].

(** The two options the source leaves in the file, commented out. *)
Definition commented_out : list string :=
  [ "#        sndbuf-size 2048k;"; "#        rcvbuf-size 2048k;" ].

(** One end's stanza as [get_host_config] returns it, for a known
    minor. *)
Definition host_stanza (d : DRBD) (minor : Z) : string :=
  "    on " +:+ hostname (hv d) +:+ " {" +:+ Py.nl
  +:+ "        address   " +:+ intern_ip (hv d) +:+ ":" +:+ Py.str (8000 + minor) +:+ ";" +:+ Py.nl
  +:+ "        device    /dev/drbd" +:+ Py.str minor +:+ ";" +:+ Py.nl
  +:+ "        disk      /dev/mapper/" +:+ lv_name d +:+ "_orig;" +:+ Py.nl
  +:+ "        meta-disk /dev/" +:+ vg_name d +:+ "/" +:+ meta_disk d +:+ ";" +:+ Py.nl
  +:+ "    }".

(** The files a trace uploaded: path, content, mode. *)
Definition uploads (tr : list event) : list (string * string * string) :=
  omap (fun ev => match ev with
                  | Call (Put _ path content mode) RUnit => Some (path, content, mode)
                  | _ => None
                  end) tr.

(** [s'] is [s] after quiet queries: new events that all completed and
    are no steps, and a heap that kept what it had. *)
Definition queried (s s' : state) : Prop :=
  (exists q, trace s' = trace s ++ q /\ clean q = true /\ steps_of (actions q) = []) /\
  (forall o v, heap s !! o = Some v -> heap s' !! o = Some v).

(** A [DRBD] object with the other role. *)
Definition with_role (r : bool) (d : DRBD) : DRBD :=
  {| oid := oid d; hv := hv d; master_role := r; vm := vm d;
     vg_name := vg_name d; lv_name := lv_name d; vm_name := vm_name d;
     meta_disk := meta_disk d; table_file := table_file d |}.

End Drbd.

(** ** igvm/commands.py *)

Module Commands.

Import Eff.

(** What the commands ask of the inventory, the hypervisor and the
    guest.  [vm] is the hostname the VM object was built from. *)
Inductive action :=
| Construct (vm : string)                 (* VM(vm_hostname) *)
| HvVmDefined (vm : string)               (* vm.hypervisor.vm_defined(vm) *)
| AttrGet (vm key : string)               (* vm.admintool[key] *)
| AttrSet (vm key : string) (value : Z)   (* vm.admintool[key] = value *)
| Commit (vm : string)                    (* vm.admintool.commit() *)
| IsRunning (vm : string)                 (* vm.is_running() *)
| Shutdown (vm : string)                  (* vm.shutdown() *)
| StartVm (vm : string)                   (* vm.start() *)
| SetMemory (vm : string) (mib : Z)       (* vm.set_memory(new_memory) *)
| GetVmVolume (vm : string)               (* get_vm_volume(vm.hypervisor, vm) *)
| LvResize (volume : string) (gib : Z)    (* lvresize(vm_volume, new_size_gib) *)
| FabricRun (cmd : string)                (* run(cmd) on the hypervisor *)
| VmRun (vm cmd : string)                 (* vm.run(cmd) *)
| LogInfo (msg : string).

(** The calls that change the guest, the hypervisor or the inventory. *)
Definition mutates (a : action) : bool :=
  match a with
  | AttrSet _ _ _ | Commit _ | Shutdown _ | StartVm _ | SetMemory _ _
  | LvResize _ _ | FabricRun _ | VmRun _ _ => true
  | _ => false
  end.

Abbreviation M := (Eff.M action unit).
Abbreviation event := (Eff.event action).
Abbreviation state := (Eff.state action unit).
Abbreviation Env := (Eff.Env action).

(** A VM object: the hostname it was built from and the hostname of
    its hypervisor, which the constructor resolves. *)
Record VM := { vm_hostname : string; hypervisor_hostname : string }.

Definition InvalidStateError (msg : string) : exn := Exn "InvalidStateError" msg.
Definition NotImplementedError (msg : string) : exn := Exn "NotImplementedError" msg.
Definition Warning (msg : string) : exn := Exn "Warning" msg.

Section Commands.
Variable env : Env.

(** [parse_size(text, unit)] of [igvm.utils.units], which is not among
    the sources: taken as given. *)
Variable parse_size : string -> string -> res Z.

Definition lift {A} (r : res A) : M A :=
  match r with
  | Ok a => ret a
  | Raise e => raise e
  end.

Definition construct (hostname : string) : M VM :=
  hv <- call_str env (Construct hostname) ;;
  ret {| vm_hostname := hostname; hypervisor_hostname := hv |}.

(** [_check_defined(vm)] *)
Definition _check_defined (vm : VM) : M unit :=
  defined <- call_bool env (HvVmDefined (vm_hostname vm)) ;;
  if defined : bool then ret tt
  else raise (InvalidStateError
                (vm_hostname vm +:+ " is not built yet or is not actually running on "
                 +:+ hypervisor_hostname vm)).

(** [mem_set(vm_hostname, size, offline)]; the decorator
    [with_fabric_settings] only wraps the call in fabric's settings. *)
Definition mem_set (vm_hostname : string) (size : string) (offline : bool) : M unit :=
  vm <- construct vm_hostname ;;
  _check_defined vm ;;
  new_memory <-
    (if Py.startswith "+" size then
       memory <- call_int env (AttrGet vm_hostname "memory") ;;
       delta <- lift (parse_size (Py.tail size) "m") ;;
       ret (memory + delta)
     else if Py.startswith "-" size then
       memory <- call_int env (AttrGet vm_hostname "memory") ;;
       delta <- lift (parse_size (Py.tail size) "m") ;;
       ret (memory - delta)
     else lift (parse_size size "m")) ;;
  memory <- call_int env (AttrGet vm_hostname "memory") ;;
  if new_memory =? memory then raise (Warning "Memory size is the same.")
  else
    offline <-
      (if offline : bool then
         running <- call_bool env (IsRunning vm_hostname) ;;
         if negb running then
           note (LogInfo (vm_hostname +:+ " is already powered off, ignoring --offline.")) ;;
           ret false
         else ret true
       else ret false) ;;
    (if offline : bool then call_unit env (Shutdown vm_hostname) else ret tt) ;;
    call_unit env (SetMemory vm_hostname new_memory) ;;
    (if offline : bool then call_unit env (StartVm vm_hostname) else ret tt).

(** [disk_set(vm_hostname, size)].  [new_size_gib] stays unbound when
    [size] starts with a minus sign; the test that follows then raises
    before reading it. *)
Definition disk_set (vm_hostname : string) (size : string) : M unit :=
  vm <- construct vm_hostname ;;
  _check_defined vm ;;
  current_size_gib <- call_int env (AttrGet vm_hostname "disk_size_gib") ;;
  new_size_gib <-
    (if Py.startswith "+" size then
       delta <- lift (parse_size (Py.tail size) "g") ;;
       ret (Some (current_size_gib + delta))
     else if negb (Py.startswith "-" size) then
       n <- lift (parse_size size "g") ;;
       ret (Some n)
     else ret None) ;;
  match new_size_gib with
  | None => raise (NotImplementedError "Cannot shrink the disk.")
  | Some new_size_gib =>
      if Py.startswith "-" size || (new_size_gib <? current_size_gib)
      then raise (NotImplementedError "Cannot shrink the disk.")
      else
        disk_size_gib <- call_int env (AttrGet vm_hostname "disk_size_gib") ;;
        if new_size_gib =? disk_size_gib then raise (Warning "Disk size is the same.")
        else
          vm_volume <- call_str env (GetVmVolume vm_hostname) ;;
          call_unit env (LvResize vm_volume new_size_gib) ;;
          call_str env (FabricRun ("virsh blockresize --path " +:+ vm_volume
                                   +:+ " --size " +:+ Py.str new_size_gib +:+ "GiB "
                                   +:+ vm_hostname)) ;;
          call_str env (VmRun vm_hostname "xfs_growfs /") ;;
          call_unit env (AttrSet vm_hostname "disk_size_gib" new_size_gib) ;;
          call_unit env (Commit vm_hostname)
  end.

(** [vm_start(vm_hostname)] *)
Definition vm_start (vm_hostname : string) : M unit :=
  vm <- construct vm_hostname ;;
  _check_defined vm ;;
  running <- call_bool env (IsRunning vm_hostname) ;;
  if running : bool then
    note (LogInfo (vm_hostname +:+ " is already running."))
  else call_unit env (StartVm vm_hostname).

End Commands.

(** The size a [mem_set] request asks for, given the memory the
    inventory holds: relative with a sign in front, absolute without. *)
Definition requested_memory (parse_size : string -> string -> res Z)
    (memory : Z) (size : string) : res Z :=
  if Py.startswith "+" size then
    match parse_size (Py.tail size) "m" with
    | Ok delta => Ok (memory + delta)
    | Raise e => Raise e
    end
  else if Py.startswith "-" size then
    match parse_size (Py.tail size) "m" with
    | Ok delta => Ok (memory - delta)
    | Raise e => Raise e
    end
  else parse_size size "m".

(** The size a [disk_set] request asks for, read as its docstring has
    it: a sign in front gives a difference to the current size. *)
Definition requested_disk (parse_size : string -> string -> res Z)
    (current_size_gib : Z) (size : string) : res Z :=
  if Py.startswith "+" size then
    match parse_size (Py.tail size) "g" with
    | Ok delta => Ok (current_size_gib + delta)
    | Raise e => Raise e
    end
  else if Py.startswith "-" size then
    match parse_size (Py.tail size) "g" with
    | Ok delta => Ok (current_size_gib - delta)
    | Raise e => Raise e
    end
  else parse_size size "g".

(** The calls of a trace. *)
Definition calls (tr : list event) : list action := omap action_of tr.

End Commands.

(** ** igvm/balance/models.py *)

Module Balance.

Import Eff.

(** [float(n)] for an integer: the nearest double, ties to even.
    (Python raises [OverflowError] past the largest double; here the
    result is an infinity.) *)
Definition float_of_int (z : Z) : float :=
  SF2Prim (binary_normalize prec emax z 0 false).

(** A record of the inventory cache, with the attributes the balance
    models read.  The numbers are integers, as the inventory holds
    them. *)
Record record := {
  r_hostname : string;
  r_servertype : string;
  r_xen_host : string;
  r_memory : Z;
  r_num_cpu : Z;
  r_disk_size_gib : Z
}.

Inductive action :=
| ScGet (hostname : string)                   (* sc.get(hostname) *)
| ScQuery (servertype xen_host : string)      (* sc.query(servertype=, xen_host=) *)
| KvmConnect (hostname : string)              (* KVMHypervisor(hostname) *)
| KvmFreeVmMemory (hostname : string)         (* ighv.free_vm_memory() *)
| KvmFreeDiskSizeGib (hostname : string)      (* ighv.get_free_disk_size_gib() *)
| CloseVirtconn (fqdn : string).              (* close_virtconn(ighv.fqdn) *)

(** The calls that reach the hypervisor itself. *)
Definition contacts_hypervisor (a : action) : bool :=
  match a with
  | ScGet _ | ScQuery _ _ => false
  | _ => true
  end.

(** The heap: [_serveradmin_data] of each [Host] object, by the
    identity of the object; absent for [None]. *)
Abbreviation heap_t := (gmap nat record).
Abbreviation M := (Eff.M action heap_t).
Abbreviation event := (Eff.event action).
Abbreviation state := (Eff.state action heap_t).
Abbreviation Env := (Eff.Env action).

(** A [Host] object (and so a [Hypervisor]). *)
Record Host := { oid : nat; hostname : string }.

Section Models.
Variable env : Env.

(** [ServeradminCache] of [igvm.balance.utils], which is not among the
    sources: [sc.get] and [sc.query] are taken as given, a lookup that
    may raise and the records a query yields. *)
Variable sc_get : string -> res record.
Variable sc_query : string -> string -> list record.

(** [_fetch_serveradmin_data(self)] followed by the read of the
    cached data, as [__getitem__] does. *)
Definition serveradmin_data (self : Host) : M record :=
  h <- get_heap ;;
  match h !! oid self with
  | Some data => ret data
  | None =>
      note (ScGet (hostname self)) ;;
      match sc_get (hostname self) with
      | Ok data => set_heap (<[oid self := data]> h) ;; ret data
      | Raise e => raise e
      end
  end.

(** [sum([...])] over integers. *)
Definition sum (l : list Z) : Z := fold_left Z.add l 0.

(** [Hypervisor.get_disk_free(self, fast)] *)
Definition get_disk_free (self : Host) (fast : bool) : M float :=
  if fast then
    let reserved := (16 + float_of_int 10)%float in
    data <- serveradmin_data self ;;
    let host := r_disk_size_gib data in
    note (ScQuery "vm" (hostname self)) ;;
    let vms := float_of_int (sum (map r_disk_size_gib (sc_query "vm" (hostname self)))) in
    let disk_free_mib := ((float_of_int host - vms - reserved) * 1024)%float in
    ret disk_free_mib
  else
    fqdn <- call_str env (KvmConnect (hostname self)) ;;
    gib <- call_int env (KvmFreeDiskSizeGib (hostname self)) ;;
    call_unit env (CloseVirtconn fqdn) ;;
    let disk_free_mib := (float_of_int gib * 1024)%float in
    ret disk_free_mib.

End Models.

(** The calls of a trace. *)
Definition calls (tr : list event) : list action := omap action_of tr.

(** Modelled from the spec: [sc.query] of [igvm.balance.utils], which
    is not among the sources.  The specification gives the VMs of a
    hypervisor as the records whose [xen_host] is its hostname; a
    query keeps the records that match both of its filters. *)
Definition inventory_query (inventory : list record) (servertype xen_host : string)
  : list record :=
  List.filter (fun r => String.eqb (r_servertype r) servertype
                        && String.eqb (r_xen_host r) xen_host) inventory.

(** Modelled from the spec: [sc.get] of [igvm.balance.utils], the
    record of a hostname. *)
Definition inventory_get (inventory : list record) (hostname : string) : res record :=
  match List.find (fun r => String.eqb (r_hostname r) hostname) inventory with
  | Some r => Ok r
  | None => Raise (Exn "KeyError" hostname)
  end.

End Balance.

(** ** Sample data

    Two hypervisors, a VM on the first, the two ends of a session, and
    worlds that answer every call, or fail one. *)

Module Sample.

Import Eff Drbd.

Definition hv1 : Hypervisor := {| hostname := "hv1.example"; intern_ip := "10.0.0.1" |}.
Definition hv2 : Hypervisor := {| hostname := "hv2.example"; intern_ip := "10.0.0.2" |}.

Definition vm1 : VM :=
  {| fqdn := "vm1.example"; uid_name := "4711_vm1.example"; hypervisor := hv1 |}.

Definition primary : DRBD :=
  {| oid := 1; hv := hv1; master_role := true; vm := vm1;
     vg_name := "xen-data"; lv_name := "vm1.example"; vm_name := "vm1.example";
     meta_disk := "vm1.example_meta";
     table_file := "/tmp/xen-data_vm1.example_table" |}.

Definition secondary : DRBD :=
  {| oid := 2; hv := hv2; master_role := false; vm := vm1;
     vg_name := "xen-data"; lv_name := "4711_vm1.example"; vm_name := "vm1.example";
     meta_disk := "vm1.example_meta";
     table_file := "/tmp/xen-data_4711_vm1.example_table" |}.

Definition boom : exn := Exn "RemoteExecError" "command failed".

Definition fresh : state := State [] ∅.

(** A world in which every call completes: minor 3 on the first
    hypervisor, 5 on the second, a volume of 6 GiB. *)
Definition stdout (proc_drbd : string) (a : action) : string :=
  match a with
  | Run h (StatMinor _ _) _ _ => if String.eqb h "hv1.example" then "3" else "5"
  | Run _ (LvsSize _ _) _ _ => "  6442450944"
  | VolumePath _ _ => "/dev/xen-data/vm1.example"
  | ReadFile _ _ => proc_drbd
  | _ => EmptyString
  end.

(** The guest and the destination have blocks of 4096 bytes, the
    source has blocks of 512. *)
Definition block_size (a : action) : Z :=
  match a with
  | BlockSize h _ => if String.eqb h "hv1.example" then 512 else 4096
  | _ => 4096
  end.

Definition answering (proc_drbd : string) : Env :=
  {| ask_unit := fun _ _ => Ok tt;
     ask_bool := fun _ _ => Ok true;
     ask_int := fun _ a => Ok (block_size a);
     ask_str := fun _ a => Ok (stdout proc_drbd a) |}.

Definition world : Env := answering EmptyString.

(** The same world, but its call number [k] (from 0) raises [e]. *)
Definition failing_at (k : nat) (e : exn) : Env :=
  {| ask_unit := fun t a => if Nat.eqb (length t) k then Raise e else Ok tt;
     ask_bool := fun t a => if Nat.eqb (length t) k then Raise e else Ok true;
     ask_int := fun t a => if Nat.eqb (length t) k then Raise e else Ok (block_size a);
     ask_str := fun t a =>
       if Nat.eqb (length t) k then Raise e else Ok (stdout EmptyString a) |}.

(** The status file while minor 3 is syncing, as the kernel prints
    it: the minor right-aligned in two columns, the progress bar two
    lines below. *)
Definition proc_drbd_syncing : string :=
  "version: 8.4.5 (api:1/proto:86-101)" +:+ Py.nl
  +:+ "srcversion: 4B3E2E2CD48CAE5280B5205" +:+ Py.nl
  +:+ " 3: cs:SyncSource ro:Primary/Secondary ds:UpToDate/Inconsistent C r-----" +:+ Py.nl
  +:+ "    ns:1308588 nr:0 dw:0 dr:1309520 al:0 bm:0 lo:0 pe:2 ua:0 ap:0 ep:1 wo:f" +:+ Py.nl
  +:+ String "009"%char "[>...................] sync'ed:  6.3% (19200/20476)M" +:+ Py.nl
  +:+ String "009"%char "finish: 0:07:39 speed: 42,780 (42,212) K/sec" +:+ Py.nl.

(** The status file once the bar is gone and both disks are up to date. *)
Definition proc_drbd_synced : string :=
  "version: 8.4.5 (api:1/proto:86-101)" +:+ Py.nl
  +:+ "srcversion: 4B3E2E2CD48CAE5280B5205" +:+ Py.nl
  +:+ " 3: cs:Connected ro:Primary/Secondary ds:UpToDate/UpToDate C r-----" +:+ Py.nl
  +:+ "    ns:20967712 nr:0 dw:0 dr:20968644 al:0 bm:0 lo:0 pe:0 ua:0 ap:0 ep:1 wo:f" +:+ Py.nl.

(** A session under way: the minor of the primary is cached. *)
Definition started : state := State [] {[ 1%nat := 3 ]}.

(** The events past the first [n]. *)
Definition since (n : nat) (s : state) : list event := drop n (trace s).

End Sample.

(** ** Sample data for the commands *)

Module CommandsSample.

Import Eff Commands.

(** A world for the commands: the VM is on [hv1.example], defined and
    running, with 2048 MiB of memory and a disk of 6 GiB. *)
Definition world : Env :=
  {| ask_unit := fun _ _ => Ok tt;
     ask_bool := fun _ _ => Ok true;
     ask_int := fun _ a =>
       Ok (match a with
           | AttrGet _ key => if String.eqb key "memory" then 2048 else 6
           | _ => 0
           end);
     ask_str := fun _ _ => Ok "hv1.example" |}.

(** A [parse_size] for the sample: a plain number in the unit asked
    for. *)
Definition plain_size (text unit : string) : res Z :=
  match Py.int 10 text with
  | Some n => Ok n
  | None => Raise (Exn "ValueError" text)
  end.

Definition fresh : state := State [] tt.

End CommandsSample.

(** ** Sample data for the balance models *)

Module BalanceSample.

Import Eff Balance.

Local Open Scope float_scope.

(** An inventory: a hypervisor with a disk of 1000 GiB, two VMs on it
    and one elsewhere. *)
Definition inventory : list record :=
  [ {| r_hostname := "hv1.example"; r_servertype := "hypervisor"; r_xen_host := EmptyString;
       r_memory := 65536; r_num_cpu := 32; r_disk_size_gib := 1000 |};
    {| r_hostname := "vm1.example"; r_servertype := "vm"; r_xen_host := "hv1.example";
       r_memory := 2048; r_num_cpu := 2; r_disk_size_gib := 6 |};
    {| r_hostname := "vm2.example"; r_servertype := "vm"; r_xen_host := "hv1.example";
       r_memory := 4096; r_num_cpu := 4; r_disk_size_gib := 50 |};
    {| r_hostname := "vm3.example"; r_servertype := "vm"; r_xen_host := "hv2.example";
       r_memory := 4096; r_num_cpu := 4; r_disk_size_gib := 100 |} ].

Definition hypervisor1 : Host := {| oid := 1; hostname := "hv1.example" |}.

Definition fresh : state := State [] ∅.

(** A world in which the hypervisor itself answers nothing: every call
    to it raises. *)
Definition unreachable : Env :=
  let down := Exn "HypervisorError" "unreachable" in
  {| ask_unit := fun _ _ => Raise down;
     ask_bool := fun _ _ => Raise down;
     ask_int := fun _ _ => Raise down;
     ask_str := fun _ _ => Raise down |}.

End BalanceSample.

(** ** Python strings: digits and blanks *)

Module PyText.

(** [c] is a decimal digit. *)
Definition is_digit (c : ascii) : Prop := exists d, 0 <= d < 10 /\ c = Py.digit_char d.

(** All characters of [s] are decimal digits. *)
Fixpoint all_digits (s : string) : Prop :=
  match s with
  | EmptyString => True
  | String c s' => is_digit c /\ all_digits s'
  end.

(** All characters of [s] are white space. *)
Fixpoint blank (s : string) : bool :=
  match s with
  | EmptyString => true
  | String c s' => Py.is_space c && blank s'
  end.

End PyText.

(** ** igvm/drbd.py: what a run leaves in its trace *)

Module DrbdTraces.

Import Eff Drbd.

(** The exception of the latest failed event of a trace. *)
Definition last_failure (tr : list event) : option exn := last (omap exn_of tr).

(** [m] lets no failure pass: a run that returns made no call that
    failed, and a run that raises raises the exception of its latest
    failure. *)
Definition faithful {A} (m : M A) : Prop :=
  forall s s' r, m s = (s', r) ->
  exists new, trace s' = trace s ++ new /\
    match r with
    | Ok _ => clean new = true
    | Raise e => last_failure new = Some e
    end.

(** Some call among [tr] that [p] picks has completed. *)
Definition completes (p : action -> bool) (tr : list event) : bool :=
  existsb (fun ev => match ev with
                     | Call a _ => p a && negb (failed ev)
                     | _ => false
                     end) tr.

Definition is_suspend (a : action) : bool :=
  match a with Run _ (DmSuspend _ _) _ _ => true | _ => false end.
Definition is_lvcreate (a : action) : bool :=
  match a with Run _ (LvCreate _ _) _ _ => true | _ => false end.
Definition is_shim_create (a : action) : bool :=
  match a with Run _ (DmCreateOrig _ _) _ _ => true | _ => false end.
Definition is_upload (a : action) : bool :=
  match a with Put _ _ _ _ => true | _ => false end.

Definition acquires (a : action) : bool :=
  is_lvcreate a || is_shim_create a || is_upload a.

(** The three releases of the [except] clauses, as [start] nests them:
    the resource file, the shim, the metadata volume. *)
Definition rm_res (d : DRBD) : action :=
  Run (hostname (hv d)) (RmRes (vm_name d)) false false.
Definition remove_shim (d : DRBD) : action :=
  Run (hostname (hv d)) (DmRemoveOrig (lv_name d)) false false.
Definition remove_meta (d : DRBD) : action :=
  Run (hostname (hv d)) (LvRemove (vg_name d) (meta_disk d)) false false.

(** [tr] ends with the calls [l], in this order, whatever they came
    back with. *)
Definition ends_with (l : list action) (tr : list event) : Prop :=
  exists pre rs, length rs = length l /\ tr = pre ++ zip_with Call l rs.

(** The last event of [tr] is a call of [dmsetup resume] on the volume
    of [d], or a [drbdadm down] that raised although it was allowed to
    fail. *)
Definition resume_attempted (d : DRBD) (tr : list event) : Prop :=
  let h := hostname (hv d) in
  (exists rep, last tr = Some (Call (Run h (DmResume (vg_name d) (lv_name d)) false false) rep))
  \/ (exists e, last tr = Some (Call (Run h (DrbdDown (vm_name d)) false true) (RRaise e))).

End DrbdTraces.

(** ** Sample data: worlds with chosen faults *)

Module Faults.

Import Eff Drbd Sample.

(** The sample world, but the calls [fault] picks raise what it says. *)
Definition failing_with (fault : action -> option exn) : Env :=
  {| ask_unit := fun _ a => match fault a with Some e => Raise e | None => Ok tt end;
     ask_bool := fun _ a => match fault a with Some e => Raise e | None => Ok true end;
     ask_int := fun _ a =>
       match fault a with Some e => Raise e | None => Ok (block_size a) end;
     ask_str := fun _ a =>
       match fault a with Some e => Raise e | None => Ok (stdout EmptyString a) end |}.

Definition rm_failed : exn := Exn "RemoteExecError" "rm failed".

(** [drbdadm up] fails, and so does the [rm] of the resource file. *)
Definition up_and_rm_fail (a : action) : option exn :=
  match a with
  | Run _ (DrbdUp _) _ _ => Some boom
  | Run _ (RmRes _) _ _ => Some rm_failed
  | _ => None
  end.

(** The world in which [stat] prints [out]. *)
Definition stat_prints (out : string) : Env :=
  {| ask_unit := fun _ _ => Ok tt;
     ask_bool := fun _ _ => Ok true;
     ask_int := fun _ a => Ok (block_size a);
     ask_str := fun _ a =>
       Ok (match a with Run _ (StatMinor _ _) _ _ => out | _ => stdout EmptyString a end) |}.

(** The world in which the backing volume of every VM is at [path]. *)
Definition volume_at (path : string) : Env :=
  {| ask_unit := fun _ _ => Ok tt;
     ask_bool := fun _ _ => Ok true;
     ask_int := fun _ a => Ok (block_size a);
     ask_str := fun _ a =>
       Ok (match a with VolumePath _ _ => path | _ => stdout EmptyString a end) |}.

End Faults.

(** ** igvm/commands.py: what a run leaves in its trace *)

Module CommandsTraces.

Import Eff Commands.

(** The calls of a trace that change the guest, the hypervisor or the
    inventory, completed or not, in the order they were made. *)
Definition mutations (tr : list event) : list action :=
  List.filter mutates (calls tr).

Definition clean (tr : list event) : bool := forallb (fun ev => negb (failed ev)) tr.

(** What [_check_defined] raises. *)
Definition not_defined (vm hv : string) : exn :=
  InvalidStateError (vm +:+ " is not built yet or is not actually running on " +:+ hv).

(** The steps by which [disk_set] grows a disk, the inventory last. *)
Definition grow_steps (vm volume : string) (gib : Z) : list action :=
  [ LvResize volume gib;
    FabricRun ("virsh blockresize --path " +:+ volume +:+ " --size " +:+ Py.str gib
               +:+ "GiB " +:+ vm);
    VmRun vm "xfs_growfs /";
    AttrSet vm "disk_size_gib" gib;
    Commit vm ].

(** What [mem_set] changes: the memory, in between a shutdown and a
    start when the VM is taken offline for it. *)
Definition online_steps (vm : string) (mib : Z) : list action := [ SetMemory vm mib ].
Definition offline_steps (vm : string) (mib : Z) : list action :=
  [ Shutdown vm; SetMemory vm mib; StartVm vm ].

End CommandsTraces.

(** ** Sample data: worlds for the commands with chosen faults *)

Module CommandsFaults.

Import Eff Commands CommandsSample.

(** The world of the commands, but the calls [fault] picks raise what
    it says. *)
Definition failing_with (fault : action -> option exn) : Env :=
  {| ask_unit := fun t a => match fault a with Some e => Raise e | None => ask_unit world t a end;
     ask_bool := fun t a => match fault a with Some e => Raise e | None => ask_bool world t a end;
     ask_int := fun t a => match fault a with Some e => Raise e | None => ask_int world t a end;
     ask_str := fun t a =>
       match fault a with
       | Some e => Raise e
       | None =>
           match a with
           | GetVmVolume _ => Ok "/dev/xen-data/vm1.example"
           | _ => ask_str world t a
           end
       end |}.

Definition guest_unreachable : exn := Exn "RemoteExecError" "guest unreachable".

(** The guest cannot be reached: [vm.run] fails. *)
Definition guest_fails (a : action) : option exn :=
  match a with VmRun _ _ => Some guest_unreachable | _ => None end.

(** The hypervisor refuses the new memory. *)
Definition set_memory_fails (a : action) : option exn :=
  match a with
  | SetMemory _ _ => Some (Exn "HypervisorError" "cannot set memory")
  | _ => None
  end.

(** The world in which the hypervisor does not know the VM. *)
Definition undefined_world : Env :=
  {| ask_unit := ask_unit world;
     ask_bool := fun t a => match a with HvVmDefined _ => Ok false | _ => ask_bool world t a end;
     ask_int := ask_int world;
     ask_str := ask_str world |}.

End CommandsFaults.

(** ** igvm/commands.py: the life-cycle commands

    [vm_stop], [vm_restart], [vm_delete] and [vm_sync].  Here
    [vm.admintool], the attributes of the VM as the constructor loads
    them from the inventory, is the heap: [get] looks an attribute up,
    an assignment inserts it, and only [commit] is a call to the
    world. *)

Module Lifecycle.

Import Eff.

(** The value of an attribute: a number or a text. *)
Inductive value :=
| VInt (n : Z)
| VStr (s : string).

#[global] Instance value_eq_dec : EqDecision value.
Proof. solve_decision. Defined.

Inductive action :=
| Construct (vm : string)                 (* VM(vm_hostname) *)
| HvVmDefined (vm : string)               (* vm.hypervisor.vm_defined(vm) *)
| IsRunning (vm : string)                 (* vm.is_running() *)
| Shutdown (vm : string)                  (* vm.shutdown() *)
| StartVm (vm : string)                   (* vm.start() *)
| StopVmForce (vm : string)               (* vm.hypervisor.stop_vm_force(vm) *)
| Disconnect (vm : string)                (* vm.disconnect() *)
| UndefineVm (vm : string)                (* vm.hypervisor.undefine_vm(vm) *)
| DestroyVmStorage (vm : string)          (* vm.hypervisor.destroy_vm_storage(vm) *)
| SyncFromHypervisor (vm : string)        (* vm.hypervisor.vm_sync_from_hypervisor(vm) *)
| Commit (vm : string)                    (* vm.admintool.commit() *)
| LogInfo (msg : string).

(** The calls that act on the guest, the hypervisor or the inventory,
    as opposed to those that construct, ask or log. *)
Definition acts (a : action) : bool :=
  match a with
  | Shutdown _ | StartVm _ | StopVmForce _ | Disconnect _ | UndefineVm _
  | DestroyVmStorage _ | Commit _ => true
  | _ => false
  end.

(** The heap: [vm.admintool]. *)
Abbreviation heap_t := (gmap string value).
Abbreviation M := (Eff.M action heap_t).
Abbreviation event := (Eff.event action).
Abbreviation state := (Eff.state action heap_t).
Abbreviation Env := (Eff.Env action).

Record VM := { vm_hostname : string; hypervisor_hostname : string }.

Definition InvalidStateError (msg : string) : exn := Exn "InvalidStateError" msg.

(** ['{}'.format(v)] for the value of an attribute, and for what
    [admintool.get] gives, [None] when the attribute is not there. *)
Definition format_value (v : value) : string :=
  match v with
  | VInt n => Py.str n
  | VStr s => s
  end.

Definition format_current (current : option value) : string :=
  match current with
  | Some v => format_value v
  | None => "None"
  end.

(** [sep.join(l)] *)
Fixpoint join (sep : string) (l : list string) : string :=
  match l with
  | [] => EmptyString
  | [x] => x
  | x :: l' => x +:+ sep +:+ join sep l'
  end.

Section Lifecycle.
Variable env : Env.

(** [vm_sync_from_hypervisor] of [igvm.hypervisor], which is not among
    the sources: taken as given, the attributes it collects in the
    order [iteritems] yields them, or the exception it raises. *)
Variable vm_sync_from_hypervisor : string -> res (list (string * value)).

Definition lift {A} (r : res A) : M A :=
  match r with
  | Ok a => ret a
  | Raise e => raise e
  end.

Definition construct (hostname : string) : M VM :=
  hv <- call_str env (Construct hostname) ;;
  ret {| vm_hostname := hostname; hypervisor_hostname := hv |}.

(** [_check_defined(vm)] *)
Definition _check_defined (vm : VM) : M unit :=
  defined <- call_bool env (HvVmDefined (vm_hostname vm)) ;;
  if defined : bool then ret tt
  else raise (InvalidStateError
                (vm_hostname vm +:+ " is not built yet or is not actually running on "
                 +:+ hypervisor_hostname vm)).

(** [vm_stop(vm_hostname, force)] *)
Definition vm_stop (vm_hostname : string) (force : bool) : M unit :=
  vm <- construct vm_hostname ;;
  _check_defined vm ;;
  running <- call_bool env (IsRunning vm_hostname) ;;
  if negb running then
    note (LogInfo (vm_hostname +:+ " is already stopped."))
  else
    (if force : bool
     then call_unit env (StopVmForce vm_hostname)
     else call_unit env (Shutdown vm_hostname)) ;;
    note (LogInfo (vm_hostname +:+ " stopped.")).

(** [vm_restart(vm_hostname, force)] *)
Definition vm_restart (vm_hostname : string) (force : bool) : M unit :=
  vm <- construct vm_hostname ;;
  _check_defined vm ;;
  running <- call_bool env (IsRunning vm_hostname) ;;
  if negb running then
    raise (InvalidStateError (vm_hostname +:+ " is not running"))
  else
    (if force : bool
     then call_unit env (StopVmForce vm_hostname) ;;
          call_unit env (Disconnect vm_hostname)
     else call_unit env (Shutdown vm_hostname)) ;;
    call_unit env (StartVm vm_hostname) ;;
    note (LogInfo (vm_hostname +:+ " restarted.")).

(** [vm_delete(vm_hostname)] *)
Definition vm_delete (vm_hostname : string) : M unit :=
  vm <- construct vm_hostname ;;
  _check_defined vm ;;
  running <- call_bool env (IsRunning vm_hostname) ;;
  if running : bool then
    raise (InvalidStateError
             (vm_hostname +:+ " is still running. Please stop it first."))
  else
    call_unit env (UndefineVm vm_hostname) ;;
    call_unit env (DestroyVmStorage vm_hostname) ;;
    h <- get_heap ;;
    set_heap (<["state" := VStr "retired"]> h) ;;
    call_unit env (Commit vm_hostname) ;;
    note (LogInfo (vm_hostname +:+ " destroyed and set to " +:+ Py.dq +:+ "retired"
                   +:+ Py.dq +:+ " state.")).

(** The loop of [vm_sync] over the attributes left, [changed] being the
    list it appends to. *)
Fixpoint sync_attributes (attributes : list (string * value)) (changed : list string)
  : M (list string) :=
  match attributes with
  | [] => ret changed
  | (attrib, value) :: rest =>
      h <- get_heap ;;
      let current := h !! attrib in
      if bool_decide (current = Some value) then
        note (LogInfo (attrib +:+ ": " +:+ format_current current)) ;;
        sync_attributes rest changed
      else
        note (LogInfo (attrib +:+ ": " +:+ format_current current +:+ " -> "
                       +:+ format_value value)) ;;
        set_heap (<[attrib := value]> h) ;;
        sync_attributes rest (changed ++ [attrib])
  end.

(** [vm_sync(vm_hostname)] *)
Definition vm_sync (vm_hostname : string) : M unit :=
  vm <- construct vm_hostname ;;
  _check_defined vm ;;
  note (SyncFromHypervisor vm_hostname) ;;
  attributes <- lift (vm_sync_from_hypervisor vm_hostname) ;;
  changed <- sync_attributes attributes [] ;;
  match changed with
  | _ :: _ =>
      call_unit env (Commit vm_hostname) ;;
      note (LogInfo (vm_hostname +:+ ": Synchronized "
                     +:+ Py.str (Z.of_nat (length changed)) +:+ " attributes ("
                     +:+ join ", " changed +:+ ")."))
  | [] =>
      note (LogInfo (vm_hostname +:+ ": Serveradmin is already synchronized."))
  end.

End Lifecycle.

(** The calls of a trace, and those among them that act. *)
Definition calls (tr : list event) : list action := omap action_of tr.
Definition steps (tr : list event) : list action := List.filter acts (calls tr).

Definition clean (tr : list event) : bool := forallb (fun ev => negb (failed ev)) tr.

(** What [vm_stop] and [vm_restart] do to a running VM. *)
Definition stop_steps (vm : string) (force : bool) : list action :=
  if force then [ StopVmForce vm ] else [ Shutdown vm ].
Definition restart_steps (vm : string) (force : bool) : list action :=
  if force then [ StopVmForce vm; Disconnect vm; StartVm vm ]
  else [ Shutdown vm; StartVm vm ].

(** What [vm_delete] does to a VM that is not running. *)
Definition delete_steps (vm : string) : list action :=
  [ UndefineVm vm; DestroyVmStorage vm; Commit vm ].

(** The attributes that the inventory does not hold with the value
    given. *)
Definition differing (h : heap_t) (attributes : list (string * value)) : list string :=
  (List.filter (fun kv => negb (bool_decide (h !! kv.1 = Some kv.2))) attributes).*1.

(** A log entry. *)
Definition is_log (ev : event) : bool :=
  match ev with Noted (LogInfo _) => true | _ => false end.

(** *** Sample data *)

(** A VM that is defined and runs, or does not run. *)
Definition world (running : bool) : Env :=
  {| ask_unit := fun _ _ => Ok tt;
     ask_bool := fun _ a => Ok (match a with IsRunning _ => running | _ => true end);
     ask_int := fun _ _ => Ok 0;
     ask_str := fun _ _ => Ok "hv1.example" |}.

(** The same, but the calls [fault] picks raise what it says. *)
Definition failing_with (running : bool) (fault : action -> option exn) : Env :=
  {| ask_unit := fun t a =>
       match fault a with Some e => Raise e | None => ask_unit (world running) t a end;
     ask_bool := fun t a =>
       match fault a with Some e => Raise e | None => ask_bool (world running) t a end;
     ask_int := fun t a =>
       match fault a with Some e => Raise e | None => ask_int (world running) t a end;
     ask_str := fun t a =>
       match fault a with Some e => Raise e | None => ask_str (world running) t a end |}.

Definition start_fails (a : action) : option exn :=
  match a with StartVm _ => Some (Exn "HypervisorError" "cannot start") | _ => None end.
Definition destroy_fails (a : action) : option exn :=
  match a with
  | DestroyVmStorage _ => Some (Exn "StorageError" "volume busy")
  | _ => None
  end.

(** The inventory of the sample VM, and what the hypervisor reports:
    the memory differs, the disk does not, the number of CPUs is not in
    the inventory. *)
Definition inventory : heap_t :=
  {[ "memory" := VInt 2048; "disk_size_gib" := VInt 6; "state" := VStr "online" ]}.

Definition reported (vm : string) : res (list (string * value)) :=
  Ok [ ("memory", VInt 4096); ("disk_size_gib", VInt 6); ("num_cpu", VInt 2) ].

Definition fresh : state := State [] inventory.

End Lifecycle.

(** ** igvm/balance/models.py: the objects of the balance models

    The methods of [Host], [Hypervisor] and [VM] that the module above
    leaves out.  A [Hypervisor] caches the [VM] objects it builds in
    [_vms], so the heap here holds, besides [_serveradmin_data] of
    every object, [_vms] of every hypervisor and the identity the next
    object gets. *)

Module Fleet.

Import Eff Balance.

Local Open Scope float_scope.

Record heap_t := Heap {
  data : gmap nat record;          (* _serveradmin_data, absent for None *)
  vms : gmap nat (list Host);      (* _vms, absent for None *)
  next : nat                       (* the identity of the next object *)
}.

Abbreviation M := (Eff.M action heap_t).
Abbreviation event := (Eff.event action).
Abbreviation state := (Eff.state action heap_t).
Abbreviation Env := (Eff.Env action).

(** A method of the module above, run on the [_serveradmin_data] part
    of the heap. *)
Definition zoom {A} (m : Balance.M A) : M A := fun s =>
  match m (State (trace s) (data (heap s))) with
  | (s1, r) =>
      (State (trace s1) (Heap (heap s1) (vms (heap s)) (next (heap s))), r)
  end.

(** Any Python object, as [__eq__] may be handed one. *)
Inductive pyobj :=
| AHost (h : Host)
| Another (repr : string).

(** [Host.__eq__(self, other)]: [True], [False], or [None] where the
    method runs off its end. *)
Definition Host_eq (self : Host) (other : pyobj) : option bool :=
  match other with
  | AHost other =>
      if String.eqb (hostname self) (hostname other) then Some true else None
  | Another _ => Some false
  end.

(** The truth value of what [__eq__] returns. *)
Definition truthy (r : option bool) : bool :=
  match r with Some b => b | None => false end.

Section Objects.
Variable env : Env.

(** [ServeradminCache], taken as given as above; here a query may
    raise. *)
Variable sc_get : string -> res record.
Variable sc_query : string -> string -> res (list record).

(** [hash] of a string, which Python leaves open. *)
Variable hash : string -> Z.

(** [Host.__hash__(self)] *)
Definition Host_hash (self : Host) : Z := hash (hostname self).

Definition lift {A} (r : res A) : M A :=
  match r with
  | Ok a => ret a
  | Raise e => raise e
  end.

(** [self[key]] *)
Definition getitem (self : Host) : M record := zoom (serveradmin_data sc_get self).

(** [Host.get_memory(self)], [Host.get_cpus(self)] and
    [Host.get_disk_size(self)] *)
Definition get_memory (self : Host) : M Z :=
  d <- getitem self ;; ret (r_memory d).

Definition get_cpus (self : Host) : M Z :=
  d <- getitem self ;; ret (r_num_cpu d).

Definition get_disk_size (self : Host) : M Z :=
  d <- getitem self ;; ret (r_disk_size_gib d * 1024)%Z.

(** [VM(hostname)]: a new object, nothing fetched yet. *)
Definition new_vm (hostname : string) : M Host :=
  h <- get_heap ;;
  set_heap (Heap (delete (next h) (data h)) (vms h) (S (next h))) ;;
  ret {| oid := next h; hostname := hostname |}.

(** The loop of [get_vms]: one [VM] object per record, appended to
    [self._vms]. *)
Fixpoint append_vms (self : Host) (qs : list record) : M unit :=
  match qs with
  | [] => ret tt
  | vm :: rest =>
      o <- new_vm (r_hostname vm) ;;
      h <- get_heap ;;
      set_heap (Heap (data h) (<[oid self := default [] (vms h !! oid self) ++ [o]]> (vms h))
                  (next h)) ;;
      append_vms self rest
  end.

(** [Hypervisor.get_vms(self)] *)
Definition get_vms (self : Host) : M (list Host) :=
  h <- get_heap ;;
  match vms h !! oid self with
  | Some l => ret l
  | None =>
      set_heap (Heap (data h) (<[oid self := []]> (vms h)) (next h)) ;;
      note (ScQuery "vm" (hostname self)) ;;
      qs <- lift (sc_query "vm" (hostname self)) ;;
      append_vms self qs ;;
      h' <- get_heap ;;
      ret (default [] (vms h' !! oid self))
  end.

(** [[vm['memory'] for vm in l]] *)
Fixpoint memories (l : list Host) : M (list Z) :=
  match l with
  | [] => ret []
  | vm :: rest =>
      d <- getitem vm ;;
      ms <- memories rest ;;
      ret (r_memory d :: ms)
  end.

(** [Hypervisor.get_memory_free(self, fast)] *)
Definition get_memory_free (self : Host) (fast : bool) : M float :=
  if fast then
    l <- get_vms self ;;
    ms <- memories l ;;
    let vms_memory := float_of_int (sum ms) in
    d <- getitem self ;;
    ret (float_of_int (r_memory d) - vms_memory)
  else
    fqdn <- call_str env (KvmConnect (hostname self)) ;;
    memory <- call_int env (KvmFreeVmMemory (hostname self)) ;;
    call_unit env (CloseVirtconn fqdn) ;;
    ret (float_of_int memory).

End Objects.

(** No object yet has the identity that the next object gets, or a
    later one. *)
Definition fresh_from_next (h : heap_t) : Prop :=
  forall o, (next h <= o)%nat -> data h !! o = None /\ vms h !! o = None.

(** The objects [n], [n + 1], ... with the hostnames of the records. *)
Fixpoint objects_from (n : nat) (qs : list record) : list Host :=
  match qs with
  | [] => []
  | vm :: rest => {| oid := n; hostname := r_hostname vm |} :: objects_from (S n) rest
  end.

(** The cache after the records [ds] were fetched for the objects [n],
    [n + 1], ... *)
Fixpoint fetched (n : nat) (ds : list record) (m : gmap nat record) : gmap nat record :=
  match ds with
  | [] => m
  | d :: rest => fetched (S n) rest (<[n := d]> m)
  end.

(** What the hypervisor itself is asked for by the slow paths. *)
Definition slow_disk_calls (hostname fqdn : string) : list action :=
  [ KvmConnect hostname; KvmFreeDiskSizeGib hostname; CloseVirtconn fqdn ].
Definition slow_memory_calls (hostname fqdn : string) : list action :=
  [ KvmConnect hostname; KvmFreeVmMemory hostname; CloseVirtconn fqdn ].

Definition clean (tr : list event) : bool := forallb (fun ev => negb (failed ev)) tr.

(** *** Sample data *)

(** The sample inventory as a cache, with a query that fails for one
    hypervisor. *)
Definition sample_get : string -> res record := inventory_get BalanceSample.inventory.
Definition sample_query (servertype xen_host : string) : res (list record) :=
  if String.eqb xen_host "hv9.example"
  then Raise (Exn "ApiError" "inventory unreachable")
  else Ok (inventory_query BalanceSample.inventory servertype xen_host).

Definition hypervisor9 : Host := {| oid := 2; hostname := "hv9.example" |}.

(** Two hypervisor objects exist, nothing is cached. *)
Definition fresh : state := State [] (Heap ∅ ∅ 3).

(** A world in which the hypervisor answers, but cannot tell its free
    disk. *)
Definition disk_query_fails : Balance.Env :=
  {| ask_unit := fun _ _ => Ok tt;
     ask_bool := fun _ _ => Ok true;
     ask_int := fun _ a =>
       match a with
       | KvmFreeDiskSizeGib _ => Raise (Exn "HypervisorError" "no storage pool")
       | _ => Ok 4096%Z
       end;
     ask_str := fun _ _ => Ok "hv1.example" |}.

End Fleet.

(** * Facts *)

Module PyFacts.

Lemma split_no_sep sep a :
  Py.has_char sep a = false -> Py.split sep a = [a].
Proof.
  induction a as [|c a IH]; simpl; [done|].
  intros [Hc Ha]%orb_false_elim. rewrite Hc, (IH Ha). done.
Qed.

Lemma split_app_sep sep a b :
  Py.has_char sep a = false ->
  Py.split sep (a +:+ String sep b) = a :: Py.split sep b.
Proof.
  induction a as [|c a IH]; simpl.
  - intros _. by rewrite Ascii.eqb_refl.
  - intros [Hc Ha]%orb_false_elim. rewrite Hc, (IH Ha). done.
Qed.

Lemma append_assoc (a b c : string) : (a +:+ b) +:+ c = a +:+ b +:+ c.
Proof.
  induction a as [|x a IH]; [done|].
  change (String x ((a +:+ b) +:+ c) = String x (a +:+ b +:+ c)). by f_equal.
Qed.

End PyFacts.

(** ** The effect monad: what a successful run went through *)

Module EffFacts.

Import Eff.

Section Inversion.
Context {action H : Type}.
Variable env : Env action.

Lemma bind_ok {A B} (m : M action H A) (k : A -> M action H B) s s' b :
  (x <- m ;; k x) s = (s', Ok b) ->
  exists s1 a, m s = (s1, Ok a) /\ k a s1 = (s', Ok b).
Proof.
  unfold bind. destruct (m s) as [s1 [a|e]]; [|done]. intros E. by exists s1, a.
Qed.

Lemma try_except_ok {A} (body : M action H A) h s s' a :
  try_except body h s = (s', Ok a) -> body s = (s', Ok a).
Proof.
  unfold try_except. destruct (body s) as [s1 [v|e]]; [done|].
  by destruct (h s1) as [s2 [[]|e']].
Qed.

Lemma call_str_ok a (s s' : state action H) v :
  call_str env a s = (s', Ok v) ->
  s' = log (Call a (RStr v)) s /\ ask_str env (trace s) a = Ok v.
Proof.
  unfold call_str. destruct (ask_str env (trace s) a); [|done]. by intros [= <- <-].
Qed.

Lemma call_unit_ok a (s s' : state action H) v :
  call_unit env a s = (s', Ok v) ->
  s' = log (Call a RUnit) s /\ ask_unit env (trace s) a = Ok v.
Proof.
  unfold call_unit. destruct (ask_unit env (trace s) a); [|done]. by intros [= <- <-].
Qed.

Lemma call_bool_ok a (s s' : state action H) v :
  call_bool env a s = (s', Ok v) ->
  s' = log (Call a (RBool v)) s /\ ask_bool env (trace s) a = Ok v.
Proof.
  unfold call_bool. destruct (ask_bool env (trace s) a); [|done]. by intros [= <- <-].
Qed.

Lemma call_int_ok a (s s' : state action H) v :
  call_int env a s = (s', Ok v) ->
  s' = log (Call a (RInt v)) s /\ ask_int env (trace s) a = Ok v.
Proof.
  unfold call_int. destruct (ask_int env (trace s) a); [|done]. by intros [= <- <-].
Qed.

End Inversion.

End EffFacts.

(** ** igvm/drbd.py: unwinding *)

Module DrbdFacts.

Import Eff Drbd EffFacts.

Lemma clean_app (l l' : list event) : clean (l ++ l') = clean l && clean l'.
Proof. apply forallb_app. Qed.

Lemma actions_app (l l' : list event) : actions (l ++ l') = actions l ++ actions l'.
Proof. apply omap_app. Qed.

Lemma unwind_app d (l l' : list action) : unwind d (l ++ l') = unwind d l' ++ unwind d l.
Proof. unfold unwind. by rewrite rev_app_distr, flat_map_app. Qed.

Lemma unwind_cons d a (l : list action) : unwind d (a :: l) = unwind d l ++ inverse d a.
Proof. unfold unwind. simpl. by rewrite flat_map_app; simpl; rewrite app_nil_r. Qed.

Lemma unwind_nothing d l : Forall (fun a => inverse d a = []) l -> unwind d l = [].
Proof.
  unfold unwind. intros Hl. apply Forall_rev in Hl.
  induction Hl as [|a l' Ha _ IH]; simpl; [done|]. by rewrite Ha, IH.
Qed.

Lemma cut_clean_app (l l' : list event) :
  clean l = true ->
  cut_at_failure (l ++ l') =
    match cut_at_failure l' with
    | Some (b, x, a) => Some (l ++ b, x, a)
    | None => None
    end.
Proof.
  induction l as [|ev l IH]; simpl.
  - intros _. by destruct (cut_at_failure l') as [[[??]?]|].
  - intros [Hev Hl]%andb_prop. apply negb_true_iff in Hev. rewrite Hev, (IH Hl).
    by destruct (cut_at_failure l') as [[[??]?]|].
Qed.

Lemma cut_app_after (l l' : list event) b x a :
  cut_at_failure l = Some (b, x, a) ->
  cut_at_failure (l ++ l') = Some (b, x, a ++ l').
Proof.
  revert b. induction l as [|ev l IH]; simpl; [done|].
  intros b. destruct (failed ev); [by intros [= <- <- <-]|].
  destruct (cut_at_failure l) as [[[b' x'] a']|]; [|done].
  intros [= <- <- <-]. by rewrite (IH b').
Qed.

(** A cut trace is its three parts put together, and the part before
    the cut is clean. *)
Lemma cut_at_failure_parts (l : list event) b x a :
  cut_at_failure l = Some (b, x, a) ->
  l = b ++ [x] ++ a /\ clean b = true /\ failed x = true.
Proof.
  revert b. induction l as [|ev l IH]; simpl; [done|].
  intros b. destruct (failed ev) eqn:F; [by intros [= <- <- <-]|].
  destruct (cut_at_failure l) as [[[b' x'] a']|]; [|done].
  intros [= <- <- <-]. destruct (IH b' eq_refl) as (-> & C & Fx).
  repeat split; try done. unfold clean. simpl. by rewrite F.
Qed.

Section Logic.
Variable env : Env.
Variables self peer : DRBD.

Lemma quiet_nil : quiet self peer [].
Proof. repeat split; constructor. Qed.

Lemma quiet_app l l' : quiet self peer l -> quiet self peer l' -> quiet self peer (l ++ l').
Proof.
  intros (?&?&?) (?&?&?). unfold quiet. rewrite clean_app, actions_app, !Forall_app.
  repeat split; try done. by apply andb_true_intro.
Qed.

Lemma passive_ret {A} (a : A) : passive self peer (ret a : M A).
Proof.
  intros s s' r [= <- <-]. exists []. split; [by rewrite app_nil_r|apply quiet_nil].
Qed.

Lemma passive_raise {A} e : passive self peer (raise e : M A).
Proof.
  intros s s' r [= <- <-]. exists [Raised e]. split; [done|].
  exists [], (Raised e). repeat split; try done; constructor.
Qed.

Lemma passive_get_heap : passive self peer (get_heap : M heap_t).
Proof.
  intros s s' r [= <- <-]. exists []. split; [by rewrite app_nil_r|apply quiet_nil].
Qed.

Lemma passive_set_heap h : passive self peer (set_heap h : M unit).
Proof.
  intros s s' r [= <- <-]. exists []. split; [by rewrite app_nil_r|apply quiet_nil].
Qed.

Lemma passive_bind {A B} (m : M A) (k : A -> M B) :
  passive self peer m -> (forall a, passive self peer (k a)) ->
  passive self peer (x <- m ;; k x).
Proof.
  intros Hm Hk s s' r. unfold bind. destruct (m s) as [s1 [a|e]] eqn:Em.
  - intros Ek. destruct (Hm _ _ _ Em) as (n1 & T1 & Q1).
    destruct (Hk a _ _ _ Ek) as (n2 & T2 & Q2).
    exists (n1 ++ n2). split; [by rewrite T2, T1, app_assoc|].
    destruct r as [b|e].
    + by apply quiet_app.
    + destruct Q2 as (bf & bad & -> & Qb & Fb & Eb).
      exists (n1 ++ bf), bad. rewrite app_assoc. repeat split; try done; by apply quiet_app.
  - intros [= <- <-]. destruct (Hm _ _ _ Em) as (n1 & T1 & Q1). by exists n1.
Qed.

Lemma single_call_str a : single_call (call_str env a) a.
Proof.
  intros s s' r. unfold call_str.
  destruct (ask_str env (trace s) a); intros [= <- <-]; by eexists.
Qed.

Lemma single_call_unit a : single_call (call_unit env a) a.
Proof.
  intros s s' r. unfold call_unit.
  destruct (ask_unit env (trace s) a); intros [= <- <-]; by eexists.
Qed.

Lemma passive_single {A} (c : M A) a :
  single_call c a -> forward_call self peer a -> inverse self a = [] ->
  passive self peer c.
Proof.
  intros Hc Pa Ia s s' r E. destruct (Hc _ _ _ E) as (rep & -> & R).
  exists [Call a rep]. split; [done|]. destruct r as [v|e].
  - split; [unfold clean; cbn [forallb]; by rewrite R|].
    split; simpl; (constructor; [done|constructor]).
  - subst rep. exists [], (Call a (RRaise e)). repeat split; try done; constructor.
Qed.

Lemma unwinds_passive {A} (m : M A) : passive self peer m -> unwinds self peer m.
Proof.
  intros Hm s s' e E.
  destruct (Hm _ _ _ E) as (new & T & bf & bad & -> & (C & F & I) & Fb & Eb).
  exists (bf ++ [bad]). split; [done|]. unfold unwound.
  rewrite (cut_clean_app _ _ C). simpl. rewrite Fb, app_nil_r. split; [done|].
  intros _. split; [done|]. simpl. by rewrite unwind_nothing.
Qed.

Lemma unwinds_bind {A B} (m : M A) (k : A -> M B) :
  passive self peer m -> (forall a, unwinds self peer (k a)) ->
  unwinds self peer (x <- m ;; k x).
Proof.
  intros Hm Hk s s' e. unfold bind. destruct (m s) as [s1 [a|e1]] eqn:Em.
  - intros Ek. destruct (Hm _ _ _ Em) as (n1 & T1 & (C & F & I)).
    destruct (Hk a _ _ _ Ek) as (n2 & T2 & U).
    exists (n1 ++ n2). split; [by rewrite T2, T1, app_assoc|].
    unfold unwound in *. rewrite (cut_clean_app _ _ C).
    destruct (cut_at_failure n2) as [[[bf bad] af]|]; [|done].
    destruct U as [Fb U]. rewrite actions_app, unwind_app, (unwind_nothing _ _ I), app_nil_r.
    split; [by apply Forall_app|done].
  - intros [= <- <-]. by apply (unwinds_passive m Hm s).
Qed.

(** The rule of the guarded call: once [a] has completed, whatever
    makes the block fail, the handler adds the inverse of [a] behind
    what the block unwound itself. *)
Lemma unwinds_guard {A B} (c : M A) (a : action) (body : M B) (h : M unit) :
  single_call c a -> forward_call self peer a -> performs h (inverse self a) ->
  unwinds self peer body ->
  unwinds self peer (c ;; try_except body h).
Proof.
  intros Hc Pa Hh Hb s s' e. unfold bind. destruct (c s) as [s1 [v|e1]] eqn:Ec.
  - destruct (Hc _ _ _ Ec) as (rep & -> & R1). unfold try_except.
    destruct (body _) as [s2 [b|e2]] eqn:Eb; [done|].
    destruct (Hb _ _ _ Eb) as (n2 & T2 & U).
    destruct (h s2) as [s3 r3] eqn:Eh.
    destruct (Hh _ _ _ Eh) as (n3 & T3 & H3).
    intros E. assert (s3 = s' /\ (clean n3 = true -> e = e2)) as [-> He].
    { destruct r3 as [[]|e3]; injection E as <- <-; split; try done.
      intros C3. by destruct (H3 C3). }
    exists ([Call a rep] ++ n2 ++ n3). split; [by rewrite T3, T2; simpl; rewrite <- !app_assoc|].
    unfold unwound in *. rewrite cut_clean_app by (unfold clean; cbn [forallb]; by rewrite R1).
    destruct (cut_at_failure n2) as [[[bf bad] af]|] eqn:E2; [|done].
    rewrite (cut_app_after _ n3 _ _ _ E2).
    destruct U as [Fb U]. split; [simpl; by constructor|].
    rewrite clean_app. intros [Ca C3]%andb_prop.
    destruct (U Ca) as [Ebad Eaf]. destruct (H3 C3) as [E3 _].
    rewrite (He C3). split; [done|].
    rewrite actions_app, Eaf, E3. simpl actions. by rewrite unwind_cons.
  - intros [= <- <-]. destruct (Hc _ _ _ Ec) as (rep & -> & ->).
    exists [Call a (RRaise e1)]. split; [done|]. unfold unwound. simpl.
    split; [constructor|]. done.
Qed.

Lemma performs_ret : performs (ret tt) [].
Proof. intros s s' r [= <- <-]. exists []. by rewrite app_nil_r. Qed.

Lemma performs_call {A} (c : M A) a h hs :
  single_call c a -> performs h hs -> performs (c ;; h) (a :: hs).
Proof.
  intros Hc Hh s s' r. unfold bind. destruct (c s) as [s1 [v|e1]] eqn:Ec.
  - intros Eh. destruct (Hc _ _ _ Ec) as (rep & -> & R1).
    destruct (Hh _ _ _ Eh) as (n & T2 & H2).
    exists ([Call a rep] ++ n). split; [by rewrite T2; simpl; rewrite <- app_assoc|].
    rewrite clean_app. intros [_ C2]%andb_prop. destruct (H2 C2) as [E ->].
    split; [|done]. by rewrite actions_app, E.
  - intros [= <- <-]. destruct (Hc _ _ _ Ec) as (rep & -> & ->).
    exists [Call a (RRaise e1)]. split; [done|]. done.
Qed.

Ltac pick :=
  solve [repeat first [apply list_elem_of_here | apply list_elem_of_further]].
Ltac fwd_query := left; unfold forward_queries; pick.
Ltac fwd_pick :=
  unfold forward_steps, steps_before_promotion, promotion, steps_after_promotion;
  cbn [app];
  match goal with
  | R : master_role _ = _ |- _ => rewrite R
  | _ => destruct (master_role self)
  end; cbn [app]; pick.
Ltac fwd_step :=
  right;
  first [ exists EmptyString, 0, 0; fwd_pick
        | eexists _, 0, 0; fwd_pick
        | eexists EmptyString, _, _; fwd_pick ].
Ltac handler :=
  repeat (apply performs_call; [apply single_call_str|]); apply performs_ret.

Lemma passive_get_device_minor_self : passive self peer (get_device_minor env self).
Proof.
  unfold get_device_minor. apply passive_bind; [apply passive_get_heap|]. intros h.
  destruct (h !! oid self); [apply passive_ret|].
  apply passive_bind.
  - eapply passive_single; [apply single_call_str|fwd_query|done].
  - intros out. destruct (Py.int 16 out); [|apply passive_raise].
    apply passive_bind; [apply passive_set_heap|]. intros _. apply passive_ret.
Qed.

Lemma passive_get_device_minor_peer : passive self peer (get_device_minor env peer).
Proof.
  unfold get_device_minor. apply passive_bind; [apply passive_get_heap|]. intros h.
  destruct (h !! oid peer); [apply passive_ret|].
  apply passive_bind.
  - eapply passive_single; [apply single_call_str|fwd_query|done].
  - intros out. destruct (Py.int 16 out); [|apply passive_raise].
    apply passive_bind; [apply passive_set_heap|]. intros _. apply passive_ret.
Qed.

Lemma passive_get_host_config_self : passive self peer (get_host_config env self).
Proof.
  unfold get_host_config, get_device_port.
  apply passive_bind; [|intros port; apply passive_bind; [|intros; apply passive_ret]].
  - apply passive_bind; [|intros; apply passive_ret]. apply passive_get_device_minor_self.
  - apply passive_get_device_minor_self.
Qed.

Lemma passive_get_host_config_peer : passive self peer (get_host_config env peer).
Proof.
  unfold get_host_config, get_device_port.
  apply passive_bind; [|intros port; apply passive_bind; [|intros; apply passive_ret]].
  - apply passive_bind; [|intros; apply passive_ret]. apply passive_get_device_minor_peer.
  - apply passive_get_device_minor_peer.
Qed.

Lemma passive_get_device_size : passive self peer (get_device_size env self).
Proof.
  unfold get_device_size, hv_run. apply passive_bind.
  - eapply passive_single; [apply single_call_str|fwd_query|done].
  - intros out. destruct (Py.int 10 _); [apply passive_ret|apply passive_raise].
Qed.

Lemma passive_forward a :
  forward_call self peer a -> inverse self a = [] -> passive self peer (call_str env a).
Proof. intros. eapply passive_single; [apply single_call_str|done..]. Qed.

Lemma passive_promotion :
  passive self peer
    (if master_role self
     then hv_run env (hv self) (DrbdOverwritePrimary (vm_name self)) ;; ret tt
     else hv_run env (hv self) (DrbdWaitConnect (vm_name self)) ;;
          hv_run env (hv self) (DrbdPrimary (vm_name self)) ;; ret tt).
Proof.
  unfold hv_run. destruct (master_role self) eqn:R.
  - apply passive_bind; [|intros; apply passive_ret].
    apply passive_forward; [fwd_step|done].
  - apply passive_bind; [|intros _; apply passive_bind; [|intros; apply passive_ret]].
    + apply passive_forward; [fwd_step|done].
    + apply passive_forward; [fwd_step|done].
Qed.

Lemma unwinds_take_over_device : unwinds self peer (take_over_device env self).
Proof.
  unfold take_over_device.
  apply unwinds_bind; [apply passive_get_device_size|]. intros dev_size.
  eapply unwinds_guard; [apply single_call_str|fwd_step|unfold hv_run; handler|].
  apply unwinds_bind; [apply passive_forward; [fwd_step|done]|]. intros _.
  apply unwinds_bind; [apply passive_forward; [fwd_step|done]|]. intros _.
  apply unwinds_bind; [apply passive_promotion|]. intros _.
  apply unwinds_bind; [apply passive_get_device_minor_self|]. intros dm_minor.
  eapply unwinds_guard; [apply single_call_str|fwd_step|unfold hv_run; handler|].
  apply unwinds_passive. apply passive_bind; [|intros; apply passive_ret].
  apply passive_forward; [fwd_step|done].
Qed.

Lemma unwinds_start_enter : unwinds self peer (start_enter env self peer).
Proof.
  unfold start_enter, prepare_metadata_device, prepare_lv_override, build_config.
  eapply unwinds_guard; [apply single_call_str|fwd_step|unfold hv_run; handler|].
  apply unwinds_bind; [apply passive_forward; [fwd_step|done]|]. intros _.
  apply unwinds_bind; [apply passive_forward; [fwd_step|done]|]. intros _.
  eapply unwinds_guard; [apply single_call_str|fwd_step|unfold hv_run; handler|].
  apply unwinds_bind; [apply passive_get_host_config_self|]. intros src_host.
  apply unwinds_bind; [apply passive_get_host_config_peer|]. intros dst_host.
  eapply unwinds_guard; [apply single_call_unit|fwd_step|unfold hv_run; handler|].
  apply unwinds_take_over_device.
Qed.

End Logic.

(** C1.  Whatever makes the forward part of [start] raise, the block of
    the caller is not run and the exception leaves [start]; the calls
    made up to the failure are forward calls, and if none of the calls
    made after it fails, they are the inverses of the completed calls,
    the latest first, and the exception that leaves is the one of the
    failed step.  When the forward part completes, [start] runs the
    block and then [stop], whether the block returned or raised. *)
Theorem start_unwinds_then_stops (env : Env) (self peer : DRBD) (s : state) :
  (forall s' e, start_enter env self peer s = (s', Raise e) ->
     (forall A (block : M A), start env self peer block s = (s', Raise e)) /\
     exists new, trace s' = trace s ++ new /\
       match cut_at_failure new with
       | Some (before, bad, after) =>
           Forall (forward_call self peer) (actions before) /\
           (clean after = true ->
            exn_of bad = Some e /\ actions after = unwind self (actions before))
       | None => False
       end) /\
  (forall s1, start_enter env self peer s = (s1, Ok tt) ->
     forall A (block : M A),
       start env self peer block s =
         (let (s2, r) := block s1 in
          match stop env self s2 with
          | (s3, Ok _) => (s3, r)
          | (s3, Raise e') => (s3, Raise e')
          end)).
Proof.
  split.
  - intros s' e E. split.
    + intros A block. unfold start, bind. by rewrite E.
    + apply (unwinds_start_enter env self peer s s' e E).
  - intros s1 E A block. unfold start, bind, try_finally. by rewrite E.
Qed.

End DrbdFacts.

(** ** igvm/drbd.py: the forward path *)

Module DrbdForward.

Import Eff Drbd EffFacts DrbdFacts.

Lemma queried_refl s : queried s s.
Proof. split; [exists []; by rewrite app_nil_r|done]. Qed.

Lemma steps_of_app l l' : steps_of (l ++ l') = steps_of l ++ steps_of l'.
Proof. unfold steps_of. induction l as [|a l IH]; simpl; [done|]. destruct (negb _); simpl; by rewrite IH. Qed.

Lemma queried_trans s1 s2 s3 : queried s1 s2 -> queried s2 s3 -> queried s1 s3.
Proof.
  intros [(q1 & T1 & C1 & S1) H1] [(q2 & T2 & C2 & S2) H2]. split; [|by auto].
  exists (q1 ++ q2). rewrite T2, T1, app_assoc, clean_app, C1, C2, actions_app, steps_of_app, S1, S2.
  done.
Qed.

Section Forward.
Variable env : Env.

Lemma get_device_minor_ok d s s' m :
  get_device_minor env d s = (s', Ok m) ->
  heap s' !! oid d = Some m /\ queried s s'.
Proof.
  unfold get_device_minor. intros (s1 & h & [= <- <-] & E)%bind_ok.
  destruct (heap s !! oid d) as [m'|] eqn:L.
  - injection E as <- <-. split; [done|apply queried_refl].
  - apply bind_ok in E as (s2 & out & [-> _]%call_str_ok & E).
    destruct (Py.int 16 out) as [m'|]; [|done].
    apply bind_ok in E as (s3 & [] & [= <-] & [= <- <-]).
    split; [apply lookup_insert_eq|]. split.
    + eexists [_]. simpl. done.
    + intros o v Ho. simpl. rewrite lookup_insert_ne; [done|]. congruence.
Qed.

Lemma get_device_minor_cached d s m :
  heap s !! oid d = Some m -> get_device_minor env d s = (s, Ok m).
Proof. intros L. unfold get_device_minor, bind, get_heap. by rewrite L. Qed.

Lemma get_host_config_ok d s s' text :
  get_host_config env d s = (s', Ok text) ->
  exists m, text = host_stanza d m /\ heap s' !! oid d = Some m /\ queried s s'.
Proof.
  unfold get_host_config, get_device_port.
  intros (s1 & port & (s2 & m & E1 & [= <- <-])%bind_ok & E)%bind_ok.
  apply get_device_minor_ok in E1 as [L Q].
  apply bind_ok in E as (s3 & m' & E2 & E3).
  rewrite (get_device_minor_cached _ _ _ L) in E2.
  injection E2 as <- <-. injection E3 as <- <-. exists m. split; [|done].
  unfold host_stanza. rewrite !PyFacts.append_assoc. reflexivity.
Qed.

Lemma get_device_size_ok d s s' n :
  get_device_size env d s = (s', Ok n) -> queried s s'.
Proof.
  unfold get_device_size, hv_run.
  intros (s1 & out & [-> _]%call_str_ok & E)%bind_ok.
  destruct (Py.int 10 _); [|done]. injection E as <- <-. split; [|done].
  eexists [_]. simpl. done.
Qed.

(** A successful [build_config]: queries, then the upload, then the
    block. *)
Lemma build_config_ok {A} self peer (block : M A) s s' v :
  build_config env self peer block s = (s', Ok v) ->
  exists m m' s1,
    queried s s1 /\ heap s1 !! oid self = Some m /\ heap s1 !! oid peer = Some m' /\
    block (log (Call (Put (hostname (hv self)) (res_path self)
                        (resource_text (vm_name self) (host_stanza self m)
                           (host_stanza peer m')) "0640") RUnit) s1) = (s', Ok v).
Proof.
  unfold build_config.
  intros (s1 & src & (m & -> & L1 & Q1)%get_host_config_ok & E)%bind_ok.
  apply bind_ok in E as (s2 & dst & (m' & -> & L2 & Q2)%get_host_config_ok & E).
  apply bind_ok in E as (s3 & [] & [-> _]%call_unit_ok & E%try_except_ok).
  exists m, m', s2. split; [by eapply queried_trans|].
  split; [by apply Q2|]. done.
Qed.

Lemma promotion_ok self s s' :
  (if master_role self
   then hv_run env (hv self) (DrbdOverwritePrimary (vm_name self)) ;; ret tt
   else hv_run env (hv self) (DrbdWaitConnect (vm_name self)) ;;
        hv_run env (hv self) (DrbdPrimary (vm_name self)) ;; ret tt) s = (s', Ok tt) ->
  exists new, trace s' = trace s ++ new /\ clean new = true /\
    actions new = promotion self /\ heap s' = heap s.
Proof.
  unfold promotion, hv_run. destruct (master_role self).
  - intros (s1 & ? & [-> _]%call_str_ok & [= <-])%bind_ok. by eexists [_].
  - intros (s1 & ? & [-> _]%call_str_ok & E)%bind_ok.
    apply bind_ok in E as (s2 & ? & [-> _]%call_str_ok & [= <-]).
    eexists [_; _]. simpl. by rewrite <- app_assoc.
Qed.

Lemma take_over_device_ok self s s' m :
  heap s !! oid self = Some m ->
  take_over_device env self s = (s', Ok tt) ->
  exists new dev_size, trace s' = trace s ++ new /\ clean new = true /\
    steps_of (actions new) =
      [ Run (hostname (hv self)) (DmSuspend (vg_name self) (lv_name self)) false false;
        Run (hostname (hv self)) (DrbdCreateMd (vm_name self)) false false;
        Run (hostname (hv self)) (DrbdUp (vm_name self)) false false ]
      ++ promotion self ++ steps_after_promotion self (dev_size / 512) m.
Proof.
  intros L. unfold take_over_device, hv_run.
  intros (s1 & dev_size & [(q & T1 & C1 & S1) H1]%get_device_size_ok & E)%bind_ok.
  apply bind_ok in E as (s2 & ? & [-> _]%call_str_ok & E%try_except_ok).
  apply bind_ok in E as (s3 & ? & [-> _]%call_str_ok & E).
  apply bind_ok in E as (s4 & ? & [-> _]%call_str_ok & E).
  apply bind_ok in E as (s5 & [] & (p & T5 & C5 & A5 & H5)%promotion_ok & E).
  apply bind_ok in E as (s6 & m6 & E6 & E).
  rewrite (get_device_minor_cached self s5 m) in E6
    by (rewrite H5; simpl; by apply H1).
  injection E6 as <- <-.
  apply bind_ok in E as (s7 & ? & [-> _]%call_str_ok & E%try_except_ok).
  apply bind_ok in E as (s8 & ? & [-> _]%call_str_ok & [= <-]).
  eexists (q ++ [_; _; _] ++ p ++ [_; _]), dev_size.
  simpl trace. rewrite T5. simpl trace. rewrite T1.
  split; [by rewrite <- !app_assoc|].
  rewrite !clean_app, C1, C5. split; [done|].
  rewrite !actions_app, !steps_of_app, S1, A5. simpl.
  f_equal. f_equal. f_equal. f_equal.
  unfold promotion, steps_of. by destruct (master_role self).
Qed.

(** A successful forward part of [start]: the steps, in order, with
    queries in between. *)
Lemma start_enter_ok self peer s s' :
  start_enter env self peer s = (s', Ok tt) ->
  exists new m m' dev_size,
    trace s' = trace s ++ new /\ clean new = true /\
    steps_of (actions new) =
      forward_steps self
        (resource_text (vm_name self) (host_stanza self m) (host_stanza peer m'))
        (dev_size / 512) m.
Proof.
  unfold start_enter, prepare_metadata_device, prepare_lv_override, hv_run.
  intros (s1 & ? & [-> _]%call_str_ok & E%try_except_ok)%bind_ok.
  apply bind_ok in E as (s2 & ? & [-> _]%call_str_ok & E).
  apply bind_ok in E as (s3 & ? & [-> _]%call_str_ok & E).
  apply bind_ok in E as (s4 & ? & [-> _]%call_str_ok & E%try_except_ok).
  apply build_config_ok in E as (m & m' & s5 & [(q & T5 & C5 & S5) H5] & L & L' & E).
  apply take_over_device_ok with (m := m) in E as (t & dev_size & T & C & S); [|done].
  eexists ([_; _; _; _] ++ q ++ [_] ++ t), m, m', dev_size.
  rewrite T. simpl trace. rewrite T5. simpl trace.
  split; [by rewrite <- !app_assoc|].
  rewrite !clean_app, C5, C. split; [done|].
  rewrite !actions_app, !steps_of_app, S5, S. reflexivity.
Qed.

End Forward.

End DrbdForward.

Module DrbdRollback.
Import Eff Drbd Sample DrbdFacts.

(** The resume that ends the forward part fails. *)
Lemma start_unwinds_witness :
  exists new,
    trace (fst (start_enter (failing_at 13 boom) primary secondary fresh))
      = trace fresh ++ new /\
    match cut_at_failure new with
    | Some (before, bad, after) =>
        Forall (forward_call primary secondary) (actions before) /\
        (clean after = true ->
         exn_of bad = Some boom /\ actions after = unwind primary (actions before))
    | None => False
    end.
Proof.
  apply (proj1 (start_unwinds_then_stops (failing_at 13 boom) primary secondary fresh)).
  vm_compute. reflexivity.
Defined.

Example resume_failure_rolls_back :
  command_lines (actions (drop 14 (since 0
     (fst (start_enter (failing_at 13 boom) primary secondary fresh))))) =
  [ "dmsetup load /dev/xen-data/vm1.example < /tmp/xen-data_vm1.example_table";
    "dmsetup resume /dev/xen-data/vm1.example";
    "drbdadm down vm1.example";
    "dmsetup resume /dev/xen-data/vm1.example";
    "rm /etc/drbd.d/vm1.example.res";
    "dmsetup remove vm1.example_orig";
    "lvremove -fy xen-data/vm1.example_meta" ].
Proof. vm_compute. reflexivity. Qed.

End DrbdRollback.

(** ** igvm/drbd.py: the order of the forward path *)

Module DrbdOrder.

Import Eff Drbd Sample EffFacts DrbdFacts DrbdForward.

(** C3.  When the forward part of [start] completes, every call
    completed, and the calls that are no queries are, in this order:
    lvcreate of the 256 MiB metadata volume, the dd that zeroes it, the
    dump of the table, the creation of the shim from it, the upload of
    the resource file, the suspend, create-md and up, the promotion,
    the load of the DRBD table and the resume.  The promotion is the
    forced primary on the primary and wait-connect followed by primary
    on the secondary; the steps before and after it do not depend on
    the role. *)
Theorem start_forward_order (env : Env) (self peer : DRBD) (s s' : state) :
  start_enter env self peer s = (s', Ok tt) ->
  exists new content sectors minor,
    trace s' = trace s ++ new /\ clean new = true /\
    steps_of (actions new) =
      steps_before_promotion self content ++ promotion self
      ++ steps_after_promotion self sectors minor /\
    command_lines (steps_before_promotion self content) =
      [ "lvcreate -y -n " +:+ meta_disk self +:+ " -L256M " +:+ vg_name self;
        "dd if=/dev/zero of=/dev/" +:+ vg_name self +:+ "/" +:+ meta_disk self
          +:+ " bs=1048576 count=256";
        "dmsetup table /dev/" +:+ vg_name self +:+ "/" +:+ lv_name self
          +:+ " > " +:+ table_file self;
        "dmsetup create " +:+ lv_name self +:+ "_orig < " +:+ table_file self;
        "dmsetup suspend /dev/" +:+ vg_name self +:+ "/" +:+ lv_name self;
        "drbdadm create-md " +:+ vm_name self;
        "drbdadm up " +:+ vm_name self ] /\
    nth_error (steps_before_promotion self content) 4 =
      Some (Put (hostname (hv self)) ("/etc/drbd.d/" +:+ vm_name self +:+ ".res")
              content "0640") /\
    command_lines (promotion self) =
      (if master_role self
       then [ "drbdadm -- --overwrite-data-of-peer primary " +:+ vm_name self ]
       else [ "drbdadm wait-connect " +:+ vm_name self;
              "drbdadm -- primary " +:+ vm_name self ]) /\
    command_lines (steps_after_promotion self sectors minor) =
      [ "dmsetup load /dev/" +:+ vg_name self +:+ "/" +:+ lv_name self
          +:+ " --table " +:+ Py.dq +:+ "0 " +:+ Py.str sectors
          +:+ " linear /dev/drbd" +:+ Py.str minor +:+ " 0" +:+ Py.dq;
        "dmsetup resume /dev/" +:+ vg_name self +:+ "/" +:+ lv_name self ] /\
    (forall r,
       steps_before_promotion (with_role r self) content
         = steps_before_promotion self content /\
       steps_after_promotion (with_role r self) sectors minor
         = steps_after_promotion self sectors minor).
Proof.
  intros (new & m & m' & dev_size & T & C & S)%start_enter_ok.
  eexists new, _, (dev_size / 512), m. split; [done|]. split; [done|].
  split; [exact S|]. split; [reflexivity|]. split; [reflexivity|].
  split; [unfold promotion; by destruct (master_role self)|].
  split; [reflexivity|]. intros r. split; reflexivity.
Qed.

(** In the sample world the forward part completes, on either end. *)
Lemma start_forward_order_witness :
  exists new content sectors minor,
    trace (fst (start_enter world secondary primary fresh)) = trace fresh ++ new /\
    clean new = true /\
    steps_of (actions new) =
      steps_before_promotion secondary content ++ promotion secondary
      ++ steps_after_promotion secondary sectors minor.
Proof.
  destruct (start_forward_order world secondary primary fresh
              (fst (start_enter world secondary primary fresh)))
    as (new & content & sectors & minor & T & C & S & _).
  - vm_compute. reflexivity.
  - by exists new, content, sectors, minor.
Defined.

Example primary_command_lines :
  command_lines (actions (since 0 (fst (start_enter world primary secondary fresh)))) =
  [ "lvcreate -y -n vm1.example_meta -L256M xen-data";
    "dd if=/dev/zero of=/dev/xen-data/vm1.example_meta bs=1048576 count=256";
    "dmsetup table /dev/xen-data/vm1.example > /tmp/xen-data_vm1.example_table";
    "dmsetup create vm1.example_orig < /tmp/xen-data_vm1.example_table";
    "stat -L -c " +:+ Py.dq +:+ "%T" +:+ Py.dq +:+ " /dev/xen-data/vm1.example";
    "stat -L -c " +:+ Py.dq +:+ "%T" +:+ Py.dq +:+ " /dev/xen-data/4711_vm1.example";
    "lvs --noheadings -o lv_size --units b --nosuffix xen-data/vm1.example";
    "dmsetup suspend /dev/xen-data/vm1.example";
    "drbdadm create-md vm1.example";
    "drbdadm up vm1.example";
    "drbdadm -- --overwrite-data-of-peer primary vm1.example";
    "dmsetup load /dev/xen-data/vm1.example --table " +:+ Py.dq
      +:+ "0 12582912 linear /dev/drbd3 0" +:+ Py.dq;
    "dmsetup resume /dev/xen-data/vm1.example" ].
Proof. vm_compute. reflexivity. Qed.

End DrbdOrder.

(** ** igvm/drbd.py: the resource file *)

Module DrbdConfig.

Import Eff Drbd Sample EffFacts DrbdFacts DrbdForward.

(** The text [build_config] formats is the stanza of the
    specification with the two commented-out options after its fourth
    line. *)
Lemma resource_text_lines self peer m m' :
  resource_text (vm_name self) (host_stanza self m) (host_stanza peer m') =
  let stanza := spec_stanza_lines (vm_name self) (on_lines self m) (on_lines peer m') in
  unlines (take 4 stanza ++ commented_out ++ drop 4 stanza).
Proof.
  unfold resource_text, host_stanza. cbn -[String.append Py.str Py.nl].
  rewrite !PyFacts.append_assoc. reflexivity.
Qed.

(** C5, as amended.  A [build_config] that lets its block run has
    uploaded, right before the block and after nothing but queries,
    one file: to [/etc/drbd.d/{vm}.res], with mode 0640, holding the
    stanza of the specification (each end with its own minor and port
    8000 plus that minor) and, after the [max-buffers] line, the two
    commented-out buffer options. *)
Theorem build_config_uploads (env : Env) (self peer : DRBD) {A} (block : M A)
    (s s' : state) (v : A) :
  build_config env self peer block s = (s', Ok v) ->
  exists m m' s1,
    queried s s1 /\ heap s1 !! oid self = Some m /\ heap s1 !! oid peer = Some m' /\
    let stanza := spec_stanza_lines (vm_name self) (on_lines self m) (on_lines peer m') in
    block (log (Call (Put (hostname (hv self))
                        ("/etc/drbd.d/" +:+ vm_name self +:+ ".res")
                        (unlines (take 4 stanza ++ commented_out ++ drop 4 stanza))
                        "0640") RUnit) s1) = (s', Ok v).
Proof.
  intros (m & m' & s1 & Q & L & L' & E)%(build_config_ok env).
  exists m, m', s1. repeat split; try done; try apply Q.
  cbv zeta. by rewrite <- resource_text_lines.
Qed.

Lemma build_config_uploads_witness :
  exists m m' s1,
    queried fresh s1 /\ heap s1 !! oid primary = Some m /\
    heap s1 !! oid secondary = Some m' /\
    let stanza := spec_stanza_lines (vm_name primary) (on_lines primary m)
                    (on_lines secondary m') in
    ret tt (log (Call (Put (hostname (hv primary))
                         ("/etc/drbd.d/" +:+ vm_name primary +:+ ".res")
                         (unlines (take 4 stanza ++ commented_out ++ drop 4 stanza))
                         "0640") RUnit) s1)
      = (fst (build_config world primary secondary (ret tt) fresh), Ok tt).
Proof.
  apply (build_config_uploads world primary secondary (ret tt) fresh
           (fst (build_config world primary secondary (ret tt) fresh)) tt).
  vm_compute. reflexivity.
Defined.

(** The file uploaded in the sample world is not the stanza of the
    specification: it has a line the stanza has not. *)
Lemma resource_file_not_the_spec_stanza :
  let stanza := spec_stanza_lines "vm1.example" (on_lines primary 3) (on_lines secondary 5) in
  exists content,
    uploads (trace (fst (build_config world primary secondary (ret tt) fresh)))
      = [ ("/etc/drbd.d/vm1.example.res", content, "0640") ] /\
    content <> unlines stanza /\
    In "#        sndbuf-size 2048k;" (Py.splitlines content) /\
    ~ In "#        sndbuf-size 2048k;" stanza.
Proof.
  eexists. split; [vm_compute; reflexivity|].
  split; [vm_compute; discriminate|].
  split; [vm_compute; tauto|].
  vm_compute. intros H. repeat (destruct H as [H|H]; [discriminate H|]). exact H.
Qed.

End DrbdConfig.

(** ** igvm/drbd.py: tear-down *)

Module DrbdStop.

Import Eff Drbd Sample EffFacts DrbdFacts DrbdForward.

Section Stop.
Variable env : Env.
Variable self : DRBD.

Local Abbreviation h := (hostname (hv self)).
Local Abbreviation v := (fqdn (vm self)).

(** The test [stop] makes before it suspends or resumes the VM. *)
Lemma secondary_vm_running_ok s s' b :
  secondary_vm_running env self s = (s', Ok b) ->
  exists new, trace s' = trace s ++ new /\ clean new = true /\
    (if master_role self then new = [] /\ b = false
     else (actions new = [VmDefined h v] /\ b = false) \/
          (actions new = [VmDefined h v; VmRunning h v] /\
           exists t, ask_bool env t (VmRunning h v) = Ok b)) /\
    ((forall t, ask_bool env t (VmDefined h v) = Ok true) ->
     master_role self = false -> actions new = [VmDefined h v; VmRunning h v]).
Proof.
  unfold secondary_vm_running. destruct (master_role self); simpl.
  - intros [= <- <-]. exists []. by rewrite app_nil_r.
  - intros (s1 & d & [-> Hd]%call_bool_ok & E)%bind_ok. destruct d.
    + apply call_bool_ok in E as [-> Hr]. eexists [_; _].
      simpl. rewrite <- app_assoc. repeat split; try done. right. eauto.
    + injection E as <- <-. eexists [_]. repeat split; try done; [by left|].
      intros Hall. by rewrite Hall in Hd.
Qed.

Lemma guarded_vm_call_ok (b : bool) act (s s' : state) :
  (if b then call_unit env act else ret tt) s = (s', Ok tt) ->
  exists new, trace s' = trace s ++ new /\ clean new = true /\
    actions new = (if b then [act] else []).
Proof.
  destruct b.
  - intros [-> _]%call_unit_ok. by eexists [_].
  - intros [= <-]. exists []. by rewrite app_nil_r.
Qed.

(** The calls of a [stop] that returns. *)
Lemma stop_ok s s' :
  stop env self s = (s', Ok tt) ->
  exists new pre post,
    trace s' = trace s ++ new /\ clean new = true /\
    actions new = pre ++ restore_table self ++ post ++ final_cleanup self /\
    quiesce self (SuspendVm h v) pre /\ quiesce self (ResumeVm h v) post /\
    ((forall t, ask_bool env t (VmDefined h v) = Ok true) ->
     (forall t, ask_bool env t (VmRunning h v) = Ok true) ->
     master_role self = false ->
     pre = [VmDefined h v; VmRunning h v; SuspendVm h v] /\
     post = [VmDefined h v; VmRunning h v; ResumeVm h v]).
Proof.
  unfold stop, hv_run.
  intros (s1 & b1 & (n1 & T1 & C1 & Q1 & A1)%secondary_vm_running_ok & E)%bind_ok.
  apply bind_ok in E as (s2 & [] & (n2 & T2 & C2 & A2)%guarded_vm_call_ok & E).
  apply bind_ok in E as (s3 & ? & [-> _]%call_str_ok & E).
  apply bind_ok in E as (s4 & ? & [-> _]%call_str_ok & E).
  apply bind_ok in E as (s5 & ? & [-> _]%call_str_ok & E).
  apply bind_ok in E as (s6 & b2 & (n3 & T3 & C3 & Q3 & A3)%secondary_vm_running_ok & E).
  apply bind_ok in E as (s7 & [] & (n4 & T4 & C4 & A4)%guarded_vm_call_ok & E).
  apply bind_ok in E as (s8 & ? & [-> _]%call_str_ok & E).
  apply bind_ok in E as (s9 & ? & [-> _]%call_str_ok & E).
  apply bind_ok in E as (s10 & ? & [-> _]%call_str_ok & [= <-]).
  eexists ((n1 ++ n2) ++ [_; _; _] ++ (n3 ++ n4) ++ [_; _; _]),
    (actions (n1 ++ n2)), (actions (n3 ++ n4)).
  simpl trace. rewrite T4, T3. simpl trace. rewrite T2, T1.
  split; [by rewrite <- !app_assoc|].
  split; [by rewrite !clean_app, C1, C2, C3, C4|].
  split; [by rewrite !actions_app|].
  rewrite !actions_app, A2, A4. unfold quiesce.
  destruct (master_role self).
  - destruct Q1 as [-> ->], Q3 as [-> ->]. done.
  - split; [|split].
    + destruct Q1 as [[-> ->]|[-> _]]; [by left|].
      destruct b1; [right; by right|right; left; by rewrite app_nil_r].
    + destruct Q3 as [[-> ->]|[-> _]]; [by left|].
      destruct b2; [right; by right|right; left; by rewrite app_nil_r].
    + intros Hd Hr _. rewrite (A1 Hd eq_refl), (A3 Hd eq_refl).
      rewrite (A1 Hd eq_refl) in Q1. rewrite (A3 Hd eq_refl) in Q3.
      destruct Q1 as [[[=] _]|[_ [t1 R1]]], Q3 as [[[=] _]|[_ [t3 R3]]].
      rewrite Hr in R1, R3. injection R1 as <-. injection R3 as <-. done.
Qed.

(** On the primary, whatever happens, [stop] makes shell calls only. *)
Lemma stop_primary_shell_only s s' r :
  master_role self = true ->
  stop env self s = (s', r) ->
  exists new, trace s' = trace s ++ new /\ Forall (fun a => is_shell a = true) (actions new).
Proof.
  intros R. unfold stop, secondary_vm_running, hv_run, bind, call_str, ret.
  rewrite R. cbn [negb].
  repeat match goal with
  | |- context [ask_str env ?t ?a] => destruct (ask_str env t a)
  end; intros [= <- <-]; unfold log; simpl;
  rewrite <- ?app_assoc; simpl; (eexists; split; [reflexivity|]);
  repeat constructor.
Qed.

Ltac stop_prefix R pre post :=
  exists pre, post; split; [reflexivity|];
  unfold quiesce; rewrite R; split; [|split]; [| intuition congruence..];
  unfold restore_table, final_cleanup; simpl; reflexivity.

(** Whatever happens, the calls of [stop] are a beginning of the full
    sequence. *)
Lemma stop_any_outcome s s' r :
  stop env self s = (s', r) ->
  exists new rest pre post,
    trace s' = trace s ++ new /\
    actions new ++ rest = pre ++ restore_table self ++ post ++ final_cleanup self /\
    quiesce self (SuspendVm h v) pre /\ quiesce self (ResumeVm h v) post.
Proof.
  unfold stop, secondary_vm_running, hv_run, bind, call_str, call_bool, call_unit, ret.
  destruct (master_role self) eqn:R; cbn [negb].
  - repeat match goal with
    | |- context [ask_str env ?t ?a] => destruct (ask_str env t a)
    end; intros [= <- <-]; unfold log; simpl;
    rewrite <- ?app_assoc; simpl; eexists _, _; stop_prefix R (@nil action) (@nil action).
  - repeat match goal with
    | |- context [ask_str env ?t ?a] => destruct (ask_str env t a)
    | |- context [ask_unit env ?t ?a] => destruct (ask_unit env t a)
    | |- context [ask_bool env ?t ?a] => destruct (ask_bool env t a) as [[]|]; cbn [log trace heap]
    end; intros [= <- <-]; unfold log; simpl;
    rewrite <- ?app_assoc; simpl; eexists _, _;
    first
      [ stop_prefix R [VmDefined h v] [VmDefined h v]
      | stop_prefix R [VmDefined h v] [VmDefined h v; VmRunning h v]
      | stop_prefix R [VmDefined h v] [VmDefined h v; VmRunning h v; ResumeVm h v]
      | stop_prefix R [VmDefined h v; VmRunning h v] [VmDefined h v]
      | stop_prefix R [VmDefined h v; VmRunning h v] [VmDefined h v; VmRunning h v]
      | stop_prefix R [VmDefined h v; VmRunning h v] [VmDefined h v; VmRunning h v; ResumeVm h v]
      | stop_prefix R [VmDefined h v; VmRunning h v; SuspendVm h v] [VmDefined h v]
      | stop_prefix R [VmDefined h v; VmRunning h v; SuspendVm h v] [VmDefined h v; VmRunning h v]
      | stop_prefix R [VmDefined h v; VmRunning h v; SuspendVm h v]
          [VmDefined h v; VmRunning h v; ResumeVm h v] ].
Qed.

End Stop.

(** C4.  A [stop] that returns has loaded the saved table, resumed the
    device and taken DRBD down, in this order, and after that removed
    the shim, the metadata volume and the resource file.  A [stop]
    that raises has made a beginning of that same sequence.  On the
    primary it did nothing else, and on the primary no run of [stop],
    returning or not, makes any call but these shell commands.  On the
    secondary, before the load it asked whether the VM is defined and
    running and suspended it if so, and after [drbdadm down] it asked
    again and resumed it if so; when the hypervisor always answers
    that the VM is defined and running, the VM is suspended before the
    load and resumed after the [drbdadm down]. *)
Theorem stop_order (env : Env) (self : DRBD) (s : state) :
  let h := hostname (hv self) in
  let v := fqdn (vm self) in
  (forall s', stop env self s = (s', Ok tt) ->
     exists new pre post,
       trace s' = trace s ++ new /\ clean new = true /\
       actions new = pre ++ restore_table self ++ post ++ final_cleanup self /\
       quiesce self (SuspendVm h v) pre /\ quiesce self (ResumeVm h v) post /\
       ((forall t, ask_bool env t (VmDefined h v) = Ok true) ->
        (forall t, ask_bool env t (VmRunning h v) = Ok true) ->
        master_role self = false ->
        pre = [VmDefined h v; VmRunning h v; SuspendVm h v] /\
        post = [VmDefined h v; VmRunning h v; ResumeVm h v])) /\
  (forall s' r, stop env self s = (s', r) ->
     exists new rest pre post,
       trace s' = trace s ++ new /\
       actions new ++ rest = pre ++ restore_table self ++ post ++ final_cleanup self /\
       quiesce self (SuspendVm h v) pre /\ quiesce self (ResumeVm h v) post) /\
  (master_role self = true ->
   forall s' r, stop env self s = (s', r) ->
     exists new, trace s' = trace s ++ new /\
       Forall (fun a => is_shell a = true) (actions new)) /\
  command_lines (restore_table self) =
    [ "dmsetup load /dev/" +:+ vg_name self +:+ "/" +:+ lv_name self
        +:+ " < " +:+ table_file self;
      "dmsetup resume /dev/" +:+ vg_name self +:+ "/" +:+ lv_name self;
      "drbdadm down " +:+ vm_name self ] /\
  command_lines (final_cleanup self) =
    [ "dmsetup remove " +:+ lv_name self +:+ "_orig";
      "lvremove -fy " +:+ vg_name self +:+ "/" +:+ meta_disk self;
      "rm /etc/drbd.d/" +:+ vm_name self +:+ ".res" ].
Proof.
  intros h v. split; [|split; [|split; [|split; reflexivity]]].
  - intros s'. apply stop_ok.
  - intros s' r. apply stop_any_outcome.
  - intros R s' r. by apply stop_primary_shell_only.
Qed.

Lemma stop_order_witness :
  exists new pre post,
    trace (fst (stop world secondary fresh)) = trace fresh ++ new /\
    clean new = true /\
    actions new = pre ++ restore_table secondary ++ post ++ final_cleanup secondary /\
    pre = [ VmDefined "hv2.example" "vm1.example"; VmRunning "hv2.example" "vm1.example";
            SuspendVm "hv2.example" "vm1.example" ] /\
    post = [ VmDefined "hv2.example" "vm1.example"; VmRunning "hv2.example" "vm1.example";
             ResumeVm "hv2.example" "vm1.example" ].
Proof.
  destruct (proj1 (stop_order world secondary fresh) (fst (stop world secondary fresh)))
    as (new & pre & post & T & C & A & _ & _ & H).
  - vm_compute. reflexivity.
  - destruct H as [-> ->]; [done..|]. eexists new, _, _. repeat split; done.
Defined.

End DrbdStop.

(** ** igvm/drbd.py: what tear-down leaves behind *)

Module DrbdResources.

Import Eff Drbd Sample EffFacts DrbdFacts DrbdForward DrbdStop.

Lemma resources_after_app host (l l' : list event) w :
  resources_after host (l ++ l') w = resources_after host l' (resources_after host l w).
Proof. apply fold_left_app. Qed.

Lemma calls_effect_app host (l l' : list action) w :
  calls_effect host (l ++ l') w = calls_effect host l' (calls_effect host l w).
Proof. apply fold_left_app. Qed.

(** Events that all completed act as their calls. *)
Lemma resources_after_clean host (l : list event) w :
  clean l = true -> resources_after host l w = calls_effect host (actions l) w.
Proof.
  revert w. induction l as [|ev l IH]; intros w; [done|].
  unfold clean. simpl. intros [F C]%andb_prop. apply negb_true_iff in F.
  destruct ev as [a r|a|e]; simpl in *; [|by apply IH|done].
  unfold resources_after in *. simpl. rewrite F. by apply IH.
Qed.

Lemma resources_after_failed host (ev : event) w :
  failed ev = true -> resources_after host [ev] w = w.
Proof. destruct ev as [a r|a|e]; simpl; [|done..]. unfold resources_after. simpl. by intros ->. Qed.

Lemma shrinks_nil host d : shrinks host d [].
Proof. intros w. by repeat split. Qed.

Ltac cases_of H :=
  repeat (apply elem_of_cons in H as [->|H]); [..|by apply elem_of_nil in H].

(** A forward call of [start], whatever follows it, and its inverse
    behind that. *)
Lemma shrinks_wrap self peer host a X :
  table_file self <> res_path self ->
  forward_call self peer a -> shrinks host self X ->
  shrinks host self ([a] ++ X ++ inverse self a).
Proof.
  intros Hne Ha HX w. rewrite !calls_effect_app.
  specialize (HX (calls_effect host [a] w)).
  revert HX. generalize (calls_effect host X (calls_effect host [a] w)). intros w2.
  unfold no_more, meta_lv_present, shim_present, res_file_present, res_path in *.
  destruct Ha as [Ha|(content & sectors & minor & Ha)].
  - unfold forward_queries in Ha. cases_of Ha; simpl; repeat case_decide; simpl; tauto.
  - unfold forward_steps, steps_before_promotion, promotion, steps_after_promotion in Ha.
    destruct (master_role self); simpl in Ha; cases_of Ha;
      simpl; repeat case_decide; simpl; intros (H1 & H2 & H3); set_solver.
Qed.

(** Unwinding puts back what the forward calls took. *)
Lemma unwind_shrinks self peer host (l mid : list action) :
  table_file self <> res_path self ->
  Forall (forward_call self peer) l -> shrinks host self mid ->
  shrinks host self (l ++ mid ++ unwind self l).
Proof.
  intros Hne Hl. revert mid. induction Hl as [|a l Ha _ IH]; intros mid Hm.
  - unfold unwind. simpl. by rewrite app_nil_r.
  - rewrite unwind_cons.
    replace ((a :: l) ++ mid ++ unwind self l ++ inverse self a)
      with ([a] ++ (l ++ mid ++ unwind self l) ++ inverse self a)
      by (by rewrite <- !app_assoc).
    eapply shrinks_wrap; [done..|]. by apply IH.
Qed.

Lemma keeps_table_app host d l l' :
  keeps_table host d l -> keeps_table host d l' -> keeps_table host d (l ++ l').
Proof. intros H H' w Hw. rewrite calls_effect_app. by apply H', H. Qed.

Lemma forward_keeps_table self peer host a :
  table_file self <> res_path self ->
  forward_call self peer a ->
  keeps_table host self [a] /\ keeps_table host self (inverse self a).
Proof.
  intros Hne Ha. unfold keeps_table, table_file_present, res_path in *.
  destruct Ha as [Ha|(content & sectors & minor & Ha)].
  - unfold forward_queries in Ha. cases_of Ha; simpl; repeat case_decide; simpl; tauto.
  - unfold forward_steps, steps_before_promotion, promotion, steps_after_promotion in Ha.
    destruct (master_role self); simpl in Ha; cases_of Ha;
      simpl; repeat case_decide; simpl; split; intros w Hw; set_solver.
Qed.

Lemma unwind_keeps_table self peer host (l : list action) :
  table_file self <> res_path self ->
  Forall (forward_call self peer) l ->
  keeps_table host self l /\ keeps_table host self (unwind self l).
Proof.
  intros Hne Hl. induction Hl as [|a l Ha _ [IH1 IH2]].
  - split; by intros w.
  - destruct (forward_keeps_table self peer host a Hne Ha) as [K1 K2]. split.
    + by apply (keeps_table_app _ _ [a] l).
    + rewrite unwind_cons. by apply keeps_table_app.
Qed.

(** What a returned [stop] leaves. *)
Lemma stop_resources env self s s' w :
  table_file self <> res_path self ->
  stop env self s = (s', Ok tt) ->
  exists new, trace s' = trace s ++ new /\
    let w' := resources_after (hostname (hv self)) new w in
    ~ meta_lv_present self w' /\ ~ shim_present self w' /\ ~ res_file_present self w' /\
    (table_file_present self w' <-> table_file_present self w).
Proof.
  intros Hne (new & pre & post & T & C & A & Qpre & Qpost & _)%stop_ok.
  exists new. split; [done|]. cbv zeta. rewrite (resources_after_clean _ _ _ C), A.
  unfold quiesce in *. unfold restore_table, final_cleanup.
  unfold meta_lv_present, shim_present, res_file_present, table_file_present, res_path in *.
  destruct (master_role self).
  - subst pre post. simpl. repeat case_decide; try done. simpl. set_solver.
  - destruct Qpre as [->|[->| ->]], Qpost as [->|[->| ->]];
      simpl; repeat case_decide; try done; simpl; set_solver.
Qed.

(** What a failed [start] leaves once it has unwound. *)
Lemma start_enter_resources env self peer s s' e w :
  table_file self <> res_path self ->
  start_enter env self peer s = (s', Raise e) ->
  exists new, trace s' = trace s ++ new /\
    match cut_at_failure new with
    | Some (before, bad, after) =>
        clean after = true ->
        let w' := resources_after (hostname (hv self)) new w in
        no_more self w' w /\ (table_file_present self w -> table_file_present self w')
    | None => False
    end.
Proof.
  intros Hne (new & T & U)%(unwinds_start_enter env).
  exists new. split; [done|]. unfold unwound in U.
  destruct (cut_at_failure new) as [[[before bad] after]|] eqn:E; [|done].
  destruct U as [F U]. intros C. destruct (U C) as [_ A].
  apply cut_at_failure_parts in E as (-> & Cb & Fb). cbv zeta.
  rewrite !resources_after_app, (resources_after_clean _ before _ Cb),
    (resources_after_failed _ bad _ Fb), (resources_after_clean _ after _ C), A.
  rewrite <- calls_effect_app. split.
  - pose proof (unwind_shrinks self peer (hostname (hv self)) (actions before) []
                  Hne F (shrinks_nil _ _)) as S.
    apply S.
  - destruct (unwind_keeps_table self peer (hostname (hv self)) (actions before) Hne F)
      as [K1 K2].
    by apply (keeps_table_app _ _ _ _ K1 K2).
Qed.

End DrbdResources.

Module DrbdTeardown.

Import Eff Drbd Sample EffFacts DrbdFacts DrbdForward DrbdStop DrbdResources.

(** C2, as amended.  When [stop] returns, the hypervisor holds neither
    the metadata volume nor the shim nor the resource file of the
    session, and holds the table file exactly if it held it before:
    [stop] does not remove it.  When the forward part of [start] fails
    and every inverse call completes, the hypervisor holds no more of
    the volume, the shim and the resource file than before [start], and
    a table file that was there is still there. *)
Theorem teardown_leaves_only_table_file (env : Env) (self peer : DRBD)
    (s : state) (w : resources) :
  table_file self <> res_path self ->
  (forall s', stop env self s = (s', Ok tt) ->
     exists new, trace s' = trace s ++ new /\
       let w' := resources_after (hostname (hv self)) new w in
       ~ meta_lv_present self w' /\ ~ shim_present self w' /\
       ~ res_file_present self w' /\
       (table_file_present self w' <-> table_file_present self w)) /\
  (forall s' e, start_enter env self peer s = (s', Raise e) ->
     exists new, trace s' = trace s ++ new /\
       match cut_at_failure new with
       | Some (before, bad, after) =>
           clean after = true ->
           let w' := resources_after (hostname (hv self)) new w in
           no_more self w' w /\
           (table_file_present self w -> table_file_present self w')
       | None => False
       end).
Proof.
  intros Hne. split.
  - intros s'. by apply stop_resources.
  - intros s' e. by apply start_enter_resources.
Qed.

Lemma teardown_witness :
  exists new,
    trace (fst (stop world primary fresh)) = trace fresh ++ new /\
    let w' := resources_after "hv1.example" new no_resources in
    ~ meta_lv_present primary w' /\ ~ shim_present primary w' /\
    ~ res_file_present primary w' /\
    (table_file_present primary w' <-> table_file_present primary no_resources).
Proof.
  apply (proj1 (teardown_leaves_only_table_file world primary secondary fresh
                  no_resources ltac:(vm_compute; discriminate))).
  vm_compute. reflexivity.
Defined.

(** A whole session in the sample world, from a hypervisor that holds
    nothing: [start], an empty block, [stop].  Everything completes,
    and the table file is still there. *)
Lemma table_file_survives_teardown :
  snd (start world primary secondary (ret tt) fresh) = Ok tt /\
  ~ quad_absent primary
      (resources_after "hv1.example"
         (trace (fst (start world primary secondary (ret tt) fresh))) no_resources).
Proof.
  split; [vm_compute; reflexivity|].
  intros (_ & _ & _ & H). apply H. clear H.
  unfold table_file_present. eapply (bool_decide_unpack _). vm_compute. exact I.
Qed.

End DrbdTeardown.

(** ** igvm/drbd.py: construction and the block size *)

Module DrbdInit.

Import Eff Drbd Sample EffFacts PyFacts.

Lemma split_device_path vg lv :
  Py.has_char "/" vg = false -> Py.has_char "/" lv = false ->
  Py.split "/" ("/dev/" +:+ vg +:+ "/" +:+ lv) = [EmptyString; "dev"; vg; lv].
Proof.
  intros Hvg Hlv.
  change ("/dev/" +:+ vg +:+ "/" +:+ lv)
    with (EmptyString +:+ String "/" ("dev" +:+ String "/" (vg +:+ String "/" lv))).
  rewrite !split_app_sep by done. by rewrite split_no_sep.
Qed.

(** C8.  For a backing volume at [/dev/{vg}/{lv}], the constructor
    returns an object whose [vg_name] is [vg] for either role and whose
    [lv_name] is [lv] on the primary and the [uid_name] of the VM on
    the secondary. *)
Theorem init_names (env : Env) (o : nat) (hv : Hypervisor) (vm : VM) (role : bool)
    (s : state) (vg lv : string) :
  Py.has_char "/" vg = false -> Py.has_char "/" lv = false ->
  ask_str env (trace s) (VolumePath (hostname (hypervisor vm)) (fqdn vm))
    = Ok ("/dev/" +:+ vg +:+ "/" +:+ lv) ->
  exists s' d,
    init env o hv vm role s = (s', Ok d) /\
    vg_name d = vg /\
    lv_name d = (if role then lv else uid_name vm) /\
    master_role d = role /\ Drbd.hv d = hv /\ Drbd.vm d = vm.
Proof.
  intros Hvg Hlv Hask. unfold init, bind, call_str. rewrite Hask.
  rewrite (split_device_path vg lv Hvg Hlv). simpl.
  destruct role; simpl; eexists _, _; (split; [reflexivity|]); done.
Qed.

Lemma init_names_witness :
  exists s' d,
    init world 2 hv2 vm1 false fresh = (s', Ok d) /\
    vg_name d = "xen-data" /\
    lv_name d = (if false then "vm1.example" else uid_name vm1) /\
    master_role d = false /\ Drbd.hv d = hv2 /\ Drbd.vm d = vm1.
Proof.
  apply (init_names world 2 hv2 vm1 false fresh "xen-data" "vm1.example");
    vm_compute; reflexivity.
Defined.

Example init_builds_the_sample_ends :
  snd (init world 1 hv1 vm1 true fresh) = Ok primary /\
  snd (init world 2 hv2 vm1 false fresh) = Ok secondary.
Proof. split; vm_compute; reflexivity. Qed.

(** C7.  When the VM is not running, [sync_block_size] asks whether it
    runs and does nothing else.  When it runs and the guest and the two
    hypervisors answer, [sync_block_size] reads the three block sizes
    and sets the block size of the guest's [vda] to their minimum. *)
Theorem sync_block_size_sets_minimum (env : Env) (vm : VM) (target : Hypervisor)
    (s : state) :
  let src := hostname (hypervisor vm) in
  let dst := hostname target in
  (ask_bool env (trace s) (VmRunning src (fqdn vm)) = Ok false ->
   sync_block_size env vm target s
     = (log (Call (VmRunning src (fqdn vm)) (RBool false)) s, Ok tt)) /\
  (forall a b c p q,
     (forall t, ask_bool env t (VmRunning src (fqdn vm)) = Ok true) ->
     (forall t, ask_int env t (GuestBlockSize (fqdn vm) "/dev/vda") = Ok a) ->
     (forall t, ask_str env t (VolumePath src (fqdn vm)) = Ok p) ->
     (forall t, ask_int env t (BlockSize src p) = Ok b) ->
     (forall t, ask_str env t (VolumePath dst (fqdn vm)) = Ok q) ->
     (forall t, ask_int env t (BlockSize dst q) = Ok c) ->
     (forall t n, ask_unit env t (SetGuestBlockSize (fqdn vm) "vda" n) = Ok tt) ->
     exists s' m msg,
       sync_block_size env vm target s = (s', Ok tt) /\
       trace s' = trace s ++
         [ Call (VmRunning src (fqdn vm)) (RBool true);
           Call (GuestBlockSize (fqdn vm) "/dev/vda") (RInt a);
           Call (VolumePath src (fqdn vm)) (RStr p);
           Call (BlockSize src p) (RInt b);
           Call (VolumePath dst (fqdn vm)) (RStr q);
           Call (BlockSize dst q) (RInt c);
           Noted (LogDebug msg);
           Call (SetGuestBlockSize (fqdn vm) "vda" m) RUnit ] /\
       m <= a /\ m <= b /\ m <= c /\ (m = a \/ m = b \/ m = c)).
Proof.
  intros src dst. unfold src, dst. clear src dst. split.
  - intros H. unfold sync_block_size, bind, call_bool. by rewrite H.
  - intros a b c p q Hr Ha Hp Hb Hq Hc Hset.
    eexists _, (Z.min a (Z.min b c)), _.
    unfold sync_block_size, bind, call_bool, call_int, call_str, call_unit, note.
    rewrite Hr. cbn [log trace heap]. rewrite Ha. cbn [log trace heap].
    rewrite Hp. cbn [log trace heap]. rewrite Hb. cbn [log trace heap].
    rewrite Hq. cbn [log trace heap]. rewrite Hc. cbn [log trace heap].
    rewrite Hset. split; [reflexivity|]. cbn [log trace heap].
    split; [by rewrite <- !app_assoc|]. lia.
Qed.

Lemma sync_block_size_witness :
  exists s' m msg,
    sync_block_size world vm1 hv2 fresh = (s', Ok tt) /\
    trace s' = trace fresh ++
      [ Call (VmRunning "hv1.example" "vm1.example") (RBool true);
        Call (GuestBlockSize "vm1.example" "/dev/vda") (RInt 4096);
        Call (VolumePath "hv1.example" "vm1.example") (RStr "/dev/xen-data/vm1.example");
        Call (BlockSize "hv1.example" "/dev/xen-data/vm1.example") (RInt 512);
        Call (VolumePath "hv2.example" "vm1.example") (RStr "/dev/xen-data/vm1.example");
        Call (BlockSize "hv2.example" "/dev/xen-data/vm1.example") (RInt 4096);
        Noted (LogDebug msg);
        Call (SetGuestBlockSize "vm1.example" "vda" m) RUnit ] /\
    m <= 4096 /\ m <= 512 /\ m <= 4096 /\ (m = 4096 \/ m = 512 \/ m = 4096).
Proof.
  apply (proj2 (sync_block_size_sets_minimum world vm1 hv2 fresh)); reflexivity.
Defined.

Example sync_block_size_sample :
  last (actions (trace (fst (sync_block_size world vm1 hv2 fresh))))
    = Some (SetGuestBlockSize "vm1.example" "vda" 512).
Proof. vm_compute. reflexivity. Qed.

End DrbdInit.

(** ** igvm/commands.py *)

Module CommandsFacts.

Import Eff Commands CommandsSample.

Section NoOps.
Variable env : Env.
Variable parse_size : string -> string -> res Z.
Variables vm hv : string.
Hypothesis constructed : forall t, ask_str env t (Construct vm) = Ok hv.
Hypothesis defined : forall t, ask_bool env t (HvVmDefined vm) = Ok true.

Lemma mem_set_same_size size offline memory s :
  (forall t, ask_int env t (AttrGet vm "memory") = Ok memory) ->
  requested_memory parse_size memory size = Ok memory ->
  exists new,
    mem_set env parse_size vm size offline s
      = (State (trace s ++ new) (heap s), Raise (Warning "Memory size is the same.")) /\
    Forall (fun a => mutates a = false) (calls new).
Proof.
  intros Hmem Hreq.
  unfold mem_set, construct, _check_defined, bind, call_str, call_bool, call_int, ret.
  rewrite constructed. cbn [log trace heap]. rewrite defined. cbn [log trace heap].
  unfold requested_memory in Hreq.
  destruct (Py.startswith "+" size); [|destruct (Py.startswith "-" size)].
  - rewrite Hmem. cbn [log trace heap].
    destruct (parse_size _ _) as [d|]; [|done]. injection Hreq as Hreq.
    cbn [lift ret log trace heap]. rewrite Hmem. cbn [log trace heap].
    rewrite Hreq, Z.eqb_refl. unfold raise, log. cbn [trace heap].
    eexists. rewrite <- !app_assoc. split; [reflexivity|]. simpl. repeat constructor.
  - rewrite Hmem. cbn [log trace heap].
    destruct (parse_size _ _) as [d|]; [|done]. injection Hreq as Hreq.
    cbn [lift ret log trace heap]. rewrite Hmem. cbn [log trace heap].
    rewrite Hreq, Z.eqb_refl. unfold raise, log. cbn [trace heap].
    eexists. rewrite <- !app_assoc. split; [reflexivity|]. simpl. repeat constructor.
  - rewrite Hreq. cbn [lift ret log trace heap]. rewrite Hmem. cbn [log trace heap].
    rewrite Z.eqb_refl. unfold raise, log. cbn [trace heap].
    eexists. rewrite <- !app_assoc. split; [reflexivity|]. simpl. repeat constructor.
Qed.

Lemma disk_set_same_size size current s :
  (forall t, ask_int env t (AttrGet vm "disk_size_gib") = Ok current) ->
  Py.startswith "-" size = false ->
  requested_disk parse_size current size = Ok current ->
  exists new,
    disk_set env parse_size vm size s
      = (State (trace s ++ new) (heap s), Raise (Warning "Disk size is the same.")) /\
    Forall (fun a => mutates a = false) (calls new).
Proof.
  intros Hcur Hminus Hreq.
  unfold disk_set, construct, _check_defined, bind, call_str, call_bool, call_int, ret.
  rewrite constructed. cbn [log trace heap]. rewrite defined. cbn [log trace heap].
  rewrite Hcur. cbn [log trace heap].
  unfold requested_disk in Hreq.
  rewrite Hminus in *.
  destruct (Py.startswith "+" size) eqn:Hplus.
  - destruct (parse_size _ _) as [d|]; [|done]. injection Hreq as Hreq.
    cbn [lift ret log trace heap negb orb]. rewrite Hreq.
    rewrite Z.ltb_irrefl, Hcur. cbn [log trace heap]. rewrite Z.eqb_refl.
    unfold raise, log. cbn [trace heap].
    eexists. rewrite <- !app_assoc. split; [reflexivity|]. simpl. repeat constructor.
  - cbn [negb]. rewrite Hreq. cbn [lift ret log trace heap orb].
    rewrite Z.ltb_irrefl, Hcur. cbn [log trace heap]. rewrite Z.eqb_refl.
    unfold raise, log. cbn [trace heap].
    eexists. rewrite <- !app_assoc. split; [reflexivity|]. simpl. repeat constructor.
Qed.

Lemma vm_start_already_running s :
  (forall t, ask_bool env t (IsRunning vm) = Ok true) ->
  exists new,
    vm_start env vm s = (State (trace s ++ new) (heap s), Ok tt) /\
    Forall (fun a => mutates a = false) (calls new).
Proof.
  intros Hrun.
  unfold vm_start, construct, _check_defined, bind, call_str, call_bool, ret, note.
  rewrite constructed. cbn [log trace heap]. rewrite defined. cbn [log trace heap].
  rewrite Hrun. unfold log. cbn [trace heap].
  eexists. rewrite <- !app_assoc. split; [reflexivity|]. simpl. repeat constructor.
Qed.

End NoOps.

(** C9, as amended.  For a VM that is defined on its hypervisor:
    [mem_set] with a request that amounts to the memory the inventory
    holds raises [Warning]; so does [disk_set] with a request that does
    not start with a minus sign and amounts to the current
    [disk_size_gib]; and [vm_start] on a running VM returns.  None of
    the three makes a call that changes the guest, the hypervisor or
    the inventory. *)
Theorem benign_no_ops (env : Env) (parse_size : string -> string -> res Z)
    (vm hv : string) (s : state) :
  (forall t, ask_str env t (Construct vm) = Ok hv) ->
  (forall t, ask_bool env t (HvVmDefined vm) = Ok true) ->
  (forall size offline memory,
     (forall t, ask_int env t (AttrGet vm "memory") = Ok memory) ->
     requested_memory parse_size memory size = Ok memory ->
     exists new,
       mem_set env parse_size vm size offline s
         = (State (trace s ++ new) (heap s), Raise (Warning "Memory size is the same.")) /\
       Forall (fun a => mutates a = false) (calls new)) /\
  (forall size current,
     (forall t, ask_int env t (AttrGet vm "disk_size_gib") = Ok current) ->
     Py.startswith "-" size = false ->
     requested_disk parse_size current size = Ok current ->
     exists new,
       disk_set env parse_size vm size s
         = (State (trace s ++ new) (heap s), Raise (Warning "Disk size is the same.")) /\
       Forall (fun a => mutates a = false) (calls new)) /\
  ((forall t, ask_bool env t (IsRunning vm) = Ok true) ->
   exists new,
     vm_start env vm s = (State (trace s ++ new) (heap s), Ok tt) /\
     Forall (fun a => mutates a = false) (calls new)).
Proof.
  intros Hc Hd. split; [|split].
  - intros size offline memory. by apply mem_set_same_size with (hv := hv).
  - intros size current. by apply disk_set_same_size with (hv := hv).
  - by apply vm_start_already_running with (hv := hv).
Qed.

Lemma benign_no_ops_witness :
  (exists new,
     mem_set world plain_size "vm1.example" "+0" false fresh
       = (State (trace fresh ++ new) (heap fresh),
          Raise (Warning "Memory size is the same.")) /\
     Forall (fun a => mutates a = false) (calls new)) /\
  (exists new,
     disk_set world plain_size "vm1.example" "6" fresh
       = (State (trace fresh ++ new) (heap fresh),
          Raise (Warning "Disk size is the same.")) /\
     Forall (fun a => mutates a = false) (calls new)) /\
  (exists new,
     vm_start world "vm1.example" fresh = (State (trace fresh ++ new) (heap fresh), Ok tt) /\
     Forall (fun a => mutates a = false) (calls new)).
Proof.
  destruct (benign_no_ops world plain_size "vm1.example" "hv1.example" fresh
              (fun _ => eq_refl) (fun _ => eq_refl)) as (Hm & Hd & Hs).
  split; [|split].
  - apply (Hm "+0" false 2048); [intros t|]; reflexivity.
  - apply (Hd "6" 6); [intros t| |]; reflexivity.
  - apply Hs. intros t. reflexivity.
Defined.

(** A request of [-0] amounts to the current size of the disk, and
    [disk_set] raises [NotImplementedError], not [Warning]. *)
Lemma disk_set_minus_zero_is_refused :
  requested_disk plain_size 6 "-0" = Ok 6 /\
  ask_int world [] (AttrGet "vm1.example" "disk_size_gib") = Ok 6 /\
  snd (disk_set world plain_size "vm1.example" "-0" fresh)
    = Raise (NotImplementedError "Cannot shrink the disk.") /\
  snd (disk_set world plain_size "vm1.example" "-0" fresh)
    <> Raise (Warning "Disk size is the same.").
Proof.
  split; [vm_compute; reflexivity|]. split; [vm_compute; reflexivity|].
  split; [vm_compute; reflexivity|]. vm_compute. discriminate.
Qed.

End CommandsFacts.

(** ** igvm/balance/models.py *)

Module BalanceFacts.

Import Eff Balance BalanceSample.

Local Open Scope float_scope.

(** The attributes of a host are there after at most one [sc.get]. *)
Lemma serveradmin_data_ok sc_get self (s : state) data :
  heap s !! oid self = Some data \/
  (heap s !! oid self = None /\ sc_get (hostname self) = Ok data) ->
  exists s' new,
    serveradmin_data sc_get self s = (s', Ok data) /\
    trace s' = trace s ++ new /\
    Forall (fun a => contacts_hypervisor a = false) (calls new).
Proof.
  unfold serveradmin_data, bind, get_heap. intros [H|[H G]]; rewrite H.
  - eexists s, []. rewrite app_nil_r. repeat split. constructor.
  - unfold note, bind. rewrite G. eexists _, [_]. repeat split. repeat constructor.
Qed.

(** C10.  With [fast] set, and the attributes of the hypervisor in
    reach (cached on the object, or returned by [sc.get]),
    [get_disk_free] returns its [disk_size_gib], minus the sum of
    [disk_size_gib] over the records that [sc.query] yields for the
    VMs whose [xen_host] is its hostname, minus 26, times 1024, in
    double-precision arithmetic; and it makes no call that reaches the
    hypervisor itself. *)
Theorem get_disk_free_fast (env : Env) (sc_get : string -> res record)
    (sc_query : string -> string -> list record) (self : Host) (s : state)
    (data : record) :
  heap s !! oid self = Some data \/
  (heap s !! oid self = None /\ sc_get (hostname self) = Ok data) ->
  exists s' new,
    get_disk_free env sc_get sc_query self true s
      = (s', Ok ((float_of_int (r_disk_size_gib data)
                  - float_of_int (sum (map r_disk_size_gib (sc_query "vm" (hostname self))))
                  - 26) * 1024)) /\
    trace s' = trace s ++ new /\
    Forall (fun a => contacts_hypervisor a = false) (calls new).
Proof.
  intros H. destruct (serveradmin_data_ok sc_get self s data H) as (s1 & n1 & E & T & F).
  unfold get_disk_free, bind. rewrite E. unfold note, ret, log.
  eexists _, (n1 ++ [_]). split; [reflexivity|]. cbn [trace]. rewrite T.
  split; [by rewrite app_assoc|]. unfold calls in *. rewrite omap_app.
  apply Forall_app. split; [done|]. repeat constructor.
Qed.

(** In the sample inventory: 1000 - (6 + 50) - 26 GiB, in MiB, with
    the hypervisor out of reach. *)
Lemma get_disk_free_fast_witness :
  exists s' new,
    get_disk_free unreachable (inventory_get inventory) (inventory_query inventory)
      hypervisor1 true fresh
      = (s', Ok ((float_of_int 1000 - float_of_int (6 + 50) - 26) * 1024)) /\
    trace s' = trace fresh ++ new /\
    Forall (fun a => contacts_hypervisor a = false) (calls new).
Proof.
  apply (get_disk_free_fast unreachable (inventory_get inventory)
           (inventory_query inventory) hypervisor1 fresh
           {| r_hostname := "hv1.example"; r_servertype := "hypervisor";
              r_xen_host := EmptyString; r_memory := 65536; r_num_cpu := 32;
              r_disk_size_gib := 1000 |}).
  right. split; reflexivity.
Defined.

Example get_disk_free_fast_sample :
  snd (get_disk_free unreachable (inventory_get inventory) (inventory_query inventory)
         hypervisor1 true fresh) = Ok 940032 /\
  calls (trace (fst (get_disk_free unreachable (inventory_get inventory)
                       (inventory_query inventory) hypervisor1 true fresh)))
    = [ScGet "hv1.example"; ScQuery "vm" "hv1.example"] /\
  snd (get_disk_free unreachable (inventory_get inventory) (inventory_query inventory)
         hypervisor1 false fresh) = Raise (Exn "HypervisorError" "unreachable").
Proof. repeat split; vm_compute; reflexivity. Qed.

End BalanceFacts.

(** ** igvm/drbd.py: waiting for the sync *)

Module DrbdSync.

Import Eff Drbd Sample EffFacts DrbdFacts DrbdForward.

Lemma status_line_first (m : Z) (lines : list string) line rest :
  status_line m lines = Some (line, rest) ->
  exists before, lines = before ++ line :: rest /\
    Py.contains (status_marker m) line = true /\
    Forall (fun l => Py.contains (status_marker m) l = false) before.
Proof.
  induction lines as [|l lines IH]; simpl; [done|].
  destruct (Py.contains (status_marker m) l) eqn:C.
  - intros [= <- <-]. exists []. repeat split; [done|constructor].
  - intros (before & -> & ? & ?)%IH. exists (l :: before). repeat split; [done|].
    by constructor.
Qed.

Section Sync.
Variable env : Env.
Variable self : DRBD.
Variable m : Z.

Local Abbreviation h := (hostname (hv self)).
Local Abbreviation read := (ReadFile h "/proc/drbd").

Lemma find_status_cached lines s :
  heap s !! oid self = Some m ->
  find_status env self lines s = (s, Ok (status_line m lines)).
Proof.
  intros L. induction lines as [|line rest IH]; [done|].
  cbn [find_status status_line]. unfold bind.
  rewrite (get_device_minor_cached env self s m L). unfold status_marker.
  destruct (Py.contains _ line); [done|]. apply IH.
Qed.

(** One turn of the loop. *)
Lemma poll_step found c s :
  heap s !! oid self = Some m ->
  ask_str env (trace s) read = Ok c ->
  poll env self found s =
    (State (trace s ++ Call read (RStr c)
              :: map Noted (fst (poll_outcome m found (Py.splitlines c)))
              ++ [Noted (Sleep 1)]) (heap s),
     Ok (snd (poll_outcome m found (Py.splitlines c)))).
Proof.
  intros L A. unfold poll, bind at 1, call_str. rewrite A.
  unfold bind at 1. rewrite find_status_cached by done.
  unfold poll_outcome. destruct (status_line m _) as [[line rest]|].
  - unfold progress_bar. destruct rest as [|skip [|bar rest]]; cbn [fst snd map].
    + destruct (found + 1 <? 5); unfold bind, note, ret, log; cbn [trace heap fst snd map];
        by rewrite <- !app_assoc.
    + destruct (found + 1 <? 5); unfold bind, note, ret, log; cbn [trace heap fst snd map];
        by rewrite <- !app_assoc.
    + unfold bind, note, ret, log; cbn [trace heap fst snd map]; by rewrite <- !app_assoc.
  - unfold bind, note, ret, log; cbn [trace heap fst snd map]; by rewrite <- !app_assoc.
Qed.

Lemma poll_ok found s s' r :
  heap s !! oid self = Some m ->
  poll env self found s = (s', Ok r) ->
  heap s' = heap s /\ exists new, trace s' = trace s ++ new.
Proof.
  intros L E. pose proof E as E'.
  unfold poll in E'. apply bind_ok in E' as (s1 & c & [_ A]%call_str_ok & _).
  rewrite (poll_step found c s L A) in E. injection E as <- _. eauto.
Qed.

Lemma progress_loop_ok fuel found s s' b :
  heap s !! oid self = Some m ->
  progress_loop env fuel self found s = (s', Ok b) ->
  heap s' = heap s /\ exists new, trace s' = trace s ++ new.
Proof.
  revert found s. induction fuel as [|fuel IH]; intros found s L.
  - intros [= <- _]. split; [done|]. exists []. by rewrite app_nil_r.
  - cbn [progress_loop]. intros (s1 & r & E1 & E2)%bind_ok.
    destruct (poll_ok _ _ _ _ L E1) as (H1 & n1 & T1).
    destruct (snd r).
    + apply IH in E2 as (H2 & n2 & T2); [|by rewrite H1].
      split; [congruence|]. exists (n1 ++ n2). by rewrite T2, T1, app_assoc.
    + injection E2 as <- _. eauto.
Qed.

(** Leaving the loop, [wait_for_sync] ends on [drbdsetup wait-sync]. *)
Lemma wait_for_sync_ends_on_wait_sync fuel s s' :
  heap s !! oid self = Some m ->
  wait_for_sync env fuel self s = (s', Ok true) ->
  exists before out,
    trace s' = trace s ++ before ++ [Call (Run h (DrbdWaitSync m) false false) (RStr out)].
Proof.
  intros L. unfold wait_for_sync. intros (s1 & left & E1 & E2)%bind_ok.
  destruct (progress_loop_ok _ _ _ _ _ L E1) as (H1 & n1 & T1).
  destruct left; [|done].
  apply bind_ok in E2 as (s2 & m' & E2 & E3).
  rewrite (get_device_minor_cached env self s1 m) in E2 by (by rewrite H1).
  injection E2 as <- <-. unfold hv_run in E3.
  apply bind_ok in E3 as (s3 & out & [-> _]%call_str_ok & [= <-]).
  exists n1, out. cbn [log trace]. by rewrite T1, <- app_assoc.
Qed.

(** A status file that stays the same: the loop is left after one turn
    when the status line shows both disks up to date, and after the
    fifth turn when it does not and no line stands two below it. *)
Lemma progress_loop_constant c line rest s :
  heap s !! oid self = Some m ->
  (forall t, ask_str env t read = Ok c) ->
  status_line m (Py.splitlines c) = Some (line, rest) ->
  (up_to_date line = true ->
   forall fuel found, exists s',
     progress_loop env (S fuel) self found s = (s', Ok true) /\
     heap s' = heap s /\ exists new, trace s' = trace s ++ new /\ polls (actions new) = 1%nat) /\
  (up_to_date line = false -> progress_bar rest = None ->
   forall n fuel found, found + Z.of_nat n = 4 -> exists s',
     progress_loop env (S n + fuel) self found s = (s', Ok true) /\
     heap s' = heap s /\ exists new, trace s' = trace s ++ new /\ polls (actions new) = S n).
Proof.
  intros L A St. split.
  - intros U fuel found. cbn [progress_loop]. unfold bind.
    rewrite (poll_step found c s L (A _)). unfold poll_outcome. rewrite St, U.
    destruct (progress_bar rest); [|destruct (found + 1 <? 5)];
      cbn [fst snd negb]; (eexists; split; [reflexivity|]);
      (split; [done|]); eexists; (split; [reflexivity|]); reflexivity.
  - intros U B n. revert s L. induction n as [|n IH]; intros s L fuel found Hf.
    + cbn [progress_loop Nat.add]. unfold bind.
      rewrite (poll_step found c s L (A _)). unfold poll_outcome. rewrite St, U, B.
      replace (found + 1 <? 5) with false by lia. cbn [fst snd].
      eexists; split; [reflexivity|]. split; [done|]. eexists; split; [reflexivity|].
      reflexivity.
    + cbn [progress_loop Nat.add]. unfold bind.
      rewrite (poll_step found c s L (A _)). unfold poll_outcome. rewrite St, U, B.
      replace (found + 1 <? 5) with true by lia. cbn [fst snd negb].
      edestruct (IH (State (trace s ++ Call read (RStr c)
                              :: map Noted [LogInfo waiting_msg] ++ [Noted (Sleep 1)])
                       (heap s)) L fuel (found + 1)) as (s' & E & H' & new & T & P);
        [lia|].
      exists s'. split; [exact E|]. split; [done|].
      eexists. split; [rewrite T; cbn [trace]; rewrite <- app_assoc; reflexivity|].
      unfold polls, actions in *. rewrite omap_app, List.filter_app, length_app, P. reflexivity.
Qed.

(** With a status file that stays the same, [wait_for_sync] returns. *)
Lemma wait_for_sync_constant c line rest out s :
  heap s !! oid self = Some m ->
  (forall t, ask_str env t read = Ok c) ->
  (forall t, ask_str env t (Run h (DrbdWaitSync m) false false) = Ok out) ->
  status_line m (Py.splitlines c) = Some (line, rest) ->
  (up_to_date line = true ->
   forall fuel, exists s' new,
     wait_for_sync env (S fuel) self s = (s', Ok true) /\
     trace s' = trace s ++ new /\ polls (actions new) = 1%nat) /\
  (up_to_date line = false -> progress_bar rest = None ->
   forall fuel, exists s' new,
     wait_for_sync env (5 + fuel) self s = (s', Ok true) /\
     trace s' = trace s ++ new /\ polls (actions new) = 5%nat).
Proof.
  intros L A W St.
  destruct (progress_loop_constant c line rest s L A St) as [H1 H2].
  assert (forall fuel s1 new n,
            progress_loop env fuel self 0 s = (s1, Ok true) -> heap s1 = heap s ->
            trace s1 = trace s ++ new -> polls (actions new) = n ->
            exists s' new', wait_for_sync env fuel self s = (s', Ok true) /\
              trace s' = trace s ++ new' /\ polls (actions new') = n) as Hend.
  { intros fuel s1 new n E Hh T P. unfold wait_for_sync, bind at 1. rewrite E.
    unfold bind at 1. rewrite (get_device_minor_cached env self s1 m) by (by rewrite Hh).
    unfold hv_run, bind, call_str. rewrite W. eexists _, (new ++ [_]).
    split; [reflexivity|]. cbn [log trace]. rewrite T.
    split; [by rewrite app_assoc|].
    unfold polls, actions in *. rewrite omap_app, List.filter_app, length_app, P.
    cbn. lia. }
  split.
  - intros U fuel. destruct (H1 U fuel 0) as (s1 & E & Hh & new & T & P). by eapply Hend.
  - intros U B fuel. destruct (H2 U B 4%nat fuel 0) as (s1 & E & Hh & new & T & P); [lia|].
    by eapply Hend.
Qed.

End Sync.

(** C6, as amended.  With the minor [m] of the device cached, one turn
    of the loop reads [/proc/drbd], looks for the first line that
    contains [{m}: cs:], and sleeps one second.  When there is no such
    line the loop is left.  When a line stands two below the status
    line, that line is logged, and the loop is left if the status line
    contains [ds:UpToDate/UpToDate].  When no line stands two below it,
    the turn is counted; up to the fourth such turn a notice is logged
    and the loop is left only if the status line shows both disks up to
    date, at the fifth a warning is logged and the loop is left.  A
    [wait_for_sync] that leaves the loop ends on [drbdsetup wait-sync
    {m}].  With a status file that stays the same it does return: after
    one turn when the status line shows both disks up to date, after
    five turns when it does not and no line stands two below it. *)
Theorem wait_for_sync_progress (env : Env) (self : DRBD) (m : Z) (s : state) :
  let h := hostname (hv self) in
  let read := ReadFile h "/proc/drbd" in
  heap s !! oid self = Some m ->
  (forall found c,
     ask_str env (trace s) read = Ok c ->
     exists logs found' show',
       poll env self found s =
         (State (trace s ++ Call read (RStr c) :: map Noted logs ++ [Noted (Sleep 1)])
            (heap s), Ok (found', show')) /\
       match status_line m (Py.splitlines c) with
       | None => logs = [] /\ found' = found /\ show' = false
       | Some (line, rest) =>
           match progress_bar rest with
           | Some bar =>
               logs = [LogInfo bar] /\ found' = found /\ show' = negb (up_to_date line)
           | None =>
               found' = found + 1 /\
               if found' <? 5
               then logs = [LogInfo waiting_msg] /\ show' = negb (up_to_date line)
               else logs = [LogWarning no_bar_msg] /\ show' = false
           end
       end) /\
  (forall lines line rest,
     status_line m lines = Some (line, rest) ->
     exists before, lines = before ++ line :: rest /\
       Py.contains (Py.str m +:+ ": cs:") line = true /\
       Forall (fun l => Py.contains (Py.str m +:+ ": cs:") l = false) before) /\
  (forall fuel s',
     wait_for_sync env fuel self s = (s', Ok true) ->
     exists before out,
       trace s' = trace s ++ before
                  ++ [Call (Run h (DrbdWaitSync m) false false) (RStr out)]) /\
  (forall c line rest out,
     (forall t, ask_str env t read = Ok c) ->
     (forall t, ask_str env t (Run h (DrbdWaitSync m) false false) = Ok out) ->
     status_line m (Py.splitlines c) = Some (line, rest) ->
     (up_to_date line = true ->
      forall fuel, exists s' new,
        wait_for_sync env (S fuel) self s = (s', Ok true) /\
        trace s' = trace s ++ new /\ polls (actions new) = 1%nat) /\
     (up_to_date line = false -> progress_bar rest = None ->
      forall fuel, exists s' new,
        wait_for_sync env (5 + fuel) self s = (s', Ok true) /\
        trace s' = trace s ++ new /\ polls (actions new) = 5%nat)).
Proof.
  intros h read L. split; [|split; [|split]].
  - intros found c A. rewrite (poll_step env self m found c s L A).
    unfold poll_outcome. destruct (status_line m _) as [[line rest]|].
    + destruct (progress_bar rest) as [bar|].
      * eexists _, _, _. split; [reflexivity|]. done.
      * destruct (found + 1 <? 5) eqn:F; eexists _, _, _; (split; [reflexivity|]);
          rewrite F; done.
    + eexists _, _, _. split; [reflexivity|]. done.
  - apply status_line_first.
  - intros fuel s'. by apply wait_for_sync_ends_on_wait_sync.
  - intros c line rest out A W St. by apply (wait_for_sync_constant env self m c line rest out).
Qed.

(** Once the disks are in sync, [wait_for_sync] returns after one read
    of the status file. *)
Lemma wait_for_sync_witness :
  exists s' new,
    wait_for_sync (answering proc_drbd_synced) 1 primary started = (s', Ok true) /\
    trace s' = trace started ++ new /\ polls (actions new) = 1%nat.
Proof.
  destruct (wait_for_sync_progress (answering proc_drbd_synced) primary 3 started eq_refl)
    as (_ & _ & _ & H).
  eapply (proj1 (H proc_drbd_synced _ _ EmptyString (fun _ => eq_refl) (fun _ => eq_refl)
                   ltac:(vm_compute; reflexivity))).
  vm_compute. reflexivity.
Defined.

(** In a status file as the kernel prints it no line begins with the
    marker: the line of minor 3 begins with a blank.  The source finds
    it all the same, logs the progress bar two lines below it and stays
    in the loop. *)
Lemma status_line_does_not_begin_with_marker :
  line_beginning_with 3 (Py.splitlines proc_drbd_syncing) = None /\
  snd (poll (answering proc_drbd_syncing) primary 0 started) = Ok (0, true) /\
  actions (trace (fst (poll (answering proc_drbd_syncing) primary 0 started))) =
    [ ReadFile "hv1.example" "/proc/drbd";
      LogInfo (String "009"%char "[>...................] sync'ed:  6.3% (19200/20476)M");
      Sleep 1 ].
Proof. repeat split; vm_compute; reflexivity. Qed.

End DrbdSync.

(** ** The effect monad: what a run that raised went through *)

Module EffRaise.

Import Eff.

Section Inversion.
Context {action H : Type}.
Variable env : Env action.

Lemma bind_raise {A B} (m : M action H A) (k : A -> M action H B) (s s' : state action H) e :
  (x <- m ;; k x) s = (s', Raise e) ->
  m s = (s', Raise e) \/ exists s1 a, m s = (s1, Ok a) /\ k a s1 = (s', Raise e).
Proof.
  unfold bind. destruct (m s) as [s1 [a|e1]]; [right; eauto|].
  intros [= <- <-]. by left.
Qed.

Lemma try_except_raise {A} (b : M action H A) (h : M action H unit) (s s' : state action H) e :
  try_except b h s = (s', Raise e) ->
  exists s1 e1, b s = (s1, Raise e1) /\
    ((h s1 = (s', Ok tt) /\ e = e1) \/ h s1 = (s', Raise e)).
Proof.
  unfold try_except. destruct (b s) as [s1 [a|e1]]; [done|].
  destruct (h s1) as [s2 [[]|e2]] eqn:Eh; intros [= <- <-]; eauto 6.
Qed.

Lemma call_str_raise a (s s' : state action H) e :
  call_str env a s = (s', Raise e) -> s' = log (Call a (RRaise e)) s.
Proof. unfold call_str. destruct (ask_str env _ _); by intros [= <- <-]. Qed.

Lemma call_unit_raise a (s s' : state action H) e :
  call_unit env a s = (s', Raise e) -> s' = log (Call a (RRaise e)) s.
Proof. unfold call_unit. destruct (ask_unit env _ _); by intros [= <- <-]. Qed.

(** A handler of one call makes that call, whatever comes of it. *)
Lemma handler_one x (s s' : state action H) (r : res unit) :
  (call_str env x ;; ret tt) s = (s', r) -> exists rep, s' = log (Call x rep) s.
Proof.
  unfold bind, call_str, ret. destruct (ask_str env _ _); intros [= <- <-]; eauto.
Qed.

Lemma call_bool_raise a (s s' : state action H) e :
  call_bool env a s = (s', Raise e) -> s' = log (Call a (RRaise e)) s.
Proof. unfold call_bool. destruct (ask_bool env _ _); by intros [= <- <-]. Qed.

Lemma call_int_raise a (s s' : state action H) e :
  call_int env a s = (s', Raise e) -> s' = log (Call a (RRaise e)) s.
Proof. unfold call_int. destruct (ask_int env _ _); by intros [= <- <-]. Qed.

End Inversion.

End EffRaise.

(** ** igvm/drbd.py: failures that follow failures *)

Module DrbdTracesFacts.

Import Eff Drbd DrbdTraces EffFacts EffRaise DrbdFacts.

Lemma completes_app p (l l' : list event) :
  completes p (l ++ l') = completes p l || completes p l'.
Proof. apply existsb_app. Qed.

Lemma last_failure_app (l l' : list event) :
  last_failure (l ++ l') =
    match last_failure l' with Some e => Some e | None => last_failure l end.
Proof.
  unfold last_failure. rewrite omap_app.
  destruct (omap exn_of l') as [|x t] using rev_ind; [by rewrite app_nil_r|].
  by rewrite app_assoc, !last_snoc.
Qed.

Lemma clean_last_failure (l : list event) : clean l = true -> last_failure l = None.
Proof.
  unfold last_failure. induction l as [|ev l IH]; [done|].
  cbn [clean forallb]. intros [Hev Hl]%andb_prop. apply negb_true_iff in Hev.
  assert (exn_of ev = None) as E by (by destruct ev as [? []| |]).
  cbn [omap list_omap]. rewrite E. by apply IH.
Qed.

Section Rules.
Variable env : Env.

Lemma faithful_ret {A} (a : A) : faithful (ret a : M A).
Proof. intros s s' r [= <- <-]. exists []. by rewrite app_nil_r. Qed.

Lemma faithful_raise {A} e : faithful (raise e : M A).
Proof. intros s s' r [= <- <-]. by exists [Raised e]. Qed.

Lemma faithful_get_heap : faithful (get_heap : M heap_t).
Proof. intros s s' r [= <- <-]. exists []. by rewrite app_nil_r. Qed.

Lemma faithful_set_heap h : faithful (set_heap h : M unit).
Proof. intros s s' r [= <- <-]. exists []. by rewrite app_nil_r. Qed.

Lemma faithful_note a : faithful (note a : M unit).
Proof. intros s s' r [= <- <-]. by exists [Noted a]. Qed.

Lemma faithful_call_str a : faithful (call_str env a).
Proof.
  intros s s' r. unfold call_str.
  destruct (ask_str env _ _); intros [= <- <-]; by eexists [_].
Qed.

Lemma faithful_call_unit a : faithful (call_unit env a).
Proof.
  intros s s' r. unfold call_unit.
  destruct (ask_unit env _ _); intros [= <- <-]; by eexists [_].
Qed.

Lemma faithful_call_bool a : faithful (call_bool env a).
Proof.
  intros s s' r. unfold call_bool.
  destruct (ask_bool env _ _); intros [= <- <-]; by eexists [_].
Qed.

Lemma faithful_call_int a : faithful (call_int env a).
Proof.
  intros s s' r. unfold call_int.
  destruct (ask_int env _ _); intros [= <- <-]; by eexists [_].
Qed.

Lemma faithful_bind {A B} (m : M A) (k : A -> M B) :
  faithful m -> (forall a, faithful (k a)) -> faithful (x <- m ;; k x).
Proof.
  intros Hm Hk s s' r. unfold bind. destruct (m s) as [s1 [a|e]] eqn:Em.
  - intros Ek. destruct (Hm _ _ _ Em) as (n1 & T1 & C1).
    destruct (Hk a _ _ _ Ek) as (n2 & T2 & C2).
    exists (n1 ++ n2). split; [by rewrite T2, T1, app_assoc|].
    destruct r; [by rewrite clean_app, C1, C2|by rewrite last_failure_app, C2].
  - intros [= <- <-]. apply (Hm _ _ _ Em).
Qed.

Lemma faithful_try_except {A} (b : M A) (h : M unit) :
  faithful b -> faithful h -> faithful (try_except b h).
Proof.
  intros Hb Hh s s' r. unfold try_except. destruct (b s) as [s1 [a|e]] eqn:Eb.
  - intros [= <- <-]. apply (Hb _ _ _ Eb).
  - destruct (Hb _ _ _ Eb) as (n1 & T1 & C1).
    destruct (h s1) as [s2 [[]|e2]] eqn:Eh; destruct (Hh _ _ _ Eh) as (n2 & T2 & C2);
      intros [= <- <-]; exists (n1 ++ n2); (split; [by rewrite T2, T1, app_assoc|]);
      rewrite last_failure_app.
    + by rewrite (clean_last_failure _ C2).
    + by rewrite C2.
Qed.

Lemma faithful_try_finally {A} (b : M A) (f : M unit) :
  faithful b -> faithful f -> faithful (try_finally b f).
Proof.
  intros Hb Hf s s' r. unfold try_finally. destruct (b s) as [s1 r1] eqn:Eb.
  destruct (Hb _ _ _ Eb) as (n1 & T1 & C1).
  destruct (f s1) as [s2 [[]|e2]] eqn:Ef; destruct (Hf _ _ _ Ef) as (n2 & T2 & C2);
    intros [= <- <-]; exists (n1 ++ n2); (split; [by rewrite T2, T1, app_assoc|]).
  - destruct r1; [by rewrite clean_app, C1, C2|].
    by rewrite last_failure_app, (clean_last_failure _ C2).
  - by rewrite last_failure_app, C2.
Qed.

End Rules.

Ltac faithful_step env :=
  first
    [ apply faithful_ret | apply faithful_raise | apply faithful_get_heap
    | apply faithful_set_heap | apply faithful_note
    | apply (faithful_call_str env) | apply (faithful_call_unit env)
    | apply (faithful_call_bool env) | apply (faithful_call_int env)
    | apply faithful_bind; [|intros ?]
    | apply faithful_try_except | apply faithful_try_finally
    | match goal with
      | |- faithful (match ?x with _ => _ end) => destruct x
      | |- faithful (if ?x then _ else _) => destruct x
      end ].
Ltac faithful_all env := repeat faithful_step env.

Section Transport.
Variable env : Env.

Lemma faithful_get_device_minor self : faithful (get_device_minor env self).
Proof. unfold get_device_minor. faithful_all env. Qed.

Lemma faithful_get_host_config self : faithful (get_host_config env self).
Proof.
  unfold get_host_config, get_device_port.
  faithful_all env; apply faithful_get_device_minor.
Qed.

Lemma faithful_take_over_device self : faithful (take_over_device env self).
Proof.
  unfold take_over_device, get_device_size, hv_run.
  faithful_all env; apply faithful_get_device_minor.
Qed.

Lemma faithful_start_enter self peer : faithful (start_enter env self peer).
Proof.
  unfold start_enter, prepare_metadata_device, prepare_lv_override, build_config, hv_run.
  faithful_all env;
    first [apply faithful_get_host_config | apply faithful_take_over_device].
Qed.

Lemma faithful_stop self : faithful (stop env self).
Proof. unfold stop, secondary_vm_running, hv_run. faithful_all env. Qed.

Lemma faithful_start self peer {A} (block : M A) :
  faithful block -> faithful (start env self peer block).
Proof.
  intros Hb. unfold start. apply faithful_bind; [apply faithful_start_enter|].
  intros _. apply faithful_try_finally; [done|apply faithful_stop].
Qed.

Lemma faithful_find_status self lines : faithful (find_status env self lines).
Proof.
  induction lines as [|line rest IH]; cbn [find_status]; [apply faithful_ret|].
  apply faithful_bind; [apply faithful_get_device_minor|]. intros m.
  destruct (Py.contains _ _); [apply faithful_ret|done].
Qed.

Lemma faithful_poll self found : faithful (poll env self found).
Proof.
  unfold poll. apply faithful_bind; [apply faithful_call_str|]. intros c.
  apply faithful_bind; [apply faithful_find_status|]. intros f.
  faithful_all env.
Qed.

Lemma faithful_progress_loop fuel self found : faithful (progress_loop env fuel self found).
Proof.
  revert found. induction fuel as [|fuel IH]; intros found; cbn [progress_loop].
  - apply faithful_ret.
  - apply faithful_bind; [apply faithful_poll|]. intros [f b]. destruct b; cbn [snd fst].
    + apply IH.
    + apply faithful_ret.
Qed.

Lemma faithful_wait_for_sync fuel self : faithful (wait_for_sync env fuel self).
Proof.
  unfold wait_for_sync. apply faithful_bind; [apply faithful_progress_loop|].
  intros b. destruct b; [|apply faithful_ret].
  apply faithful_bind; [apply faithful_get_device_minor|]. intros m.
  unfold hv_run. faithful_all env.
Qed.

End Transport.

End DrbdTracesFacts.

(** ** igvm/drbd.py: every release is attempted *)

Module DrbdReleases.

Import Eff Drbd Sample DrbdTraces EffFacts EffRaise DrbdFacts DrbdTracesFacts.

(** Every run of [take_over_device]: a device that was suspended gets
    its resume, a run that returns made no failed call and suspended
    the device, and none of the calls acquires a thing that [start]
    releases. *)
Lemma take_over_device_run env self (s s' : state) r :
  take_over_device env self s = (s', r) ->
  exists new, trace s' = trace s ++ new /\
    (completes is_suspend new = true -> resume_attempted self new) /\
    (forall v, r = Ok v -> clean new = true /\ completes is_suspend new = true) /\
    completes acquires new = false.
Proof.
  unfold take_over_device, get_device_size, get_device_minor, hv_run, bind, try_except,
    call_str, ret, raise, get_heap, set_heap.
  destruct (ask_str env (trace s) _) as [out|e0]; cbn [log trace heap].
  2:{ intros [= <- <-]. eexists [_]. split; [reflexivity|]. by cbn. }
  destruct (Py.int 10 (Py.strip out)) as [n|]; cbn [log trace heap].
  2:{ intros [= <- <-]. unfold log. cbn [trace heap]. rewrite <- app_assoc.
      eexists [_; _]. split; [reflexivity|]. by cbn. }
  destruct (master_role self);
  repeat match goal with
  | |- context [ask_str env ?t ?a] => destruct (ask_str env t a); cbn [log trace heap]
  | |- context [heap ?s !! ?k] => destruct (heap s !! k); cbn [log trace heap]
  | |- context [Py.int 16 ?o] => destruct (Py.int 16 o); cbn [log trace heap]
  end;
  intros [= <- <-]; unfold log; cbn [trace heap]; rewrite <- ?app_assoc; cbn [app];
  (eexists; split; [reflexivity|]);
  (split; [cbn; try discriminate; intros _; unfold resume_attempted; cbn; eauto|]);
  (split; [try done; intros v [=]|by cbn]).
Qed.

Section Releases.
Variable env : Env.
Variables self peer : DRBD.

(** Calls that leave no inverse due acquire nothing. *)
Lemma quiet_acquires_nothing (l : list event) :
  quiet self peer l -> completes acquires l = false.
Proof.
  intros (_ & _ & I). unfold completes. induction l as [|ev l IH]; [done|].
  cbn [existsb]. destruct ev as [a rep|a|e]; cbn [actions omap list_omap action_of] in I.
  - apply Forall_cons in I as [Ia I]. rewrite (IH I), orb_false_r.
    destruct a as [? [] ? ?| | | | | | | | | | | | | |]; try done.
  - apply Forall_cons in I as [_ I]. by rewrite (IH I).
  - by rewrite (IH I).
Qed.

Lemma completes_weaken (p q : action -> bool) (l : list event) :
  (forall a, p a = true -> q a = true) ->
  completes q l = false -> completes p l = false.
Proof.
  intros Hpq. unfold completes. induction l as [|ev l IH]; [done|].
  cbn [existsb]. intros [H1 H2]%orb_false_elim. rewrite (IH H2), orb_false_r.
  destruct ev as [a rep| |]; try done.
  destruct (p a) eqn:P; [|done]. by rewrite (Hpq a P) in H1.
Qed.

Lemma acquires_nothing (l : list event) :
  completes acquires l = false ->
  completes is_lvcreate l = false /\ completes is_shim_create l = false /\
  completes is_upload l = false.
Proof.
  intros H. repeat split; (eapply completes_weaken; [|exact H]); intros a Ha;
    unfold acquires; rewrite Ha; by rewrite ?orb_true_r.
Qed.

Lemma passive_acquires_nothing {A} (m : M A) (s s' : state) r :
  passive self peer m -> m s = (s', r) ->
  exists new, trace s' = trace s ++ new /\ completes acquires new = false.
Proof.
  intros Hm E. destruct (Hm _ _ _ E) as (new & T & Q). exists new. split; [done|].
  destruct r as [v|e]; [by apply quiet_acquires_nothing|].
  destruct Q as (bf & bad & -> & Qb & Fb & _).
  rewrite completes_app, (quiet_acquires_nothing _ Qb). cbn.
  destruct bad as [? []| |]; try done. by rewrite andb_false_r.
Qed.

Lemma ends_with_wrap (l : list action) (pre mid : list event) x rep :
  ends_with l mid -> ends_with (l ++ [x]) (pre ++ mid ++ [Call x rep]).
Proof.
  intros (p & rs & Hl & ->). exists (pre ++ p), (rs ++ [rep]). split.
  - rewrite !length_app. simpl. lia.
  - rewrite zip_with_app by done. simpl. by rewrite <- !app_assoc.
Qed.

Lemma ends_with_one (pre : list event) x rep : ends_with [x] (pre ++ [Call x rep]).
Proof. by exists pre, [rep]. Qed.

(** The guarded call: when a call followed by a guarded block raises,
    either the call itself failed, or it completed, the block raised
    and the handler made its one call. *)
Lemma guard_raises {A B} (c : M A) (a : action) (body : M B) x (s s' : state) e :
  single_call c a ->
  (c ;; try_except body (call_str env x ;; ret tt)) s = (s', Raise e) ->
  s' = log (Call a (RRaise e)) s \/
  exists rep s1 e1 r,
    failed (Call a rep : event) = false /\
    body (log (Call a rep) s) = (s1, Raise e1) /\ s' = log (Call x r) s1.
Proof.
  intros Hc [E|(s1 & v & E & E2)]%bind_raise.
  - destruct (Hc _ _ _ E) as (rep & -> & ->). by left.
  - destruct (Hc _ _ _ E) as (rep & -> & F).
    apply try_except_raise in E2 as (s2 & e1 & Eb & Eh). right.
    assert (exists r, s' = log (Call x r) s2) as [r ->].
    { destruct Eh as [[Eh _]|Eh]; by apply handler_one in Eh. }
    by exists rep, s2, e1, r.
Qed.

(** A failed [build_config] around [take_over_device]. *)
Lemma build_config_raises (s s' : state) e :
  build_config env self peer (take_over_device env self) s = (s', Raise e) ->
  exists new, trace s' = trace s ++ new /\
    completes is_lvcreate new = false /\ completes is_shim_create new = false /\
    (completes is_upload new = true -> ends_with [rm_res self] new).
Proof.
  unfold build_config. intros [E|(s1 & src & E1 & E)]%bind_raise.
  { destruct (passive_acquires_nothing _ _ _ _ (passive_get_host_config_self env self peer) E)
      as (n & T & (L & S & U)%acquires_nothing).
    exists n. by rewrite U. }
  destruct (passive_acquires_nothing _ _ _ _ (passive_get_host_config_self env self peer) E1)
    as (n1 & T1 & (L1 & S1 & U1)%acquires_nothing).
  apply bind_raise in E as [E|(s2 & dst & E2 & E)].
  { destruct (passive_acquires_nothing _ _ _ _ (passive_get_host_config_peer env self peer) E)
      as (n & T & (L & S & U)%acquires_nothing).
    exists (n1 ++ n). rewrite T, T1, app_assoc, !completes_app, L1, S1, U1, L, S, U. done. }
  destruct (passive_acquires_nothing _ _ _ _ (passive_get_host_config_peer env self peer) E2)
    as (n2 & T2 & (L2 & S2 & U2)%acquires_nothing).
  unfold hv_run in E.
  apply guard_raises with (a := Put (hostname (hv self)) (res_path self)
                                  (resource_text (vm_name self) src dst) "0640") in E
    as [->|(rep & s3 & e1 & r & F & Eb & ->)]; [| |apply single_call_unit].
  { eexists (n1 ++ n2 ++ [_]). cbn [log trace]. rewrite T2, T1, <- !app_assoc.
    split; [reflexivity|]. rewrite !completes_app, L1, S1, U1, L2, S2, U2. by cbn. }
  destruct (take_over_device_run _ _ _ _ _ Eb) as (n3 & T3 & _ & _ & (L3 & S3 & U3)%acquires_nothing).
  eexists (n1 ++ n2 ++ [_] ++ n3 ++ [_]). cbn [log trace] in *. rewrite T3, T2, T1, <- !app_assoc.
  split; [reflexivity|]. rewrite !completes_app, L1, S1, L2, S2, L3, S3.
  split; [by cbn|]. split; [by cbn|]. intros _.
  rewrite !app_assoc. apply ends_with_one.
Qed.

(** The same one level out: the zeroing and [prepare_lv_override]. *)
Lemma lv_override_raises (s s' : state) e :
  (hv_run env (hv self) (DdZero (vg_name self) (meta_disk self)) ;;
   prepare_lv_override env self
     (build_config env self peer (take_over_device env self))) s = (s', Raise e) ->
  exists new, trace s' = trace s ++ new /\
    completes is_lvcreate new = false /\
    (completes is_shim_create new = true -> ends_with [remove_shim self] new) /\
    (completes is_upload new = true -> ends_with [rm_res self; remove_shim self] new).
Proof.
  unfold prepare_lv_override, hv_run.
  intros [->%call_str_raise|(s1 & o1 & [-> _]%call_str_ok & E)]%bind_raise.
  { by eexists [_]. }
  apply bind_raise in E as [->%call_str_raise|(s2 & o2 & [-> _]%call_str_ok & E)].
  { eexists [_; _]. cbn [log trace]. by rewrite <- !app_assoc. }
  apply guard_raises with (a := Run (hostname (hv self))
                                  (DmCreateOrig (lv_name self) (table_file self)) false false) in E
    as [->|(rep & s3 & e1 & r & F & Eb & ->)]; [| |apply single_call_str].
  { eexists [_; _; _]. cbn [log trace]. by rewrite <- !app_assoc. }
  destruct (build_config_raises _ _ _ Eb) as (n & T & L & S & U).
  eexists ([_; _; _] ++ n ++ [_]). cbn [log trace] in *. rewrite T, <- !app_assoc.
  split; [reflexivity|]. rewrite !completes_app, L, S.
  split; [by cbn|]. split.
  - intros _. rewrite !app_assoc. apply ends_with_one.
  - cbn. rewrite orb_false_r. intros Hu.
    apply (ends_with_wrap [rm_res self] [_; _; _] n (remove_shim self) r (U Hu)).
Qed.

End Releases.


End DrbdReleases.

(** ** igvm/drbd.py: further properties of the transport *)

Module DrbdMore.

Import Eff Drbd Sample DrbdTraces Faults EffFacts EffRaise PyFacts DrbdFacts DrbdForward
  DrbdResources DrbdTracesFacts DrbdReleases.

(** X1.  Whatever makes the forward part of [start] raise, and whatever
    comes of the releases themselves: once [lvcreate] has completed,
    the last call is the [lvremove] of the metadata volume; once the
    shim was created, the last two calls are its [dmsetup remove] and
    that [lvremove]; once the resource file was uploaded, the last
    three calls are its [rm], the [dmsetup remove] and the [lvremove]. *)
Theorem start_attempts_every_release (env : Env) (self peer : DRBD) (s s' : state) (e : exn) :
  start_enter env self peer s = (s', Raise e) ->
  exists new, trace s' = trace s ++ new /\
    (completes is_lvcreate new = true -> ends_with [remove_meta self] new) /\
    (completes is_shim_create new = true ->
     ends_with [remove_shim self; remove_meta self] new) /\
    (completes is_upload new = true ->
     ends_with [rm_res self; remove_shim self; remove_meta self] new).
Proof.
  unfold start_enter, prepare_metadata_device. unfold hv_run at 1 3.
  intros E.
  apply (guard_raises env) with (a := Run (hostname (hv self))
                                  (LvCreate (meta_disk self) (vg_name self)) false false) in E
    as [->|(rep & s3 & e1 & r & F & Eb & ->)]; [| |apply single_call_str].
  { by eexists [_]. }
  destruct (lv_override_raises _ _ _ _ _ _ Eb) as (n & T & L & S & U).
  eexists ([_] ++ n ++ [_]). cbn [log trace] in *. rewrite T, <- !app_assoc.
  split; [reflexivity|]. rewrite !completes_app. split; [|split].
  - intros _. rewrite !app_assoc. apply ends_with_one.
  - cbn. rewrite orb_false_r. intros Hs.
    apply (ends_with_wrap [remove_shim self] [_] n (remove_meta self) r (S Hs)).
  - cbn. rewrite orb_false_r. intros Hu.
    apply (ends_with_wrap [rm_res self; remove_shim self] [_] n (remove_meta self) r (U Hu)).
Qed.

(** With [drbdadm up] failing and the [rm] of the resource file failing
    too, the shim and the metadata volume are still removed. *)
Lemma start_attempts_every_release_witness :
  exists new,
    trace (fst (start_enter (failing_with up_and_rm_fail) primary secondary fresh))
      = trace fresh ++ new /\
    (completes is_lvcreate new = true -> ends_with [remove_meta primary] new) /\
    (completes is_shim_create new = true ->
     ends_with [remove_shim primary; remove_meta primary] new) /\
    (completes is_upload new = true ->
     ends_with [rm_res primary; remove_shim primary; remove_meta primary] new).
Proof.
  apply (start_attempts_every_release (failing_with up_and_rm_fail) primary secondary fresh
           (fst (start_enter (failing_with up_and_rm_fail) primary secondary fresh))
           rm_failed).
  vm_compute. reflexivity.
Defined.

(** X2.  In every run of [take_over_device], once [dmsetup suspend] has
    completed the last call is a [dmsetup resume] of the volume, unless
    the [drbdadm down] of the roll-back raised although it was allowed
    to fail.  A run that returns has suspended the device and made no
    call that failed. *)
Theorem suspended_device_is_resumed (env : Env) (self : DRBD) (s s' : state) (r : res unit) :
  take_over_device env self s = (s', r) ->
  exists new, trace s' = trace s ++ new /\
    (completes is_suspend new = true -> resume_attempted self new) /\
    (r = Ok tt -> clean new = true /\ completes is_suspend new = true).
Proof.
  intros (new & T & H1 & H2 & _)%take_over_device_run. exists new.
  split; [done|]. split; [done|]. apply H2.
Qed.

Lemma suspended_device_is_resumed_witness :
  exists new,
    trace (fst (take_over_device (failing_with up_and_rm_fail) primary started))
      = trace started ++ new /\
    (completes is_suspend new = true -> resume_attempted primary new) /\
    (snd (take_over_device (failing_with up_and_rm_fail) primary started) = Ok tt ->
     clean new = true /\ completes is_suspend new = true).
Proof.
  apply (suspended_device_is_resumed (failing_with up_and_rm_fail) primary started).
  vm_compute. reflexivity.
Defined.

(** X3.  [start] lets no failure pass.  Around a block that lets none
    pass, a [start] that returns has made no call that failed, in the
    forward part, in the block or in [stop]; a [start] that raises
    raises the exception of the latest failure, so that a release that
    fails takes the place of the failure it was cleaning up after. *)
Theorem start_raises_latest_failure (env : Env) (self peer : DRBD) {A} (block : M A)
    (s s' : state) (r : res A) :
  faithful block ->
  start env self peer block s = (s', r) ->
  exists new, trace s' = trace s ++ new /\
    match r with
    | Ok _ => clean new = true
    | Raise e => last_failure new = Some e
    end.
Proof. intros Hb E. by apply (faithful_start env self peer block Hb s). Qed.

(** With [drbdadm up] and the [rm] of the resource file both failing,
    what leaves [start] is the failure of the [rm]. *)
Lemma start_raises_latest_failure_witness :
  exists new,
    trace (fst (start (failing_with up_and_rm_fail) primary secondary (ret tt) fresh))
      = trace fresh ++ new /\
    last_failure new = Some rm_failed.
Proof.
  apply (start_raises_latest_failure (failing_with up_and_rm_fail) primary secondary
           (ret tt) fresh
           (fst (start (failing_with up_and_rm_fail) primary secondary (ret tt) fresh))
           (Raise rm_failed)).
  - apply faithful_ret.
  - vm_compute. reflexivity.
Defined.

(** X4.  The minor of a device is asked for at most once per object.  A
    [get_device_minor] that returns [m] leaves [m] cached on the object
    and the caches of the other objects as they were; it made no call
    when the minor was cached, and one [stat] whose output reads [m] in
    base 16 when it was not; from then on [get_device_minor] returns
    [m] and [get_device_port] 8000 plus [m] without any call.  A
    [get_device_minor] that raises has cached nothing. *)
Theorem get_device_minor_cache (env : Env) (self : DRBD) (s s' : state) (r : res Z) :
  get_device_minor env self s = (s', r) ->
  match r with
  | Ok m =>
      heap s' !! oid self = Some m /\
      (forall o, o <> oid self -> heap s' !! o = heap s !! o) /\
      ((heap s !! oid self = Some m /\ s' = s) \/
       (heap s !! oid self = None /\
        exists out, Py.int 16 out = Some m /\
          trace s' = trace s ++
            [Call (Run (hostname (hv self)) (StatMinor (vg_name self) (lv_name self))
                     true false) (RStr out)])) /\
      get_device_minor env self s' = (s', Ok m) /\
      get_device_port env self s' = (s', Ok (8000 + m))
  | Raise e => heap s' = heap s /\ heap s !! oid self = None
  end.
Proof.
  unfold get_device_minor at 1. unfold bind at 1. unfold get_heap at 1.
  destruct (heap s !! oid self) as [m|] eqn:L.
  - intros [= <- <-]. split; [done|]. split; [done|]. split; [by left|].
    unfold get_device_port, bind. by rewrite (get_device_minor_cached env self s m L).
  - unfold bind, call_str. destruct (ask_str env _ _) as [out|e]; cbn [log trace heap].
    + destruct (Py.int 16 out) as [m|] eqn:P.
      * intros [= <- <-]. cbn [heap trace].
        assert (<[oid self:=m]> (heap s) !! oid self = Some m) as L' by apply lookup_insert_eq.
        split; [done|]. split; [intros o Ho; by rewrite lookup_insert_ne|].
        split; [right; split; [done|]; by exists out|].
        unfold get_device_port, bind.
        by rewrite (get_device_minor_cached env self _ m) by exact L'.
      * by intros [= <- <-].
    + by intros [= <- <-].
Qed.

Lemma get_device_minor_cache_witness :
  heap (fst (get_device_minor (stat_prints "fd") primary fresh)) !! oid primary = Some 253 /\
  snd (get_device_minor (stat_prints EmptyString) primary fresh)
    = Raise (ValueError EmptyString) /\
  heap (fst (get_device_minor (stat_prints EmptyString) primary fresh)) = heap fresh.
Proof.
  pose proof (get_device_minor_cache (stat_prints "fd") primary fresh
                (fst (get_device_minor (stat_prints "fd") primary fresh)) (Ok 253)
                ltac:(vm_compute; reflexivity)) as H1.
  pose proof (get_device_minor_cache (stat_prints EmptyString) primary fresh
                (fst (get_device_minor (stat_prints EmptyString) primary fresh))
                (Raise (ValueError EmptyString)) ltac:(vm_compute; reflexivity)) as H2.
  cbv beta iota in H1, H2. destruct H1 as [H1 _], H2 as [H2 _].
  split; [exact H1|]. split; [vm_compute; reflexivity|exact H2].
Defined.

End DrbdMore.

(** ** igvm/drbd.py: construction on odd paths, and the session's resources *)

Module DrbdEdges.

Import Eff Drbd Sample DrbdTraces Faults EffFacts EffRaise PyFacts DrbdFacts DrbdForward
  DrbdResources.

(** X5.  The constructor takes the third and the fourth piece of the
    path of the backing volume, cut at the slashes.  A path without a
    slash gives [IndexError] for either role.  A path of three pieces,
    [/dev/{vg}], gives [IndexError] on the primary, while the secondary,
    which does not read the fourth piece, is built with [vg] and the
    [uid_name] of the VM.  Pieces after the fourth are ignored.  An
    object that is built has no minor cached. *)
Theorem init_on_odd_paths (env : Env) (o : nat) (hv : Hypervisor) (vm : VM) (s : state) :
  let ask := VolumePath (hostname (hypervisor vm)) (fqdn vm) in
  let index_error path :=
    (State (trace s ++ [Call ask (RStr path); Raised IndexError]) (heap s),
     Raise IndexError) in
  (forall path role,
     Py.has_char "/" path = false -> ask_str env (trace s) ask = Ok path ->
     init env o hv vm role s = index_error path) /\
  (forall vg,
     Py.has_char "/" vg = false -> ask_str env (trace s) ask = Ok ("/dev/" +:+ vg) ->
     init env o hv vm true s = index_error ("/dev/" +:+ vg) /\
     exists s' d, init env o hv vm false s = (s', Ok d) /\
       vg_name d = vg /\ lv_name d = uid_name vm /\ heap s' !! o = None) /\
  (forall vg lv rest,
     Py.has_char "/" vg = false -> Py.has_char "/" lv = false ->
     ask_str env (trace s) ask = Ok ("/dev/" +:+ vg +:+ "/" +:+ lv +:+ "/" +:+ rest) ->
     exists s' d, init env o hv vm true s = (s', Ok d) /\
       vg_name d = vg /\ lv_name d = lv /\ heap s' !! o = None).
Proof.
  intros ask index_error. unfold index_error, ask. clear ask index_error.
  split; [|split].
  - intros path role Hp Hask. unfold init, bind, call_str. rewrite Hask.
    rewrite (split_no_sep _ _ Hp). cbn. unfold log. cbn. by rewrite <- app_assoc.
  - intros vg Hvg Hask. unfold init, bind, call_str. rewrite Hask.
    change ("/dev/" +:+ vg) with (EmptyString +:+ String "/" ("dev" +:+ String "/" vg)).
    rewrite !split_app_sep by done. rewrite (split_no_sep _ _ Hvg). cbn. split.
    + unfold log. cbn. by rewrite <- app_assoc.
    + eexists _, _. split; [reflexivity|]. cbn. repeat split. apply lookup_delete_eq.
  - intros vg lv rest Hvg Hlv Hask. unfold init, bind, call_str. rewrite Hask.
    change ("/dev/" +:+ vg +:+ "/" +:+ lv +:+ "/" +:+ rest)
      with (EmptyString +:+ String "/" ("dev" +:+ String "/" (vg +:+ String "/"
              (lv +:+ String "/" rest)))).
    rewrite !split_app_sep by done. cbn.
    eexists _, _. split; [reflexivity|]. cbn. repeat split. apply lookup_delete_eq.
Qed.

Lemma init_on_odd_paths_witness :
  init (volume_at "/dev/xen-data") 2 hv2 vm1 true fresh
    = (State (trace fresh ++ [Call (VolumePath "hv1.example" "vm1.example")
                                (RStr "/dev/xen-data"); Raised IndexError]) (heap fresh),
       Raise IndexError) /\
  exists s' d, init (volume_at "/dev/xen-data") 2 hv2 vm1 false fresh = (s', Ok d) /\
    vg_name d = "xen-data" /\ lv_name d = uid_name vm1 /\ heap s' !! 2%nat = None.
Proof.
  apply (proj1 (proj2 (init_on_odd_paths (volume_at "/dev/xen-data") 2 hv2 vm1 fresh))
           "xen-data"); reflexivity.
Defined.

(** Queries leave the resources as they are. *)
Lemma calls_effect_steps_of host (l : list action) w :
  calls_effect host l w = calls_effect host (steps_of l) w.
Proof.
  revert w. induction l as [|a l IH]; intros w; [done|].
  unfold steps_of in *. cbn [List.filter]. destruct (is_query a) eqn:Q; cbn [negb].
  - unfold calls_effect in *. cbn [fold_left]. rewrite <- IH. f_equal.
    destruct a as [h [] ? ?| | | | | | | | | | | | | |]; try done; cbn; by case_decide.
  - unfold calls_effect in *. cbn [fold_left]. apply IH.
Qed.

(** X6.  When the forward part of [start] has completed, the hypervisor
    holds all four things of the session: the metadata volume, the
    shim, the resource file and the table file. *)
Theorem session_holds_its_resources (env : Env) (self peer : DRBD) (s s' : state)
    (w : resources) :
  start_enter env self peer s = (s', Ok tt) ->
  exists new, trace s' = trace s ++ new /\
    let w' := resources_after (hostname (hv self)) new w in
    meta_lv_present self w' /\ shim_present self w' /\
    res_file_present self w' /\ table_file_present self w'.
Proof.
  intros (new & m & m' & dev_size & T & C & S)%start_enter_ok. exists new.
  split; [done|]. cbv zeta.
  rewrite (resources_after_clean _ _ _ C), calls_effect_steps_of, S.
  unfold forward_steps, steps_before_promotion, promotion, steps_after_promotion,
    meta_lv_present, shim_present, res_file_present, table_file_present.
  unfold calls_effect.
  destruct (master_role self);
    cbn [app fold_left call_effect]; rewrite !decide_True by done;
    cbn [shell_effect volumes dm_devices files]; unfold res_path; set_solver.
Qed.

Lemma session_holds_its_resources_witness :
  exists new,
    trace (fst (start_enter world secondary primary fresh)) = trace fresh ++ new /\
    let w' := resources_after (hostname (hv secondary)) new no_resources in
    meta_lv_present secondary w' /\ shim_present secondary w' /\
    res_file_present secondary w' /\ table_file_present secondary w'.
Proof.
  apply (session_holds_its_resources world secondary primary fresh
           (fst (start_enter world secondary primary fresh)) no_resources).
  vm_compute. reflexivity.
Defined.

End DrbdEdges.

(** ** igvm/commands.py: further properties of the commands *)

Module CommandsMore.

Import Eff Commands CommandsSample CommandsTraces CommandsFaults EffFacts EffRaise.

Ltac run_all env :=
  repeat match goal with
  | |- context [ask_str env ?t ?a] => destruct (ask_str env t a); cbn [log trace heap]
  | |- context [ask_bool env ?t ?a] =>
      destruct (ask_bool env t a) as [[]|]; cbn [log trace heap negb]
  | |- context [ask_int env ?t ?a] => destruct (ask_int env t a); cbn [log trace heap]
  | |- context [ask_unit env ?t ?a] => destruct (ask_unit env t a); cbn [log trace heap]
  end.

Section More.
Variable env : Env.
Variable parse_size : string -> string -> res Z.

(** X7.  For a VM that its hypervisor does not know, [mem_set],
    [disk_set] and [vm_start] make two calls, the construction of the
    VM object and the question to the hypervisor, and raise
    [InvalidStateError] with the names of both; nothing is changed. *)
Theorem undefined_vm_is_refused (vm hv : string) (s : state) :
  ask_str env (trace s) (Construct vm) = Ok hv ->
  ask_bool env (trace s ++ [Call (Construct vm) (RStr hv)]) (HvVmDefined vm) = Ok false ->
  let refused :=
    (State (trace s ++ [ Call (Construct vm) (RStr hv);
                         Call (HvVmDefined vm) (RBool false);
                         Raised (not_defined vm hv) ]) (heap s),
     Raise (not_defined vm hv)) in
  (forall size offline, mem_set env parse_size vm size offline s = refused) /\
  (forall size, disk_set env parse_size vm size s = refused) /\
  vm_start env vm s = refused.
Proof.
  intros Hc Hd refused. unfold refused. clear refused.
  assert (forall A (k : M A),
            (v <- construct env vm ;; _check_defined env v ;; k) s
            = (State (trace s ++ [ Call (Construct vm) (RStr hv);
                                   Call (HvVmDefined vm) (RBool false);
                                   Raised (not_defined vm hv) ]) (heap s),
               Raise (not_defined vm hv))) as H.
  { intros A k. unfold construct, _check_defined, bind, call_str, call_bool, ret, raise.
    rewrite Hc. cbn [log trace heap vm_hostname hypervisor_hostname]. rewrite Hd.
    unfold log, not_defined. cbn [trace heap vm_hostname hypervisor_hostname].
    by rewrite <- !app_assoc. }
  split; [|split].
  - intros size offline. apply H.
  - intros size. apply H.
  - apply H.
Qed.

(** X8.  [disk_set] does not shrink a disk.  For a VM that is defined,
    a request that starts with a minus sign is refused with
    [NotImplementedError] before the size is even parsed, and so is a
    request for less than the current size; the inventory is read and
    nothing is changed. *)
Theorem disk_set_refuses_to_shrink (vm hv size : string) (current : Z) (s : state) :
  (forall t, ask_str env t (Construct vm) = Ok hv) ->
  (forall t, ask_bool env t (HvVmDefined vm) = Ok true) ->
  (forall t, ask_int env t (AttrGet vm "disk_size_gib") = Ok current) ->
  Py.startswith "-" size = true \/
  (exists n, requested_disk parse_size current size = Ok n /\ n < current) ->
  disk_set env parse_size vm size s =
    (State (trace s ++ [ Call (Construct vm) (RStr hv);
                         Call (HvVmDefined vm) (RBool true);
                         Call (AttrGet vm "disk_size_gib") (RInt current);
                         Raised (NotImplementedError "Cannot shrink the disk.") ]) (heap s),
     Raise (NotImplementedError "Cannot shrink the disk.")).
Proof.
  intros Hc Hd Hg Hsize.
  unfold disk_set, construct, _check_defined, bind, call_str, call_bool, call_int, ret, raise.
  rewrite Hc. cbn [log trace heap vm_hostname]. rewrite Hd. cbn [log trace heap].
  rewrite Hg. cbn [log trace heap]. unfold requested_disk in Hsize.
  destruct (Py.startswith "+" size) eqn:Plus.
  - assert (Py.startswith "-" size = false) as Minus.
    { destruct size as [|c size]; [done|]. cbn [Py.startswith] in Plus |- *.
      destruct (Ascii.eqb "+" c) eqn:E1; [|cbn [andb] in Plus; done].
      by apply Ascii.eqb_eq in E1 as <-. }
    destruct Hsize as [Hm|(n & Hn & Lt)]; [congruence|]. rewrite Minus in *.
    unfold lift. destruct (parse_size _ _) as [delta|]; [|done]. injection Hn as <-.
    cbn [ret orb]. apply Z.ltb_lt in Lt. rewrite Lt.
    unfold log. cbn [trace heap]. by rewrite <- !app_assoc.
  - destruct (Py.startswith "-" size) eqn:Minus; cbn [negb ret].
    + unfold log. cbn [trace heap]. by rewrite <- !app_assoc.
    + destruct Hsize as [Hm|(n & Hn & Lt)]; [congruence|].
      unfold lift. rewrite Hn. cbn [ret orb]. apply Z.ltb_lt in Lt. rewrite Lt.
      unfold log. cbn [trace heap]. by rewrite <- !app_assoc.
Qed.

Ltac finish_run :=
  intros [= <- <-]; unfold log; cbn [trace heap]; rewrite <- ?app_assoc; cbn [app];
  (eexists; split; [reflexivity|]).

(** X9.  [disk_set] writes the inventory last.  In every run the calls
    that change something are a beginning of: [lvresize], [virsh
    blockresize], [xfs_growfs] in the guest, the new [disk_size_gib],
    the commit.  No call is made after one that failed, so the
    inventory is written only when the three steps before it have
    completed, and a run that returns has made all five. *)
Theorem disk_set_updates_inventory_last (vm size : string) (s s' : state) (r : res unit) :
  disk_set env parse_size vm size s = (s', r) ->
  exists new volume gib,
    trace s' = trace s ++ new /\
    mutations new `prefix_of` grow_steps vm volume gib /\
    clean (removelast new) = true /\
    (r = Ok tt -> mutations new = grow_steps vm volume gib /\ clean new = true).
Proof.
  unfold disk_set, construct, _check_defined, lift, bind, call_str, call_bool, call_int,
    call_unit, ret, raise.
  destruct (ask_str env _ _) as [hv|]; cbn [log trace heap vm_hostname].
  2:{ intros [= <- <-]. eexists [_], EmptyString, 0. split; [done|].
      split; [apply prefix_nil|]. by split. }
  destruct (ask_bool env _ _) as [[]|]; cbn [log trace heap].
  2,3: intros [= <- <-]; unfold log; cbn [trace heap]; rewrite <- ?app_assoc; cbn [app];
       eexists _, EmptyString, 0; (split; [reflexivity|]);
       (split; [apply prefix_nil|]); by split.
  destruct (ask_int env _ _) as [current|]; cbn [log trace heap].
  2:{ intros [= <- <-]; unfold log; cbn [trace heap]; rewrite <- ?app_assoc; cbn [app].
      eexists _, EmptyString, 0. split; [reflexivity|]. split; [apply prefix_nil|]. by split. }
  destruct (Py.startswith "+" size), (Py.startswith "-" size); cbn [negb];
    repeat match goal with
    | |- context [parse_size ?a ?b] => destruct (parse_size a b); cbn [log trace heap orb]
    | |- context [?a <? ?b] => destruct (a <? b); cbn [log trace heap orb]
    | |- context [?a =? ?b] => destruct (a =? b); cbn [log trace heap orb]
    | |- context [ask_int env ?t ?a] => destruct (ask_int env t a); cbn [log trace heap]
    | |- context [ask_str env ?t ?a] => destruct (ask_str env t a); cbn [log trace heap]
    | |- context [ask_unit env ?t ?a] => destruct (ask_unit env t a); cbn [log trace heap]
    end;
    intros [= <- <-]; unfold log; cbn [trace heap]; rewrite <- ?app_assoc; cbn [app];
    first
      [ solve [ eexists _, EmptyString, 0; (split; [reflexivity|]);
                (split; [apply prefix_nil|]); by split ]
      | solve [ eexists _, _, _; (split; [reflexivity|]);
                (split; [cbn; eexists; reflexivity|]); by split ] ].
Qed.

Ltac in_list := solve [repeat first [apply list_elem_of_here | apply list_elem_of_further]].

(** X10.  [mem_set] takes the VM down only when it was asked to and the
    VM runs.  In every run the calls that change something are a
    beginning of the one [set_memory], or, with [offline] set and the
    VM answering that it runs, of shutdown, [set_memory], start.  No
    call is made after one that failed: when [set_memory] fails on a VM
    that was shut down for it, the VM is not started again. *)
Theorem mem_set_restarts_only_offline (vm size : string) (offline : bool)
    (s s' : state) (r : res unit) :
  mem_set env parse_size vm size offline s = (s', r) ->
  exists new mib,
    trace s' = trace s ++ new /\
    (mutations new `prefix_of` online_steps vm mib \/
     (offline = true /\ Call (IsRunning vm) (RBool true) ∈ new /\
      mutations new `prefix_of` offline_steps vm mib)) /\
    clean (removelast new) = true /\
    (r = Ok tt ->
     clean new = true /\
     (mutations new = online_steps vm mib \/ mutations new = offline_steps vm mib)).
Proof.
  unfold mem_set, construct, _check_defined, lift, bind, call_str, call_bool, call_int,
    call_unit, ret, raise, note.
  destruct (ask_str env _ _) as [hv|]; cbn [log trace heap vm_hostname].
  2:{ intros [= <- <-]. eexists [_], 0. split; [done|].
      split; [left; apply prefix_nil|]. by split. }
  destruct (ask_bool env _ _) as [[]|]; cbn [log trace heap].
  2,3: intros [= <- <-]; unfold log; cbn [trace heap]; rewrite <- ?app_assoc; cbn [app];
       eexists _, 0; (split; [reflexivity|]);
       (split; [left; apply prefix_nil|]); by split.
  destruct offline, (Py.startswith "+" size), (Py.startswith "-" size); cbn [negb];
    repeat match goal with
    | |- context [parse_size ?a ?b] => destruct (parse_size a b); cbn [log trace heap]
    | |- context [?a =? ?b] => destruct (a =? b); cbn [log trace heap]
    | |- context [ask_int env ?t ?a] => destruct (ask_int env t a); cbn [log trace heap]
    | |- context [ask_bool env ?t ?a] =>
        destruct (ask_bool env t a) as [[]|]; cbn [log trace heap negb]
    | |- context [ask_unit env ?t ?a] => destruct (ask_unit env t a); cbn [log trace heap]
    end;
    intros [= <- <-]; unfold log; cbn [trace heap]; rewrite <- ?app_assoc; cbn [app];
    first
      [ solve [ eexists _, 0; (split; [reflexivity|]);
                (split; [left; apply prefix_nil|]); by split ]
      | solve [ eexists _, _; (split; [reflexivity|]);
                (split; [left; cbn; eexists; reflexivity|]);
                (split; [done|]); first [done | intros _; split; [done|by left]] ]
      | solve [ eexists _, 0; (split; [reflexivity|]);
                (split; [right; split; [done|]; split; [in_list|]; cbn; eexists; reflexivity|]);
                (split; [done|]); done ]
      | solve [ eexists _, _; (split; [reflexivity|]);
                (split; [right; split; [done|]; split; [in_list|]; cbn; eexists; reflexivity|]);
                (split; [done|]); first [done | intros _; split; [done|by right]] ] ].
Qed.

End More.

Lemma undefined_vm_is_refused_witness :
  mem_set undefined_world plain_size "vm1.example" "4096" true fresh
    = (State (trace fresh ++ [ Call (Construct "vm1.example") (RStr "hv1.example");
                               Call (HvVmDefined "vm1.example") (RBool false);
                               Raised (not_defined "vm1.example" "hv1.example") ])
         (heap fresh),
       Raise (not_defined "vm1.example" "hv1.example")).
Proof.
  apply (proj1 (undefined_vm_is_refused undefined_world plain_size "vm1.example"
                  "hv1.example" fresh eq_refl eq_refl)).
Defined.

Lemma disk_set_refuses_to_shrink_witness :
  disk_set world plain_size "vm1.example" "5" fresh =
    (State (trace fresh ++ [ Call (Construct "vm1.example") (RStr "hv1.example");
                             Call (HvVmDefined "vm1.example") (RBool true);
                             Call (AttrGet "vm1.example" "disk_size_gib") (RInt 6);
                             Raised (NotImplementedError "Cannot shrink the disk.") ])
       (heap fresh),
     Raise (NotImplementedError "Cannot shrink the disk.")).
Proof.
  apply (disk_set_refuses_to_shrink world plain_size "vm1.example" "hv1.example" "5" 6 fresh);
    try (intros t; reflexivity).
  right. exists 5. split; [reflexivity|lia].
Defined.

(** The guest cannot be reached: the volume is resized, the inventory
    is not written. *)
Lemma disk_set_updates_inventory_last_witness :
  exists new volume gib,
    trace (fst (disk_set (failing_with guest_fails) plain_size "vm1.example" "+4" fresh))
      = trace fresh ++ new /\
    mutations new `prefix_of` grow_steps "vm1.example" volume gib /\
    clean (removelast new) = true /\
    (snd (disk_set (failing_with guest_fails) plain_size "vm1.example" "+4" fresh) = Ok tt ->
     mutations new = grow_steps "vm1.example" volume gib /\ clean new = true).
Proof.
  apply (disk_set_updates_inventory_last (failing_with guest_fails) plain_size
           "vm1.example" "+4" fresh).
  vm_compute. reflexivity.
Defined.

Example guest_failure_keeps_inventory :
  mutations (trace (fst (disk_set (failing_with guest_fails) plain_size
                           "vm1.example" "+4" fresh)))
  = [ LvResize "/dev/xen-data/vm1.example" 10;
      FabricRun "virsh blockresize --path /dev/xen-data/vm1.example --size 10GiB vm1.example";
      VmRun "vm1.example" "xfs_growfs /" ].
Proof. vm_compute. reflexivity. Qed.

Lemma mem_set_restarts_only_offline_witness :
  exists new mib,
    trace (fst (mem_set (failing_with set_memory_fails) plain_size "vm1.example" "4096"
                  true fresh)) = trace fresh ++ new /\
    (mutations new `prefix_of` online_steps "vm1.example" mib \/
     (true = true /\ Call (IsRunning "vm1.example") (RBool true) ∈ new /\
      mutations new `prefix_of` offline_steps "vm1.example" mib)) /\
    clean (removelast new) = true /\
    (snd (mem_set (failing_with set_memory_fails) plain_size "vm1.example" "4096"
            true fresh) = Ok tt ->
     clean new = true /\
     (mutations new = online_steps "vm1.example" mib \/
      mutations new = offline_steps "vm1.example" mib)).
Proof.
  apply (mem_set_restarts_only_offline (failing_with set_memory_fails) plain_size
           "vm1.example" "4096" true fresh).
  vm_compute. reflexivity.
Defined.

Example failed_set_memory_leaves_vm_down :
  mutations (trace (fst (mem_set (failing_with set_memory_fails) plain_size
                           "vm1.example" "4096" true fresh)))
  = [ Shutdown "vm1.example"; SetMemory "vm1.example" 4096 ].
Proof. vm_compute. reflexivity. Qed.

End CommandsMore.

(** ** igvm/commands.py: the life-cycle commands *)

Module LifecycleFacts.

Import Eff Lifecycle EffFacts EffRaise.

Ltac in_list := solve [repeat first [apply list_elem_of_here | apply list_elem_of_further]].

Ltac run env :=
  repeat match goal with
  | |- context [ask_str env ?t ?a] => destruct (ask_str env t a); cbn [log trace heap]
  | |- context [ask_bool env ?t ?a] =>
      destruct (ask_bool env t a) as [[]|]; cbn [log trace heap negb]
  | |- context [ask_unit env ?t ?a] => destruct (ask_unit env t a); cbn [log trace heap]
  end;
  intros [= <- <-]; unfold log; cbn [trace heap]; rewrite <- ?app_assoc; cbn [app].

Section Commands.
Variable env : Env.

(** X11.  [vm_stop] stops a running VM in the way it was asked to and
    no other: in every run the calls that act are a beginning of the
    one [stop_vm_force] when [force] is set and of the one [shutdown]
    when it is not, and such a call is made only after the VM has
    answered that it runs.  A run that returns has either found the VM
    not running and done nothing, or made that one call. *)
Theorem vm_stop_stops_as_asked (vm : string) (force : bool) (s s' : state) (r : res unit) :
  vm_stop env vm force s = (s', r) ->
  exists new,
    trace s' = trace s ++ new /\
    steps new `prefix_of` stop_steps vm force /\
    (steps new <> [] -> Call (IsRunning vm) (RBool true) ∈ new) /\
    clean (removelast new) = true /\
    (r = Ok tt ->
     clean new = true /\
     ((Call (IsRunning vm) (RBool false) ∈ new /\ steps new = []) \/
      steps new = stop_steps vm force)).
Proof.
  unfold vm_stop, construct, _check_defined, bind, call_str, call_bool, call_unit,
    ret, raise, note.
  destruct force; run env; (eexists; split; [reflexivity|]);
    (split; [cbn; first [apply prefix_nil | done]|]);
    (split; [cbn; first [done | intros _; in_list]|]);
    (split; [done|]); first [done | intros _; split; [done|]];
    first [left; split; [in_list|done] | by right].
Qed.

(** X12.  [vm_restart] refuses a VM that does not run, with
    [InvalidStateError] and without a call that acts.  In every run the
    calls that act are a beginning of [stop_vm_force], [disconnect],
    [start] when [force] is set and of [shutdown], [start] when it is
    not; no call is made after one that failed, so the VM is started
    only when it was stopped, and is left stopped when the start
    fails.  A run that returns has made them all. *)
Theorem vm_restart_stops_then_starts (vm : string) (force : bool) (s s' : state)
    (r : res unit) :
  vm_restart env vm force s = (s', r) ->
  exists new,
    trace s' = trace s ++ new /\
    steps new `prefix_of` restart_steps vm force /\
    clean (removelast new) = true /\
    (Call (IsRunning vm) (RBool false) ∈ new ->
     steps new = [] /\ r = Raise (InvalidStateError (vm +:+ " is not running"))) /\
    (r = Ok tt -> clean new = true /\ steps new = restart_steps vm force).
Proof.
  unfold vm_restart, construct, _check_defined, bind, call_str, call_bool, call_unit,
    ret, raise, note.
  destruct force; run env; (eexists; split; [reflexivity|]);
    (split; [cbn; first [apply prefix_nil | done | eexists; reflexivity]|]);
    (split; [done|]);
    (split; [|done]);
    first [ done
          | intros H; exfalso;
            repeat (apply elem_of_cons in H as [H|H]; [discriminate H|]);
            by apply elem_of_nil in H ].
Qed.

(** X13.  [vm_delete] refuses a VM that runs, with [InvalidStateError]
    and without a call that acts.  In every run the calls that act are
    a beginning of [undefine_vm], [destroy_vm_storage], [commit], no
    call is made after one that failed, and the attributes of the VM
    are either untouched or have [state] set to [retired], the latter
    only once the VM was undefined and its storage destroyed.  A run
    that returns has made all three calls and has set the state. *)
Theorem vm_delete_retires_last (vm : string) (s s' : state) (r : res unit) :
  vm_delete env vm s = (s', r) ->
  exists new,
    trace s' = trace s ++ new /\
    steps new `prefix_of` delete_steps vm /\
    clean (removelast new) = true /\
    (Call (IsRunning vm) (RBool true) ∈ new ->
     steps new = [] /\ heap s' = heap s /\
     r = Raise (InvalidStateError (vm +:+ " is still running. Please stop it first."))) /\
    (heap s' = heap s \/
     (heap s' = <["state" := VStr "retired"]> (heap s) /\
      Call (UndefineVm vm) RUnit ∈ new /\ Call (DestroyVmStorage vm) RUnit ∈ new)) /\
    (r = Ok tt ->
     clean new = true /\ steps new = delete_steps vm /\
     heap s' = <["state" := VStr "retired"]> (heap s)).
Proof.
  unfold vm_delete, construct, _check_defined, bind, call_str, call_bool, call_unit,
    ret, raise, note, get_heap, set_heap.
  run env; (eexists; split; [reflexivity|]);
    (split; [cbn; first [apply prefix_nil | done | eexists; reflexivity]|]);
    (split; [done|]);
    (split; [first [ done
                   | intros H; exfalso;
                     repeat (apply elem_of_cons in H as [H|H]; [discriminate H|]);
                     by apply elem_of_nil in H ]|]);
    (split; [first [by left | right; split; [done|]; split; in_list]|]);
    done.
Qed.

End Commands.

(** Log entries are no steps. *)
Lemma steps_of_logs (logs : list event) : forallb is_log logs = true -> steps logs = [].
Proof.
  induction logs as [|ev logs IH]; [done|]. cbn [forallb]. intros [Hev Hl]%andb_prop.
  destruct ev as [|[]|]; try done. unfold steps, calls in *. cbn. by apply IH.
Qed.

Lemma steps_app (l l' : list event) : steps (l ++ l') = steps l ++ steps l'.
Proof. unfold steps, calls. by rewrite omap_app, List.filter_app. Qed.

Lemma calls_app (l l' : list event) : calls (l ++ l') = calls l ++ calls l'.
Proof. apply omap_app. Qed.

Lemma last_calls_note (l : list event) a : last (calls (l ++ [Noted a])) = Some a.
Proof. rewrite calls_app. apply last_snoc. Qed.

Lemma last_calls_note_2 (l1 l2 : list event) ev a :
  last (calls (l1 ++ l2 ++ [ev; Noted a])) = Some a.
Proof.
  replace (l1 ++ l2 ++ [ev; Noted a]) with ((l1 ++ l2 ++ [ev]) ++ [Noted a])
    by (by rewrite <- !app_assoc).
  apply last_calls_note.
Qed.

(** An attribute that is set does not change which of the other
    attributes differ. *)
Lemma differing_insert (h : heap_t) k v (attributes : list (string * value)) :
  k ∉ attributes.*1 -> differing (<[k := v]> h) attributes = differing h attributes.
Proof.
  unfold differing. induction attributes as [|[k' v'] rest IH]; [done|].
  cbn [fmap list_fmap fst]. intros [Hk Hrest]%not_elem_of_cons.
  cbn [List.filter fst snd]. rewrite lookup_insert_ne by done.
  destruct (negb _); cbn [fmap list_fmap]; by rewrite (IH Hrest).
Qed.

Section Sync.
Variable env : Env.
Variable vm_sync_from_hypervisor : string -> res (list (string * value)).

(** The loop of [vm_sync]: it only logs, once per attribute; it leaves
    the attributes given over what the inventory held, and returns the
    names of those that differed. *)
Lemma sync_attributes_run (attributes : list (string * value)) (changed : list string)
    (s : state) :
  NoDup attributes.*1 ->
  exists logs,
    sync_attributes attributes changed s
      = (State (trace s ++ logs) (list_to_map attributes ∪ heap s),
         Ok (changed ++ differing (heap s) attributes)) /\
    forallb is_log logs = true.
Proof.
  revert changed s. induction attributes as [|[k v] rest IH]; intros changed s.
  - intros _. exists []. cbn. rewrite !app_nil_r, (left_id_L ∅ (∪)). by destruct s.
  - cbn [fmap list_fmap fst]. intros [Hk Hrest]%NoDup_cons.
    assert ((list_to_map rest : heap_t) !! k = None) as Hnone
      by (by apply not_elem_of_list_to_map_1).
    cbn [sync_attributes]. unfold bind at 1. unfold get_heap at 1.
    unfold differing. cbn [List.filter fst snd list_to_map foldr uncurry].
    case_bool_decide as Hcur; cbn [negb].
    + unfold bind at 1. unfold note at 1.
      set (ev := Noted (LogInfo (k +:+ ": " +:+ format_current (heap s !! k))) : event).
      destruct (IH changed (log ev s) Hrest) as (logs & E & L).
      rewrite E. exists (ev :: logs). cbn [log trace heap].
      rewrite <- app_assoc. split; [|by cbn].
      f_equal. f_equal. rewrite <- insert_union_l.
      symmetry. apply insert_id. by rewrite lookup_union_r.
    + unfold bind at 1. unfold note at 1. unfold bind at 1. unfold set_heap at 1.
      cbn [log trace heap].
      set (ev := Noted (LogInfo (k +:+ ": " +:+ format_current (heap s !! k)
                                   +:+ " -> " +:+ format_value v)) : event).
      destruct (IH (changed ++ [k]) (State (trace s ++ [ev]) (<[k := v]> (heap s))) Hrest)
        as (logs & E & L).
      rewrite E. exists (ev :: logs). cbn [trace heap].
      rewrite <- !app_assoc. split; [|by cbn].
      f_equal; [|f_equal].
      * f_equal. rewrite <- insert_union_l. by rewrite insert_union_r.
      * cbn [heap]. rewrite (differing_insert (heap s) k v rest Hk). reflexivity.
Qed.

(** X14.  [vm_sync] brings the attributes of the VM in line with what
    the hypervisor reports.  When it returns, every attribute reported
    has the value reported and every other attribute is as it was.
    When no attribute differed, nothing was written and no commit was
    made; otherwise there was one commit, after the loop, and the last
    log entry counts and names the attributes that differed, in the
    order they were reported. *)
Theorem vm_sync_brings_inventory_in_line (vm hv : string)
    (attributes : list (string * value)) (s : state) :
  (forall t, ask_str env t (Construct vm) = Ok hv) ->
  (forall t, ask_bool env t (HvVmDefined vm) = Ok true) ->
  (forall t, ask_unit env t (Commit vm) = Ok tt) ->
  vm_sync_from_hypervisor vm = Ok attributes ->
  NoDup attributes.*1 ->
  exists s' new,
    vm_sync env vm_sync_from_hypervisor vm s = (s', Ok tt) /\
    trace s' = trace s ++ new /\ clean new = true /\
    (forall k v, (k, v) ∈ attributes -> heap s' !! k = Some v) /\
    (forall k, k ∉ attributes.*1 -> heap s' !! k = heap s !! k) /\
    match differing (heap s) attributes with
    | [] =>
        heap s' = heap s /\ steps new = [] /\
        last (calls new) = Some (LogInfo (vm +:+ ": Serveradmin is already synchronized."))
    | changed =>
        steps new = [Commit vm] /\
        last (calls new) =
          Some (LogInfo (vm +:+ ": Synchronized " +:+ Py.str (Z.of_nat (length changed))
                         +:+ " attributes (" +:+ join ", " changed +:+ ")."))
    end.
Proof.
  intros Hc Hd Hcommit Hrep Hnd.
  unfold vm_sync, construct, _check_defined, lift, bind, call_str, call_bool, ret, note.
  rewrite Hc. cbn [log trace heap vm_hostname]. rewrite Hd. cbn [log trace heap].
  rewrite Hrep.
  destruct (sync_attributes_run attributes []
              (State (trace s ++ [Call (Construct vm) (RStr hv)]
                      ++ [Call (HvVmDefined vm) (RBool true)]
                      ++ [Noted (SyncFromHypervisor vm)]) (heap s)) Hnd)
    as (logs & E & L).
  unfold log. cbn [trace heap]. rewrite <- !app_assoc.
  cbn [app] in E |- *. rewrite E. cbn [trace heap app].
  assert (clean logs = true) as Cl.
  { clear E. induction logs as [|ev logs IH]; [done|].
    cbn [forallb] in L. apply andb_prop in L as [Hev L].
    destruct ev as [|[]|]; try done. cbn. by apply IH. }
  assert (forall k v, (k, v) ∈ attributes ->
            (list_to_map attributes ∪ heap s) !! k = Some v) as Hin.
  { intros k v Hkv. apply lookup_union_Some_l. by apply elem_of_list_to_map_1. }
  assert (forall k, k ∉ attributes.*1 ->
            (list_to_map attributes ∪ heap s) !! k = heap s !! k) as Hout.
  { intros k Hk. apply lookup_union_r. by apply not_elem_of_list_to_map_1. }
  destruct (differing (heap s) attributes) as [|c changed] eqn:D.
  - eexists _, ([_; _; _] ++ logs ++ [_]). unfold note, log. cbn [trace heap].
    rewrite <- !app_assoc. split; [reflexivity|]. split; [reflexivity|].
    split; [unfold clean in *; by rewrite !forallb_app, Cl|].
    split; [done|]. split; [done|]. split.
    + cbn [heap]. apply map_eq. intros k. destruct (decide (k ∈ attributes.*1)) as [Hk|Hk]; [|by apply Hout].
      apply list_elem_of_fmap in Hk as ([k' v] & -> & Hkv). cbn [fst]. rewrite (Hin _ _ Hkv).
      destruct (decide (heap s !! k' = Some v)) as [|Hne]; [done|].
      assert (k' ∈ differing (heap s) attributes) as Hd'.
      { unfold differing. apply list_elem_of_fmap. exists (k', v). split; [done|].
        apply list_elem_of_In, List.filter_In. split; [by apply list_elem_of_In|].
        cbn. by rewrite bool_decide_eq_false_2. }
      rewrite D in Hd'. by apply elem_of_nil in Hd'.
    + rewrite !steps_app, (steps_of_logs _ L). split; [done|].
      rewrite app_assoc. apply last_calls_note.
  - unfold call_unit. rewrite Hcommit. unfold log. cbn [trace heap].
    eexists _, ([_; _; _] ++ logs ++ [_; _]). rewrite <- !app_assoc.
    split; [reflexivity|]. split; [reflexivity|].
    split; [unfold clean in *; by rewrite !forallb_app, Cl|].
    split; [done|]. split; [done|].
    rewrite !steps_app, (steps_of_logs _ L). split; [done|].
    apply (last_calls_note_2 [_; _; _] logs).
Qed.

End Sync.

(** X21.  For a VM that its hypervisor does not know, [vm_stop],
    [vm_restart], [vm_delete] and [vm_sync] make two calls, the
    construction of the VM object and the question to the hypervisor,
    and raise [InvalidStateError] with the names of both; nothing is
    done and no attribute is touched. *)
Theorem lifecycle_refuses_undefined_vm (env : Env)
    (vm_sync_from_hypervisor : string -> res (list (string * value)))
    (vm hv : string) (s : state) :
  ask_str env (trace s) (Construct vm) = Ok hv ->
  ask_bool env (trace s ++ [Call (Construct vm) (RStr hv)]) (HvVmDefined vm) = Ok false ->
  let e := InvalidStateError
             (vm +:+ " is not built yet or is not actually running on " +:+ hv) in
  let refused :=
    (State (trace s ++ [ Call (Construct vm) (RStr hv);
                         Call (HvVmDefined vm) (RBool false); Raised e ]) (heap s),
     Raise e) in
  (forall force, vm_stop env vm force s = refused) /\
  (forall force, vm_restart env vm force s = refused) /\
  vm_delete env vm s = refused /\
  vm_sync env vm_sync_from_hypervisor vm s = refused.
Proof.
  intros Hc Hd e refused. unfold refused, e. clear refused e.
  assert (forall A (k : M A),
            (v <- construct env vm ;; _check_defined env v ;; k) s
            = (State (trace s ++ [ Call (Construct vm) (RStr hv);
                                   Call (HvVmDefined vm) (RBool false);
                                   Raised (InvalidStateError
                                     (vm +:+ " is not built yet or is not actually running on "
                                      +:+ hv)) ]) (heap s),
               Raise (InvalidStateError
                        (vm +:+ " is not built yet or is not actually running on "
                         +:+ hv)))) as H.
  { intros A k. unfold construct, _check_defined, bind, call_str, call_bool, ret, raise.
    rewrite Hc. cbn [log trace heap vm_hostname hypervisor_hostname]. rewrite Hd.
    unfold log. cbn [trace heap vm_hostname hypervisor_hostname].
    by rewrite <- !app_assoc. }
  split; [|split; [|split]]; try intros force; apply H.
Qed.

(** The world in which the hypervisor does not know the VM. *)
Lemma lifecycle_refuses_undefined_vm_witness :
  vm_stop {| ask_unit := fun _ _ => Ok tt; ask_bool := fun _ _ => Ok false;
             ask_int := fun _ _ => Ok 0; ask_str := fun _ _ => Ok "hv1.example" |}
    "vm1.example" true fresh
  = (State (trace fresh ++
              [ Call (Construct "vm1.example") (RStr "hv1.example");
                Call (HvVmDefined "vm1.example") (RBool false);
                Raised (InvalidStateError
                          ("vm1.example" +:+ " is not built yet or is not actually running on "
                           +:+ "hv1.example")) ]) (heap fresh),
     Raise (InvalidStateError
              ("vm1.example" +:+ " is not built yet or is not actually running on "
               +:+ "hv1.example"))).
Proof.
  apply (proj1 (lifecycle_refuses_undefined_vm
                  {| ask_unit := fun _ _ => Ok tt; ask_bool := fun _ _ => Ok false;
                     ask_int := fun _ _ => Ok 0; ask_str := fun _ _ => Ok "hv1.example" |}
                  reported "vm1.example" "hv1.example" fresh eq_refl eq_refl) true).
Defined.

Lemma vm_stop_stops_as_asked_witness :
  exists new,
    trace (fst (vm_stop (world true) "vm1.example" true fresh)) = trace fresh ++ new /\
    steps new `prefix_of` stop_steps "vm1.example" true /\
    (steps new <> [] -> Call (IsRunning "vm1.example") (RBool true) ∈ new) /\
    clean (removelast new) = true /\
    (snd (vm_stop (world true) "vm1.example" true fresh) = Ok tt ->
     clean new = true /\
     ((Call (IsRunning "vm1.example") (RBool false) ∈ new /\ steps new = []) \/
      steps new = stop_steps "vm1.example" true)).
Proof.
  apply (vm_stop_stops_as_asked (world true) "vm1.example" true fresh).
  vm_compute. reflexivity.
Defined.

(** The VM is stopped by force and does not come up again. *)
Lemma vm_restart_stops_then_starts_witness :
  exists new,
    trace (fst (vm_restart (failing_with true start_fails) "vm1.example" true fresh))
      = trace fresh ++ new /\
    steps new `prefix_of` restart_steps "vm1.example" true /\
    clean (removelast new) = true /\
    (Call (IsRunning "vm1.example") (RBool false) ∈ new ->
     steps new = [] /\
     snd (vm_restart (failing_with true start_fails) "vm1.example" true fresh)
       = Raise (InvalidStateError ("vm1.example" +:+ " is not running"))) /\
    (snd (vm_restart (failing_with true start_fails) "vm1.example" true fresh) = Ok tt ->
     clean new = true /\ steps new = restart_steps "vm1.example" true).
Proof.
  apply (vm_restart_stops_then_starts (failing_with true start_fails) "vm1.example" true fresh).
  vm_compute. reflexivity.
Defined.

(** The storage cannot be destroyed: the VM is undefined, its state in
    the inventory is as it was. *)
Lemma vm_delete_retires_last_witness :
  exists new,
    trace (fst (vm_delete (failing_with false destroy_fails) "vm1.example" fresh))
      = trace fresh ++ new /\
    steps new `prefix_of` delete_steps "vm1.example" /\
    clean (removelast new) = true /\
    (Call (IsRunning "vm1.example") (RBool true) ∈ new ->
     steps new = [] /\
     heap (fst (vm_delete (failing_with false destroy_fails) "vm1.example" fresh))
       = heap fresh /\
     snd (vm_delete (failing_with false destroy_fails) "vm1.example" fresh)
       = Raise (InvalidStateError
                  ("vm1.example" +:+ " is still running. Please stop it first."))) /\
    (heap (fst (vm_delete (failing_with false destroy_fails) "vm1.example" fresh))
       = heap fresh \/
     (heap (fst (vm_delete (failing_with false destroy_fails) "vm1.example" fresh))
        = <["state" := VStr "retired"]> (heap fresh) /\
      Call (UndefineVm "vm1.example") RUnit ∈ new /\
      Call (DestroyVmStorage "vm1.example") RUnit ∈ new)) /\
    (snd (vm_delete (failing_with false destroy_fails) "vm1.example" fresh) = Ok tt ->
     clean new = true /\ steps new = delete_steps "vm1.example" /\
     heap (fst (vm_delete (failing_with false destroy_fails) "vm1.example" fresh))
       = <["state" := VStr "retired"]> (heap fresh)).
Proof.
  apply (vm_delete_retires_last (failing_with false destroy_fails) "vm1.example" fresh).
  vm_compute. reflexivity.
Defined.

Example failed_destroy_keeps_state :
  steps (trace (fst (vm_delete (failing_with false destroy_fails) "vm1.example" fresh)))
    = [ UndefineVm "vm1.example"; DestroyVmStorage "vm1.example" ] /\
  heap (fst (vm_delete (failing_with false destroy_fails) "vm1.example" fresh)) !! "state"
    = Some (VStr "online") /\
  heap (fst (vm_delete (world false) "vm1.example" fresh)) !! "state"
    = Some (VStr "retired").
Proof. repeat split; vm_compute; reflexivity. Qed.

Lemma vm_sync_brings_inventory_in_line_witness :
  exists s' new,
    vm_sync (world true) reported "vm1.example" fresh = (s', Ok tt) /\
    trace s' = trace fresh ++ new /\ clean new = true /\
    heap s' !! "memory" = Some (VInt 4096) /\
    heap s' !! "num_cpu" = Some (VInt 2) /\
    heap s' !! "state" = heap fresh !! "state".
Proof.
  destruct (vm_sync_brings_inventory_in_line (world true) reported "vm1.example"
              "hv1.example"
              [ ("memory", VInt 4096); ("disk_size_gib", VInt 6); ("num_cpu", VInt 2) ]
              fresh (fun _ => eq_refl) (fun _ => eq_refl) (fun _ => eq_refl) eq_refl)
    as (s' & new & E & T & C & Hin & Hout & _).
  - apply (bool_decide_unpack _). vm_compute. exact I.
  - exists s', new. split; [exact E|]. split; [exact T|]. split; [exact C|].
    split; [apply Hin; repeat first [apply list_elem_of_here | apply list_elem_of_further]|].
    split; [apply Hin; repeat first [apply list_elem_of_here | apply list_elem_of_further]|].
    apply Hout. apply (bool_decide_unpack _). vm_compute. exact I.
Defined.

Example vm_sync_sample :
  calls (trace (fst (vm_sync (world true) reported "vm1.example" fresh)))
  = [ Construct "vm1.example"; HvVmDefined "vm1.example";
      SyncFromHypervisor "vm1.example"; LogInfo "memory: 2048 -> 4096";
      LogInfo "disk_size_gib: 6"; LogInfo "num_cpu: None -> 2";
      Commit "vm1.example";
      LogInfo "vm1.example: Synchronized 2 attributes (memory, num_cpu)." ].
Proof. vm_compute. reflexivity. Qed.

End LifecycleFacts.

(** ** igvm/balance/models.py: further properties of the models *)

Module BalanceMore.

Import Eff Balance BalanceSample Fleet EffFacts EffRaise.

Local Open Scope float_scope.

Section More.
Variable env : Balance.Env.
Variable sc_get : string -> res record.
Variable sc_query : string -> string -> list record.

(** X15.  The attributes of a host are fetched at most once per object.
    A read that returns leaves the record cached on the object and the
    caches of the other objects as they were; it made no call when the
    record was cached and one [sc.get] when it was not; a read of the
    same object after it returns the same record without a call.  A
    read that raises has passed on what [sc.get] raised and has cached
    nothing, so that the next read asks again. *)
Theorem serveradmin_data_is_fetched_once (self : Host) (s s' : Balance.state)
    (r : res record) :
  serveradmin_data sc_get self s = (s', r) ->
  match r with
  | Ok d =>
      heap s' !! oid self = Some d /\
      (forall o, o <> oid self -> heap s' !! o = heap s !! o) /\
      ((heap s !! oid self = Some d /\ s' = s) \/
       (heap s !! oid self = None /\ sc_get (hostname self) = Ok d /\
        trace s' = trace s ++ [Noted (ScGet (hostname self))])) /\
      serveradmin_data sc_get self s' = (s', Ok d)
  | Raise e =>
      heap s' = heap s /\ heap s !! oid self = None /\ sc_get (hostname self) = Raise e
  end.
Proof.
  unfold serveradmin_data at 1. unfold bind at 1. unfold get_heap at 1.
  destruct (heap s !! oid self) as [d|] eqn:L.
  - intros [= <- <-]. split; [done|]. split; [done|]. split; [by left|].
    unfold serveradmin_data, bind, get_heap. by rewrite L.
  - unfold bind, note. destruct (sc_get (hostname self)) as [d|e] eqn:G; cbn [log trace heap].
    + intros [= <- <-]. cbn [heap trace].
      split; [apply lookup_insert_eq|]. split; [intros o Ho; by rewrite lookup_insert_ne|].
      split; [by right|].
      unfold serveradmin_data, bind, get_heap. cbn [heap]. by rewrite lookup_insert_eq.
    + by intros [= <- <-].
Qed.

(** X16.  Without [fast], [get_disk_free] asks the hypervisor and not
    the inventory: in every run its calls are a beginning of opening
    the connection, asking for the free disk and closing the
    connection, and no call is made after one that failed, so that a
    failed query leaves the connection open.  A run that returns has
    made all three and returns the answer times 1024. *)
Theorem get_disk_free_slow_path (self : Host) (s s' : Balance.state) (r : res float) :
  get_disk_free env sc_get sc_query self false s = (s', r) ->
  exists new fqdn,
    trace s' = trace s ++ new /\ heap s' = heap s /\
    Balance.calls new `prefix_of` slow_disk_calls (hostname self) fqdn /\
    Fleet.clean (removelast new) = true /\
    (forall x, r = Ok x ->
     Fleet.clean new = true /\
     Balance.calls new = slow_disk_calls (hostname self) fqdn /\
     exists gib,
       Call (KvmFreeDiskSizeGib (hostname self)) (RInt gib) ∈ new /\
       x = float_of_int gib * 1024).
Proof.
  unfold get_disk_free, bind, call_str, call_int, call_unit, ret.
  destruct (ask_str env _ _) as [fqdn|]; cbn [log trace heap].
  2:{ intros [= <- <-]. eexists [_], EmptyString. split; [done|]. split; [done|].
      split; [by eexists|]. by split. }
  destruct (ask_int env _ _) as [gib|]; cbn [log trace heap].
  2:{ intros [= <- <-]. unfold log; cbn [trace heap]. rewrite <- app_assoc.
      eexists [_; _], EmptyString. split; [done|]. split; [done|].
      split; [by eexists|]. by split. }
  destruct (ask_unit env _ _); cbn [log trace heap]; intros [= <- <-];
    unfold log; cbn [trace heap]; rewrite <- !app_assoc;
    eexists [_; _; _], fqdn; (split; [reflexivity|]); (split; [done|]);
    (split; [by eexists|]); (split; [done|]); [|done].
  intros x [= <-]. split; [done|]. split; [done|]. exists gib. split; [|done].
  apply list_elem_of_further, list_elem_of_here.
Qed.

End More.

(** X17.  Two [Host] objects are equal when their hostnames are, whatever
    objects they are: [__eq__] gives [True] for a host of the same
    hostname, [None], which counts as false, for a host of another
    hostname, and [False] for anything that is no host.  Being equal is
    reflexive, symmetric and transitive, and equal hosts have equal
    hashes. *)
Theorem host_equality_by_hostname (hash : string -> Z) (a b c : Host) (repr : string) :
  (truthy (Host_eq a (AHost b)) = true <-> hostname a = hostname b) /\
  (hostname a <> hostname b -> Host_eq a (AHost b) = None) /\
  Host_eq a (Another repr) = Some false /\
  truthy (Host_eq a (AHost a)) = true /\
  truthy (Host_eq a (AHost b)) = truthy (Host_eq b (AHost a)) /\
  (truthy (Host_eq a (AHost b)) = true -> truthy (Host_eq b (AHost c)) = true ->
   truthy (Host_eq a (AHost c)) = true) /\
  (truthy (Host_eq a (AHost b)) = true -> Host_hash hash a = Host_hash hash b).
Proof.
  assert (forall x y, truthy (Host_eq x (AHost y)) = true <-> hostname x = hostname y) as H.
  { intros x y. unfold Host_eq, truthy.
    destruct (String.eqb_spec (hostname x) (hostname y)); split; done. }
  split; [apply H|]. split.
  { intros Hne. unfold Host_eq. by destruct (String.eqb_spec (hostname a) (hostname b)). }
  split; [done|]. split; [by apply H|]. split.
  { unfold Host_eq, truthy. rewrite (String.eqb_sym (hostname b)).
    by destruct (String.eqb (hostname a) (hostname b)). }
  split.
  { rewrite !H. congruence. }
  rewrite H. unfold Host_hash. by intros ->.
Qed.

Lemma host_equality_by_hostname_witness :
  truthy (Host_eq hypervisor1 (AHost {| oid := 7; hostname := "hv1.example" |})) = true /\
  Host_eq hypervisor1 (AHost hypervisor9) = None.
Proof.
  destruct (host_equality_by_hostname (fun _ => 0%Z) hypervisor1
              {| oid := 7; hostname := "hv1.example" |} hypervisor1 EmptyString)
    as (H1 & _).
  destruct (host_equality_by_hostname (fun _ => 0%Z) hypervisor1 hypervisor9 hypervisor1
              EmptyString) as (_ & H2 & _).
  split; [apply H1; reflexivity|apply H2; vm_compute; discriminate].
Defined.

Lemma serveradmin_data_is_fetched_once_witness :
  heap (fst (serveradmin_data (inventory_get inventory) hypervisor1 BalanceSample.fresh))
    !! oid hypervisor1 = inventory !! 0%nat /\
  serveradmin_data (inventory_get inventory) hypervisor1
    (fst (serveradmin_data (inventory_get inventory) hypervisor1 BalanceSample.fresh))
  = (fst (serveradmin_data (inventory_get inventory) hypervisor1 BalanceSample.fresh),
     snd (serveradmin_data (inventory_get inventory) hypervisor1 BalanceSample.fresh)).
Proof.
  pose proof (serveradmin_data_is_fetched_once (inventory_get inventory) hypervisor1
                BalanceSample.fresh
                (fst (serveradmin_data (inventory_get inventory) hypervisor1
                        BalanceSample.fresh))
                (snd (serveradmin_data (inventory_get inventory) hypervisor1
                        BalanceSample.fresh))
                ltac:(vm_compute; reflexivity)) as H.
  change (snd (serveradmin_data (inventory_get inventory) hypervisor1 BalanceSample.fresh))
    with (Ok {| r_hostname := "hv1.example"; r_servertype := "hypervisor";
                r_xen_host := EmptyString; r_memory := 65536; r_num_cpu := 32;
                r_disk_size_gib := 1000 |} : res record) in H |- *.
  cbv beta iota in H. destruct H as (H1 & _ & _ & H4). split; [exact H1|exact H4].
Defined.

Lemma get_disk_free_slow_path_witness :
  exists new fqdn,
    trace (fst (get_disk_free disk_query_fails (inventory_get inventory)
                  (inventory_query inventory) hypervisor1 false BalanceSample.fresh))
      = trace BalanceSample.fresh ++ new /\
    Balance.calls new `prefix_of` slow_disk_calls "hv1.example" fqdn /\
    Fleet.clean (removelast new) = true.
Proof.
  destruct (get_disk_free_slow_path disk_query_fails (inventory_get inventory)
              (inventory_query inventory) hypervisor1 BalanceSample.fresh
              (fst (get_disk_free disk_query_fails (inventory_get inventory)
                      (inventory_query inventory) hypervisor1 false BalanceSample.fresh))
              (snd (get_disk_free disk_query_fails (inventory_get inventory)
                      (inventory_query inventory) hypervisor1 false BalanceSample.fresh))
              ltac:(vm_compute; reflexivity))
    as (new & fqdn & T & _ & P & C & _).
  by exists new, fqdn.
Defined.

Example failed_query_leaves_connection_open :
  Balance.calls (trace (fst (get_disk_free disk_query_fails (inventory_get inventory)
                               (inventory_query inventory) hypervisor1 false
                               BalanceSample.fresh)))
  = [ KvmConnect "hv1.example"; KvmFreeDiskSizeGib "hv1.example" ].
Proof. vm_compute. reflexivity. Qed.

End BalanceMore.

(** ** igvm/balance/models.py: the VMs of a hypervisor *)

Module FleetFacts.

Import Eff Balance BalanceSample Fleet EffFacts EffRaise.

Local Open Scope float_scope.

Lemma state_eta (s : Fleet.state) :
  State (trace s) (Heap (data (heap s)) (vms (heap s)) (next (heap s))) = s.
Proof. by destruct s as [t []]. Qed.

Lemma state_eta_heap (h : Fleet.heap_t) : Heap (data h) (vms h) (next h) = h.
Proof. by destruct h. Qed.

Section Objects.
Variable env : Fleet.Env.
Variable sc_get : string -> res record.
Variable sc_query : string -> string -> res (list record).

Lemma getitem_cached (v : Host) (s : Fleet.state) d :
  data (heap s) !! oid v = Some d -> getitem sc_get v s = (s, Ok d).
Proof.
  intros L. unfold getitem, zoom, serveradmin_data, bind, get_heap. cbn [heap trace].
  rewrite L. cbn [ret trace heap]. by rewrite state_eta.
Qed.

Lemma getitem_fetch (v : Host) (s : Fleet.state) d :
  data (heap s) !! oid v = None -> sc_get (hostname v) = Ok d ->
  getitem sc_get v s =
    (State (trace s ++ [Noted (ScGet (hostname v))])
       (Heap (<[oid v := d]> (data (heap s))) (vms (heap s)) (next (heap s))), Ok d).
Proof.
  intros L G. unfold getitem, zoom, serveradmin_data, bind, get_heap, note. cbn [heap trace].
  rewrite L, G. reflexivity.
Qed.

(** The loop of [get_vms] makes the objects and nothing else. *)
Lemma append_vms_run (self : Host) (qs : list record) (s : Fleet.state) (l : list Host) :
  fresh_from_next (heap s) -> (oid self < next (heap s))%nat ->
  vms (heap s) !! oid self = Some l ->
  append_vms self qs s =
    (State (trace s)
       (Heap (data (heap s))
          (<[oid self := l ++ objects_from (next (heap s)) qs]> (vms (heap s)))
          (next (heap s) + length qs)), Ok tt).
Proof.
  revert s l. induction qs as [|q qs IH]; intros s l Hf Ho Hl.
  - cbn. rewrite app_nil_r, insert_id by done. rewrite Nat.add_0_r. by rewrite state_eta.
  - cbn [append_vms]. unfold bind at 1. unfold new_vm, bind, get_heap, set_heap, ret.
    cbn [heap trace data vms next]. rewrite Hl. cbn [default].
    rewrite IH with (l := l ++ [{| oid := next (heap s); hostname := r_hostname q |}]).
    + cbn [heap trace data vms next objects_from length].
      rewrite insert_insert_eq.
      rewrite delete_id by apply Hf, le_n.
      rewrite Nat.add_succ_r. cbn [Nat.add].
      replace ((l ++ [{| oid := next (heap s); hostname := r_hostname q |}])
               ++ objects_from (S (next (heap s))) qs)
        with (l ++ {| oid := next (heap s); hostname := r_hostname q |}
                :: objects_from (S (next (heap s))) qs)
        by (by rewrite <- List.app_assoc).
      reflexivity.
    + intros o Hle. cbn [heap data vms next] in *. destruct (Hf o ltac:(lia)) as [H1 H2].
      split; [by rewrite lookup_delete_ne by lia|]. rewrite lookup_insert_ne by lia. done.
    + cbn [heap next]. lia.
    + cbn [heap vms]. apply lookup_insert_eq.
Qed.

Lemma objects_from_hostnames n (qs : list record) :
  hostname <$> objects_from n qs = r_hostname <$> qs.
Proof. revert n. induction qs as [|q qs IH]; intros n; [done|]. cbn. by rewrite IH. Qed.

Lemma objects_from_oids n (qs : list record) :
  oid <$> objects_from n qs = seq n (length qs).
Proof. revert n. induction qs as [|q qs IH]; intros n; [done|]. cbn. by rewrite IH. Qed.

(** X22.  The getters of a host share one fetch: on an object that has
    fetched nothing, [get_memory], [get_cpus] and [get_disk_size] one
    after the other make a single [sc.get] between them and return the
    memory, the number of CPUs and the disk size times 1024 of the
    record it gave.  When [sc.get] raises, the first getter raises the
    same and nothing is cached. *)
Theorem getters_share_one_fetch (self : Host) (s : Fleet.state) :
  data (heap s) !! oid self = None ->
  (forall d, sc_get (hostname self) = Ok d ->
     (m <- get_memory sc_get self ;; c <- get_cpus sc_get self ;;
      g <- get_disk_size sc_get self ;; ret (m, c, g)) s
     = (State (trace s ++ [Noted (ScGet (hostname self))])
          (Heap (<[oid self := d]> (data (heap s))) (vms (heap s)) (next (heap s))),
        Ok (r_memory d, r_num_cpu d, (r_disk_size_gib d * 1024)%Z))) /\
  (forall e, sc_get (hostname self) = Raise e ->
     get_memory sc_get self s
     = (State (trace s ++ [Noted (ScGet (hostname self)); Raised e]) (heap s), Raise e)).
Proof.
  intros L. split.
  - intros d G. unfold get_memory, get_cpus, get_disk_size, bind at 1 2.
    rewrite (getitem_fetch self s d L G). cbn [ret]. unfold bind at 1 2.
    rewrite (getitem_cached self _ d) by (cbn [heap data]; apply lookup_insert_eq).
    cbn [ret]. unfold bind at 1 2.
    rewrite (getitem_cached self _ d) by (cbn [heap data]; apply lookup_insert_eq).
    reflexivity.
  - intros e G. unfold get_memory, getitem, zoom, serveradmin_data, bind, get_heap, note, raise.
    cbn [heap trace]. rewrite L, G. unfold log. cbn [trace heap].
    rewrite <- app_assoc. by rewrite state_eta_heap.
Qed.

Lemma get_vms_cached (self : Host) (s : Fleet.state) l :
  vms (heap s) !! oid self = Some l -> get_vms sc_query self s = (s, Ok l).
Proof. intros L. unfold get_vms, bind, get_heap. by rewrite L. Qed.

(** The first [get_vms] of a hypervisor object, with a query that
    answers and with one that raises. *)
Lemma get_vms_first (self : Host) (s : Fleet.state) :
  fresh_from_next (heap s) -> (oid self < next (heap s))%nat ->
  vms (heap s) !! oid self = None ->
  (forall qs, sc_query "vm" (hostname self) = Ok qs ->
     let l := objects_from (next (heap s)) qs in
     exists s',
       get_vms sc_query self s = (s', Ok l) /\
       trace s' = trace s ++ [Noted (ScQuery "vm" (hostname self))] /\
       hostname <$> l = r_hostname <$> qs /\
       oid <$> l = seq (next (heap s)) (length qs) /\
       data (heap s') = data (heap s) /\
       next (heap s') = (next (heap s) + length qs)%nat /\
       vms (heap s') !! oid self = Some l /\
       get_vms sc_query self s' = (s', Ok l)) /\
  (forall e, sc_query "vm" (hostname self) = Raise e ->
     exists s',
       get_vms sc_query self s = (s', Raise e) /\
       trace s' = trace s ++ [Noted (ScQuery "vm" (hostname self)); Raised e] /\
       get_vms sc_query self s' = (s', Ok [])).
Proof.
  intros Hf Ho Hnone. split.
  - intros qs Hq l. unfold get_vms at 1. unfold bind at 1. unfold get_heap at 1.
    rewrite Hnone. unfold bind at 1. unfold set_heap at 1. unfold bind at 1.
    unfold note at 1. unfold bind at 1. rewrite Hq. unfold lift, ret at 1.
    unfold bind at 1. rewrite append_vms_run with (l := []).
    + cbn [log trace heap data vms next app]. unfold bind, get_heap, ret.
      cbn [heap vms]. rewrite insert_insert_eq, lookup_insert_eq. cbn [default].
      eexists. split; [reflexivity|]. cbn [trace heap data next].
      split; [done|]. split; [apply objects_from_hostnames|].
      split; [apply objects_from_oids|]. split; [done|]. split; [done|].
      split; [apply lookup_insert_eq|].
      apply get_vms_cached. cbn [heap vms]. apply lookup_insert_eq.
    + intros o Hle. cbn [log heap data vms next] in *. destruct (Hf o Hle) as [H1 H2].
      split; [done|]. by rewrite lookup_insert_ne by lia.
    + done.
    + cbn [log heap vms]. apply lookup_insert_eq.
  - intros e Hq. unfold get_vms at 1. unfold bind at 1. unfold get_heap at 1.
    rewrite Hnone. unfold bind at 1. unfold set_heap at 1. unfold bind at 1.
    unfold note at 1. unfold bind at 1. rewrite Hq. unfold lift, raise.
    cbn [log trace heap]. eexists. split; [reflexivity|]. cbn [trace].
    split; [unfold log; cbn [trace]; by rewrite <- ?app_assoc|].
    unfold get_vms, bind, get_heap. cbn [log heap vms]. by rewrite lookup_insert_eq.
Qed.

(** X18.  A hypervisor asks for its VMs once.  The first [get_vms] makes
    one [sc.query] and builds one new object per record, in the order
    of the records and with their hostnames, none of them with
    attributes fetched; it caches the list, and every [get_vms] after
    it returns that list without a call.  The list is set to empty
    before the query is made: when the query raises, the exception
    leaves [get_vms], and every later [get_vms] returns the empty list
    without asking again. *)
Theorem get_vms_asks_once (self : Host) (s : Fleet.state) :
  fresh_from_next (heap s) -> (oid self < next (heap s))%nat ->
  vms (heap s) !! oid self = None ->
  (forall qs, sc_query "vm" (hostname self) = Ok qs ->
     let l := objects_from (next (heap s)) qs in
     exists s',
       get_vms sc_query self s = (s', Ok l) /\
       trace s' = trace s ++ [Noted (ScQuery "vm" (hostname self))] /\
       hostname <$> l = r_hostname <$> qs /\
       oid <$> l = seq (next (heap s)) (length qs) /\
       data (heap s') = data (heap s) /\
       next (heap s') = (next (heap s) + length qs)%nat /\
       vms (heap s') !! oid self = Some l /\
       get_vms sc_query self s' = (s', Ok l)) /\
  (forall e, sc_query "vm" (hostname self) = Raise e ->
     exists s',
       get_vms sc_query self s = (s', Raise e) /\
       trace s' = trace s ++ [Noted (ScQuery "vm" (hostname self)); Raised e] /\
       get_vms sc_query self s' = (s', Ok [])).
Proof. apply get_vms_first. Qed.

Lemma fetched_lookup_lt n (ds : list record) (m : gmap nat record) o :
  (o < n)%nat -> fetched n ds m !! o = m !! o.
Proof.
  revert n m. induction ds as [|d ds IH]; intros n m Ho; [done|].
  cbn [fetched]. rewrite IH by lia. by rewrite lookup_insert_ne by lia.
Qed.

Lemma fetched_lookup n (ds : list record) (m : gmap nat record) i d :
  ds !! i = Some d -> fetched n ds m !! (n + i)%nat = Some d.
Proof.
  revert n m i. induction ds as [|d' ds IH]; intros n m i; [done|].
  destruct i as [|i]; cbn [fetched].
  - intros [= ->]. rewrite Nat.add_0_r, fetched_lookup_lt by lia. apply lookup_insert_eq.
  - intros Hi. rewrite Nat.add_succ_r. by apply (IH (S n)).
Qed.

(** The attributes of objects fresh from [get_vms] are fetched one by
    one. *)
Lemma memories_fetch (qs : list record) (ds : list record) n (s : Fleet.state) :
  Forall2 (fun q d => sc_get (r_hostname q) = Ok d) qs ds ->
  (forall o, (n <= o)%nat -> data (heap s) !! o = None) ->
  memories sc_get (objects_from n qs) s =
    (State (trace s ++ ((fun q => Noted (ScGet (r_hostname q))) <$> qs))
       (Heap (fetched n ds (data (heap s))) (vms (heap s)) (next (heap s))),
     Ok (r_memory <$> ds)).
Proof.
  intros H. revert n s. induction H as [|q d qs ds Hq _ IH]; intros n s Hn.
  - cbn. by rewrite app_nil_r, state_eta.
  - cbn [objects_from memories]. unfold bind at 1.
    rewrite (getitem_fetch _ _ d); [|cbn [oid]; by apply Hn|done].
    cbn [oid hostname]. unfold bind at 1. rewrite (IH (S n)).
    + cbn [trace heap data vms next fmap list_fmap fetched ret].
      by rewrite <- app_assoc.
    + intros o Ho. cbn [heap data]. rewrite lookup_insert_ne by lia. apply Hn. lia.
Qed.

Lemma memories_cached (qs : list record) (ds : list record) n (s : Fleet.state) :
  length qs = length ds ->
  (forall i d, ds !! i = Some d -> data (heap s) !! (n + i)%nat = Some d) ->
  memories sc_get (objects_from n qs) s = (s, Ok (r_memory <$> ds)).
Proof.
  revert ds n. induction qs as [|q qs IH]; intros [|d ds] n Hlen Hc; try done.
  cbn [objects_from memories]. unfold bind at 1.
  rewrite (getitem_cached _ _ d).
  - unfold bind. rewrite (IH ds (S n)); [done|by injection Hlen|].
    intros i d' Hi. replace (S n + i)%nat with (n + S i)%nat by lia. by apply (Hc (S i)).
  - cbn [oid]. rewrite <- (Nat.add_0_r n). by apply (Hc 0%nat).
Qed.

(** X19.  With [fast] set, [get_memory_free] asks the inventory only:
    for a hypervisor object that has fetched nothing yet, one
    [sc.query] for its VMs, then one [sc.get] per VM, in the order of
    the query, then one [sc.get] for itself.  It returns the memory of
    the hypervisor minus the sum of the memory that [sc.get] gives for
    the VMs, in double precision.  Everything it fetched is cached: a
    second call returns the same without any call. *)
Theorem get_memory_free_fast (self : Host) (s : Fleet.state) (qs ds : list record)
    (d : record) :
  fresh_from_next (heap s) -> (oid self < next (heap s))%nat ->
  vms (heap s) !! oid self = None -> data (heap s) !! oid self = None ->
  sc_query "vm" (hostname self) = Ok qs ->
  Forall2 (fun q d => sc_get (r_hostname q) = Ok d) qs ds ->
  sc_get (hostname self) = Ok d ->
  let free := float_of_int (r_memory d) - float_of_int (sum (r_memory <$> ds)) in
  exists s' new,
    get_memory_free env sc_get sc_query self true s = (s', Ok free) /\
    trace s' = trace s ++ new /\
    Balance.calls new =
      ScQuery "vm" (hostname self) :: ((fun q => ScGet (r_hostname q)) <$> qs)
      ++ [ScGet (hostname self)] /\
    get_memory_free env sc_get sc_query self true s' = (s', Ok free).
Proof.
  intros Hf Ho Hv Hd Hq Hds Hself free.
  destruct (get_vms_first self s Hf Ho Hv) as [Hvms _].
  destruct (Hvms qs Hq) as (s1 & E1 & T1 & _ & _ & D1 & N1 & V1 & _).
  assert (forall o, (next (heap s) <= o)%nat -> data (heap s1) !! o = None) as Hfresh.
  { intros o Hle. rewrite D1. by apply Hf. }
  pose proof (memories_fetch qs ds (next (heap s)) s1 Hds Hfresh) as E2.
  set (s2 := State (trace s1 ++ ((fun q => Noted (ScGet (r_hostname q))) <$> qs))
               (Heap (fetched (next (heap s)) ds (data (heap s1))) (vms (heap s1))
                  (next (heap s1)))) in *.
  assert (data (heap s2) !! oid self = None) as Hd2.
  { cbn [s2 heap data]. rewrite fetched_lookup_lt by done. by rewrite D1. }
  pose proof (getitem_fetch self s2 d Hd2 Hself) as E3.
  set (s3 := State (trace s2 ++ [Noted (ScGet (hostname self))])
               (Heap (<[oid self := d]> (data (heap s2))) (vms (heap s2)) (next (heap s2))))
    in *.
  exists s3, (Noted (ScQuery "vm" (hostname self))
              :: ((fun q => Noted (ScGet (r_hostname q))) <$> qs)
              ++ [Noted (ScGet (hostname self))]).
  split; [|split; [|split]].
  - unfold get_memory_free, bind. rewrite E1, E2, E3. reflexivity.
  - cbn [s3 s2 trace]. rewrite T1, <- !app_assoc. reflexivity.
  - unfold Balance.calls. cbn [omap list_omap action_of]. f_equal.
    rewrite omap_app. cbn [omap list_omap action_of]. f_equal.
    clear. induction qs as [|q qs IH]; [done|]. cbn. by rewrite IH.
  - unfold get_memory_free, bind.
    rewrite (get_vms_cached self s3 (objects_from (next (heap s)) qs)) by exact V1.
    rewrite (memories_cached qs ds (next (heap s)) s3).
    + rewrite (getitem_cached self s3 d); [done|]. cbn [s3 heap data]. apply lookup_insert_eq.
    + by apply Forall2_length in Hds.
    + intros i d' Hi. cbn [s3 s2 heap data]. rewrite lookup_insert_ne by lia.
      by apply fetched_lookup.
Qed.


End Objects.

Lemma fresh_is_fresh : fresh_from_next (heap Fleet.fresh).
Proof. intros o _. split; apply lookup_empty. Qed.

Lemma getters_share_one_fetch_witness :
  (m <- get_memory sample_get hypervisor1 ;; c <- get_cpus sample_get hypervisor1 ;;
   g <- get_disk_size sample_get hypervisor1 ;; ret (m, c, g)) Fleet.fresh
  = (State (trace Fleet.fresh ++ [Noted (ScGet "hv1.example")])
       (Heap (<[1%nat := {| r_hostname := "hv1.example"; r_servertype := "hypervisor";
                            r_xen_host := EmptyString; r_memory := 65536; r_num_cpu := 32;
                            r_disk_size_gib := 1000 |}]> (data (heap Fleet.fresh)))
          (vms (heap Fleet.fresh)) (next (heap Fleet.fresh))),
     Ok (65536, 32, 1024000)%Z).
Proof.
  apply (proj1 (getters_share_one_fetch sample_get hypervisor1 Fleet.fresh eq_refl)
           {| r_hostname := "hv1.example"; r_servertype := "hypervisor";
              r_xen_host := EmptyString; r_memory := 65536; r_num_cpu := 32;
              r_disk_size_gib := 1000 |}).
  reflexivity.
Defined.

Lemma get_vms_asks_once_witness :
  exists s',
    get_vms sample_query hypervisor1 Fleet.fresh
      = (s', Ok [ {| oid := 3; hostname := "vm1.example" |};
                  {| oid := 4; hostname := "vm2.example" |} ]) /\
    trace s' = trace Fleet.fresh ++ [Noted (ScQuery "vm" "hv1.example")] /\
    get_vms sample_query hypervisor1 s'
      = (s', Ok [ {| oid := 3; hostname := "vm1.example" |};
                  {| oid := 4; hostname := "vm2.example" |} ]).
Proof.
  destruct (proj1 (get_vms_asks_once sample_query hypervisor1 Fleet.fresh fresh_is_fresh
                     ltac:(vm_compute; lia) eq_refl)
              (inventory_query inventory "vm" "hv1.example") eq_refl)
    as (s' & E & T & _ & _ & _ & _ & _ & E').
  exists s'. split; [exact E|]. split; [exact T|exact E'].
Defined.

(** The query fails once: from then on the hypervisor has no VMs. *)
Example failed_query_leaves_no_vms :
  snd (get_vms sample_query hypervisor9 Fleet.fresh)
    = Raise (Exn "ApiError" "inventory unreachable") /\
  get_vms sample_query hypervisor9 (fst (get_vms sample_query hypervisor9 Fleet.fresh))
    = (fst (get_vms sample_query hypervisor9 Fleet.fresh), Ok []).
Proof. split; vm_compute; reflexivity. Qed.

Lemma get_memory_free_fast_witness :
  exists s' new,
    get_memory_free unreachable sample_get sample_query hypervisor1 true Fleet.fresh
      = (s', Ok (float_of_int 65536 - float_of_int (sum [2048; 4096]%Z))%float) /\
    trace s' = trace Fleet.fresh ++ new /\
    Balance.calls new =
      [ ScQuery "vm" "hv1.example"; ScGet "vm1.example"; ScGet "vm2.example";
        ScGet "hv1.example" ] /\
    get_memory_free unreachable sample_get sample_query hypervisor1 true s'
      = (s', Ok (float_of_int 65536 - float_of_int (sum [2048; 4096]%Z))%float).
Proof.
  apply (get_memory_free_fast unreachable sample_get sample_query hypervisor1 Fleet.fresh
           (inventory_query inventory "vm" "hv1.example")
           (inventory_query inventory "vm" "hv1.example")
           {| r_hostname := "hv1.example"; r_servertype := "hypervisor";
              r_xen_host := EmptyString; r_memory := 65536; r_num_cpu := 32;
              r_disk_size_gib := 1000 |} fresh_is_fresh ltac:(vm_compute; lia)
           eq_refl eq_refl eq_refl).
  - repeat constructor.
  - reflexivity.
Defined.

End FleetFacts.

(** ** Python strings and integers: printing and reading back *)

Module PyRoundTrip.

Import PyFacts PyText.

Lemma digit_cases d : 0 <= d < 10 ->
  d = 0 \/ d = 1 \/ d = 2 \/ d = 3 \/ d = 4 \/ d = 5 \/ d = 6 \/ d = 7 \/ d = 8 \/ d = 9.
Proof. lia. Qed.

Lemma digit_value_digit_char d : 0 <= d < 10 -> Py.digit_value 10 (Py.digit_char d) = Some d.
Proof.
  intros Hd. destruct (digit_cases d Hd) as [->|[->|[->|[->|[->|[->|[->|[->|[->| ->]]]]]]]]];
    reflexivity.
Qed.

Lemma digit_not_space c : is_digit c -> Py.is_space c = false.
Proof.
  intros (d & Hd & ->).
  destruct (digit_cases d Hd) as [->|[->|[->|[->|[->|[->|[->|[->|[->| ->]]]]]]]]];
    reflexivity.
Qed.

Lemma digits_all_digits fuel n acc :
  0 <= n -> all_digits acc -> all_digits (Py.digits fuel n acc).
Proof.
  revert n acc. induction fuel as [|fuel IH]; intros n acc Hn Hacc; [done|].
  cbn [Py.digits].
  assert (all_digits (String (Py.digit_char (n mod 10)) acc)) as H.
  { split; [|done]. exists (n mod 10). split; [|done]. apply Z.mod_pos_bound. lia. }
  destruct (n / 10 =? 0); [done|]. apply IH; [|done]. apply Z.div_pos; lia.
Qed.

Lemma digits_nonempty fuel n acc : Py.digits (S fuel) n acc <> EmptyString.
Proof.
  revert n acc. induction fuel as [|fuel IH]; intros n acc.
  - cbn. by destruct (n / 10 =? 0).
  - cbn [Py.digits]. destruct (n / 10 =? 0); [done|]. apply IH.
Qed.

(** Reading the digits that [digits] printed gives the number back,
    behind whatever was read before. *)
Lemma parse_digits_digits fuel n acc :
  0 <= n < 2 ^ Z.of_nat fuel ->
  exists p, 0 < p /\
    forall a, Py.parse_digits 10 a (Py.digits fuel n acc) = Py.parse_digits 10 (a * p + n) acc.
Proof.
  revert n acc. induction fuel as [|fuel IH]; intros n acc Hn.
  - exists 1. split; [lia|]. intros a. cbn in *. f_equal. lia.
  - cbn [Py.digits]. destruct (n / 10 =? 0) eqn:E.
    + apply Z.eqb_eq in E. assert (0 <= n < 10) as Hs.
      { split; [lia|]. apply Z.div_small_iff in E; lia. }
      exists 10. split; [lia|]. intros a. cbn [Py.parse_digits].
      rewrite Z.mod_small by lia. by rewrite digit_value_digit_char.
    + apply Z.eqb_neq in E.
      destruct (IH (n / 10) (String (Py.digit_char (n mod 10)) acc)) as (p & Hp & H).
      { split; [apply Z.div_pos; lia|]. rewrite Nat2Z.inj_succ, Z.pow_succ_r in Hn by lia.
        apply Z.div_lt_upper_bound; lia. }
      exists (10 * p). split; [lia|]. intros a. rewrite H. cbn [Py.parse_digits].
      rewrite digit_value_digit_char by (apply Z.mod_pos_bound; lia).
      f_equal. pose proof (Z.div_mod n 10 ltac:(lia)). lia.
Qed.

Lemma fuel_suffices n : 0 <= n -> 0 <= n < 2 ^ Z.of_nat (S (Z.to_nat (Z.log2 n))).
Proof.
  intros Hn. split; [done|]. rewrite Nat2Z.inj_succ, Z2Nat.id by apply Z.log2_nonneg.
  destruct (Z.eq_dec n 0) as [->|Hne]; [done|]. apply Z.log2_spec. lia.
Qed.

(** Blanks on either side are stripped. *)
Lemma rstrip_spaces pad : blank pad = true -> Py.rstrip pad = EmptyString.
Proof.
  induction pad as [|c pad IH]; [done|]. cbn [blank]. intros [Hc Hp]%andb_prop. cbn [Py.rstrip].
  by rewrite (IH Hp), Hc.
Qed.

Lemma rstrip_digits_spaces t pad :
  all_digits t -> blank pad = true -> Py.rstrip (t +:+ pad) = t.
Proof.
  intros Ht Hp. induction t as [|c t IH].
  - by apply rstrip_spaces.
  - destruct Ht as [Hc Ht].
    change (String c t +:+ pad) with (String c (t +:+ pad)). cbn [Py.rstrip].
    rewrite (IH Ht). destruct t; [|done]. by rewrite (digit_not_space c Hc).
Qed.

Lemma lstrip_spaces_digits pad t :
  blank pad = true -> all_digits t -> Py.lstrip (pad +:+ t) = t.
Proof.
  intros Hp Ht. induction pad as [|c pad IH].
  - change (EmptyString +:+ t) with t. destruct t as [|c t]; [done|].
    destruct Ht as [Hc _]. cbn [Py.lstrip]. by rewrite (digit_not_space c Hc).
  - cbn [blank] in Hp. apply andb_prop in Hp as [Hc Hp]. change (String c pad +:+ t) with (String c (pad +:+ t)).
    cbn [Py.lstrip]. rewrite Hc. by apply IH.
Qed.

Lemma strip_padded pad t pad' :
  blank pad = true -> all_digits t -> t <> EmptyString -> blank pad' = true ->
  Py.strip (pad +:+ t +:+ pad') = t.
Proof.
  intros Hp Ht Hne Hp'. unfold Py.strip.
  assert (Py.lstrip (pad +:+ t +:+ pad') = t +:+ pad') as ->.
  { induction pad as [|c pad IH].
    - change (EmptyString +:+ t +:+ pad') with (t +:+ pad'). destruct t as [|c t].
      + done.
      + destruct Ht as [Hc _]. change (String c t +:+ pad') with (String c (t +:+ pad')).
        cbn [Py.lstrip]. by rewrite (digit_not_space c Hc).
    - cbn [blank] in Hp. apply andb_prop in Hp as [Hc Hp].
      change (String c pad +:+ t +:+ pad') with (String c (pad +:+ t +:+ pad')).
      cbn [Py.lstrip]. rewrite Hc. by apply IH. }
  by apply rstrip_digits_spaces.
Qed.

(** A string of digits, read as it stands. *)
Lemma int_digits t n :
  all_digits t -> t <> EmptyString -> Py.parse_digits 10 0 t = Some n ->
  Py.int 10 t = Some n.
Proof.
  intros Ht Hne Hparse. unfold Py.int.
  assert (Py.strip t = t) as ->.
  { rewrite <- (strip_padded EmptyString t EmptyString) at 2 by done.
    change (EmptyString +:+ t +:+ EmptyString) with (t +:+ EmptyString).
    f_equal. clear. induction t as [|c t IH]; [done|].
    change (String c t +:+ EmptyString) with (String c (t +:+ EmptyString)). by rewrite <- IH. }
  destruct t as [|c t]; [done|]. destruct Ht as [(d & Hd & ->) Ht].
  destruct (digit_cases d Hd) as [->|[->|[->|[->|[->|[->|[->|[->|[->| ->]]]]]]]]];
    exact Hparse.
Qed.

Lemma str_nonneg n :
  0 <= n ->
  all_digits (Py.str n) /\ Py.str n <> EmptyString /\
  Py.parse_digits 10 0 (Py.str n) = Some n.
Proof.
  intros Hn. unfold Py.str. assert ((n <? 0) = false) as -> by lia.
  split; [by apply digits_all_digits|]. split; [apply digits_nonempty|].
  destruct (parse_digits_digits _ n EmptyString (fuel_suffices n Hn)) as (p & _ & H).
  rewrite H. cbn. reflexivity.
Qed.

(** What [str] prints, [int] reads back, blanks around it or not. *)
Lemma int_str_padded n pad pad' :
  0 <= n -> blank pad = true -> blank pad' = true ->
  Py.strip (pad +:+ Py.str n +:+ pad') = Py.str n /\
  Py.int 10 (Py.str n) = Some n.
Proof.
  intros Hn Hp Hp'. destruct (str_nonneg n Hn) as (Hd & Hne & Hparse).
  split; [by apply strip_padded|by apply int_digits].
Qed.

End PyRoundTrip.

(** ** igvm/drbd.py: the size of the volume *)

Module DrbdSize.

Import Eff Drbd Sample Faults PyText PyRoundTrip.

(** X20.  [get_device_size] reads back what [lvs] prints: for a size
    printed in decimal with blanks before or after it, as [lvs] pads
    its columns, it makes the one call and returns the size.  When the
    output is no number, with or without blanks around it, [ValueError]
    leaves [take_over_device] before the device is suspended: the
    query is its only call. *)
Theorem get_device_size_reads_lvs (env : Env) (self : DRBD) (s : state) :
  let lvs := Run (hostname (hv self)) (LvsSize (vg_name self) (lv_name self)) false false in
  (forall n pad pad',
     0 <= n -> blank pad = true -> blank pad' = true ->
     ask_str env (trace s) lvs = Ok (pad +:+ Py.str n +:+ pad') ->
     get_device_size env self s
       = (log (Call lvs (RStr (pad +:+ Py.str n +:+ pad'))) s, Ok n)) /\
  (forall out,
     ask_str env (trace s) lvs = Ok out -> Py.int 10 (Py.strip out) = None ->
     take_over_device env self s
       = (State (trace s ++ [Call lvs (RStr out); Raised (ValueError (Py.strip out))])
            (heap s),
          Raise (ValueError (Py.strip out)))).
Proof.
  intros lvs. unfold lvs. clear lvs. split.
  - intros n pad pad' Hn Hp Hp' Hask.
    unfold get_device_size, hv_run, bind, call_str. rewrite Hask.
    destruct (int_str_padded n pad pad' Hn Hp Hp') as [-> ->]. reflexivity.
  - intros out Hask Hnone.
    unfold take_over_device, get_device_size, hv_run, bind, call_str. rewrite Hask, Hnone.
    unfold raise, log. cbn [trace heap]. by rewrite <- app_assoc.
Qed.

Lemma get_device_size_reads_lvs_witness :
  get_device_size world primary fresh
    = (log (Call (Run "hv1.example" (LvsSize "xen-data" "vm1.example") false false)
              (RStr ("  " +:+ Py.str 6442450944 +:+ EmptyString))) fresh,
       Ok 6442450944).
Proof.
  apply (proj1 (get_device_size_reads_lvs world primary fresh) 6442450944 "  " EmptyString);
    [lia|reflexivity|reflexivity|vm_compute; reflexivity].
Defined.

End DrbdSize.
